(** * Image processing backend: embedding generation and similarity search

    A shallow embedding of [app/services/image_processing.py],
    [app/services/vector_service.py], [app/models/image.py],
    [app/schemas/image.py] and the endpoints of [app/api/v1/images.py],
    with the properties of the embedding and similarity subsystem, and of
    the calls around them, proved about it.

    Conventions of the embedding.
    - Python [bytes] and [str] are byte strings ([string]); [str.encode()]
      is the identity on them.
    - A Python [float] is a real number ([R]) and the float operations of
      the interpreter are an interface ([PyFloat]): each returns the exact
      result up to a relative error.  Overflow, underflow and NaN are not
      modelled.  A score the database computes is a real number, and
      pgvector's distance is the exact cosine distance.
    - A Python exception is a value of [exn]; a call that may raise returns
      a [Result].
    - The interpreter-wide generator of the [random] module is an explicit
      state threaded through the calls that touch it.
    - [hashlib], [random], PIL and the clock are outside the repository:
      they are interfaces ([Hashlib], [PyRandom], [Pillow]) or arguments.
    - The database session is taken to execute every statement it is given:
      connection faults and timeouts are outside the model, errors the
      statement itself provokes are inside it. *)

From Stdlib Require Import List Bool Arith ZArith NArith Lia.
From Stdlib Require Import Ascii String DecimalString.
From Stdlib Require Import Reals Lra.
From Stdlib Require Import Permutation Sorted.
Import ListNotations.

Set Implicit Arguments.

(* ================================================================== *)
(** ** Exceptions and results *)

Inductive exn : Type :=
| ValueError (msg : string)
| ZeroDivisionError
| UnidentifiedImageError (msg : string)
| ValidationError (msg : string)
| SQLAlchemyError (msg : string)
| MultipleResultsFound
| RuntimeError (msg : string)
| HTTPException (status_code : Z) (detail : string).

Inductive Result (A : Type) : Type :=
| Ok (a : A)
| Raise (e : exn).

Arguments Ok {A} a.
Arguments Raise {A} e.

(** [str(e)] *)
Definition str_exn (e : exn) : string :=
  match e with
  | ValueError m => m
  | ZeroDivisionError => "integer modulo by zero"
  | UnidentifiedImageError m => m
  | ValidationError m => m
  | SQLAlchemyError m => m
  | MultipleResultsFound => "Multiple rows were found when one or none was required"
  | RuntimeError m => m
  | HTTPException c d => d
  end.

(** [except HTTPException] *)
Definition is_HTTPException (e : exn) : bool :=
  match e with HTTPException _ _ => true | _ => false end.

Module ResultMonad.

Definition ret {A} (a : A) : Result A := Ok a.

Definition bind {A B} (m : Result A) (k : A -> Result B) : Result B :=
  match m with
  | Ok a => k a
  | Raise e => Raise e
  end.

(** [try: body  except Exception as e: handler e] *)
Definition try_except {A} (body : Result A) (handler : exn -> Result A)
  : Result A :=
  match body with
  | Ok a => Ok a
  | Raise e => handler e
  end.

Fixpoint mapM {A B} (f : A -> Result B) (l : list A) : Result (list B) :=
  match l with
  | [] => Ok []
  | x :: xs =>
      bind (f x) (fun y => bind (mapM f xs) (fun ys => Ok (y :: ys)))
  end.

End ResultMonad.

(* ================================================================== *)
(** ** Strings *)

Definition bytes := string.

Section Strings.
Local Open Scope string_scope.
Local Open Scope Z_scope.

Definition is_hex_char (c : ascii) : bool :=
  let n := Z.of_N (N_of_ascii c) in
  ((48 <=? n) && (n <=? 57)) || ((97 <=? n) && (n <=? 102))
  || ((65 <=? n) && (n <=? 70)).

Definition hex_digit_value (c : ascii) : option Z :=
  let n := Z.of_N (N_of_ascii c) in
  if (48 <=? n) && (n <=? 57) then Some (n - 48)
  else if (97 <=? n) && (n <=? 102) then Some (n - 87)
  else if (65 <=? n) && (n <=? 70) then Some (n - 55)
  else None.

Fixpoint int16_aux (s : string) (acc : Z) : Result Z :=
  match s with
  | EmptyString => Ok acc
  | String c s' =>
      match hex_digit_value c with
      | Some d => int16_aux s' (acc * 16 + d)
      | None => Raise (ValueError "invalid literal for int() with base 16")
      end
  end.

(** [int(s, 16)] on a string of hexadecimal digits; any other string
    (the empty one too) is a [ValueError].  Python also accepts a sign,
    blanks, a [0x] prefix and underscores, which no digest contains. *)
Definition int16 (s : string) : Result Z :=
  match s with
  | EmptyString => Raise (ValueError "invalid literal for int() with base 16")
  | _ => int16_aux s 0
  end.

Fixpoint forallb_string (p : ascii -> bool) (s : string) : bool :=
  match s with
  | EmptyString => true
  | String c s' => p c && forallb_string p s'
  end.

(** What [hexdigest()] returns for a digest of [n] hexadecimal digits. *)
Definition is_hexdigest (n : nat) (s : string) : bool :=
  Nat.eqb (String.length s) n && forallb_string is_hex_char s.

End Strings.

(* ================================================================== *)
(** ** The libraries the service calls *)

(** [hashlib.sha256(b).hexdigest()] and [hashlib.md5(b).hexdigest()]. *)
Class Hashlib : Type := {
  sha256_hexdigest : bytes -> string;
  md5_hexdigest : bytes -> string;
  sha256_hexdigest_spec : forall b, is_hexdigest 64 (sha256_hexdigest b) = true;
  md5_hexdigest_spec : forall b, is_hexdigest 32 (md5_hexdigest b) = true
}.

(** The module-level generator of [random].  [random.seed(a)] replaces the
    whole state by one computed from [a], a string or an integer;
    [random.random()] draws a float and advances the state. *)
Class PyRandom : Type := {
  rng_state : Type;
  seed_str : string -> rng_state -> rng_state;
  seed_int : Z -> rng_state -> rng_state;
  random : rng_state -> R * rng_state;
  seed_str_reset : forall a s s', seed_str a s = seed_str a s';
  seed_int_reset : forall a s s', seed_int a s = seed_int a s'
}.

(** A bound on the relative error of one float operation: 2^-50, eight
    times the unit roundoff 2^-53 of binary64. *)
Definition eps : R := (/ 1125899906842624)%R.

(** [x] is the nonnegative number [y] up to [k] roundings. *)
Definition close (k : nat) (x y : R) : Prop :=
  (0 <= y /\ (1 - eps) ^ k * y <= x /\ x * (1 - eps) ^ k <= y)%R.

(** The exact sum of a list. *)
Definition Rsum (l : list R) : R := fold_right Rplus 0%R l.

(** The float operations the service uses: [x + y], [x * y], [x / y],
    [x ** 2], [math.sqrt(x)] and [sum(l)].  Those that decide the norm of
    a vector come with their accuracy, which IEEE 754 arithmetic has as
    long as nothing overflows or underflows: a square, a square root and
    a quotient are one rounding from the exact value, and the sum of [n]
    nonnegative numbers is at most [n] roundings from the exact sum. *)
Class PyFloat : Type := {
  fadd : R -> R -> R;
  fmul : R -> R -> R;
  fdiv : R -> R -> R;
  fpow2 : R -> R;
  fsqrt : R -> R;
  fsum : list R -> R;
  fpow2_close : forall x, close 1 (fpow2 x) (x * x);
  fsqrt_close : forall x, (0 <= x)%R -> close 1 (fsqrt x) (sqrt x);
  fdiv_close :
    forall x y, y <> 0%R -> close 1 (Rabs (fdiv x y)) (Rabs (x / y));
  fsum_close :
    forall l, Forall (fun x => 0 <= x)%R l ->
              close (List.length l) (fsum l) (Rsum l)
}.

(** [app/core/config.py]: the settings the modelled code reads. *)
Record Settings : Type := {
  EMBEDDING_DIMENSION : nat;
  SIMILARITY_THRESHOLD : R;
  MAX_FILE_SIZE : Z;
  ALLOWED_EXTENSIONS : list string
}.

(** The values of [class Settings] when the environment overrides none. *)
Definition default_settings : Settings := {|
  EMBEDDING_DIMENSION := 512;
  SIMILARITY_THRESHOLD := (7 / 10)%R;
  MAX_FILE_SIZE := (10 * 1024 * 1024)%Z;
  ALLOWED_EXTENSIONS := [".jpg"; ".jpeg"; ".png"; ".gif"; ".bmp"]%string
|}.

(* ================================================================== *)
(** ** Computations over the global generator *)

Module Rand.
Section Rand.
Context {fp : PyFloat} {rnd : PyRandom}.

(** A computation reads and writes the generator and may raise; the
    generator keeps whatever was written before the exception. *)
Definition M (A : Type) : Type := rng_state -> Result A * rng_state.

Definition ret {A} (a : A) : M A := fun s => (Ok a, s).

Definition bind {A B} (m : M A) (k : A -> M B) : M B :=
  fun s =>
    match m s with
    | (Ok a, s') => k a s'
    | (Raise e, s') => (Raise e, s')
    end.

Definition lift {A} (r : Result A) : M A := fun s => (r, s).

(** [random.seed(a)] with a string and with an integer argument. *)
Definition random_seed_str (a : string) : M unit :=
  fun s => (Ok tt, seed_str a s).

Definition random_seed_int (a : Z) : M unit :=
  fun s => (Ok tt, seed_int a s).

(** [random.uniform(a, b)] is [a + (b - a) * random()]; the service calls
    it with the integers -1 and 1, whose difference is exact. *)
Definition random_uniform (a b : R) : M R :=
  fun s => let (r, s') := random s in (Ok (fadd a (fmul (b - a) r)), s').

(** [for x in l: acc = body x acc] *)
Fixpoint for_each {A S} (l : list A) (body : A -> S -> M S) (acc : S) : M S :=
  match l with
  | [] => ret acc
  | x :: xs => bind (body x acc) (fun acc' => for_each xs body acc')
  end.

End Rand.
End Rand.

Declare Scope rand_scope.
Delimit Scope rand_scope with rand.
Notation "x <- c ;; k" := (Rand.bind c (fun x => k))
  (at level 61, c at next level, right associativity) : rand_scope.
Notation "c ;;; k" := (Rand.bind c (fun _ => k))
  (at level 61, right associativity) : rand_scope.

(* ================================================================== *)
(** ** [ImageProcessingService.generate_mock_embedding] *)

Section Embedding.
Context {fp : PyFloat} {hl : Hashlib} {rnd : PyRandom}.

Variable settings : Settings.

Local Open Scope string_scope.

(** [combined_hash], lines 129-131. *)
Definition combined_hash_of (content : bytes) (filename : string) : string :=
  let content_hash := sha256_hexdigest content in
  let filename_hash := md5_hexdigest filename in
  sha256_hexdigest (content_hash ++ "_" ++ filename_hash).

(** [combined_hash[i % len(combined_hash)]] *)
Definition char_at_mod (h : string) (i : nat) : Result string :=
  match String.length h with
  | O => Raise ZeroDivisionError
  | n =>
      match String.get (i mod n) h with
      | Some c => Ok (String c EmptyString)
      | None => Raise (ValueError "string index out of range")
      end
  end.

(** One turn of the loop, lines 139-145. *)
Definition embedding_step (combined_hash : string) (i : nat)
           (embedding : list R) : Rand.M (list R) :=
  (c <- Rand.lift (char_at_mod combined_hash i) ;;
   seed_offset <- Rand.lift (int16 c) ;;
   base <- Rand.lift (int16 (String.substring 0 8 combined_hash)) ;;
   Rand.random_seed_int (base + Z.of_nat i + seed_offset)%Z ;;;
   value <- Rand.random_uniform (-1) 1 ;;
   Rand.ret (embedding ++ [value])%list)%rand.

(** The loop over [range(settings.EMBEDDING_DIMENSION)], lines 137-145. *)
Definition embedding_loop (combined_hash : string) : Rand.M (list R) :=
  Rand.for_each (seq 0 (EMBEDDING_DIMENSION settings)) (embedding_step combined_hash) [].

(** The vector before normalisation, lines 129-145. *)
Definition raw_embedding (content : bytes) (filename : string)
  : Rand.M (list R) :=
  (let combined_hash := combined_hash_of content filename in
   Rand.random_seed_str combined_hash ;;;
   embedding_loop combined_hash)%rand.

(** [math.sqrt(sum(x**2 for x in embedding))], as line 148 and the test
    of normalisation compute it. *)
Definition l2_norm (v : list R) : R := fsqrt (fsum (map fpow2 v)).

(** Lines 148-150. *)
Definition normalize (embedding : list R) : list R :=
  let norm := l2_norm embedding in
  if Rlt_dec 0 norm then map (fun x => fdiv x norm) embedding
  else embedding.

(** The Euclidean norm itself. *)
Definition sq (x : R) : R := (x * x)%R.

Definition euclidean_norm (v : list R) : R := sqrt (Rsum (map sq v)).

Definition generate_mock_embedding (content : bytes) (filename : string)
  : Rand.M (list R) :=
  (embedding <- raw_embedding content filename ;;
   Rand.ret (normalize embedding))%rand.

(** The same function with line 134, the first [random.seed], removed. *)
Definition raw_embedding_unseeded (content : bytes) (filename : string)
  : Rand.M (list R) :=
  embedding_loop (combined_hash_of content filename).

Definition generate_mock_embedding_unseeded (content : bytes)
           (filename : string) : Rand.M (list R) :=
  (embedding <- raw_embedding_unseeded content filename ;;
   Rand.ret (normalize embedding))%rand.

(** Lines 140-144 for one index: [value] is what [random.uniform(-1, 1)]
    gives right after [random.seed(base + i + seed_offset)], where
    [seed_offset] is the digit of the digest [h] at [i % len(h)] and [base]
    stands for [int(h[:8], 16)]. *)
Definition drawn_at (h : string) (base : Z) (i : nat) (value : R) : Prop :=
  exists c seed_offset,
    char_at_mod h i = Ok c
    /\ int16 c = Ok seed_offset
    /\ forall s0,
         fst ((Rand.random_seed_int (base + Z.of_nat i + seed_offset) ;;;
               Rand.random_uniform (-1) 1)%rand s0) = Ok value.

End Embedding.

(* ================================================================== *)
(** ** Metadata dictionaries *)

(** The values the service stores in a metadata [dict]. *)
Inductive MetaValue : Type :=
| MStr (s : string)
| MInt (n : Z)
| MBool (b : bool)
| MTuple (a b : Z)
| MList (l : list Z)
| MDict (d : list (string * string)).

(** A [dict] with string keys, in insertion order. *)
Definition Metadata : Type := list (string * MetaValue).

Fixpoint dict_get (d : Metadata) (k : string) : option MetaValue :=
  match d with
  | [] => None
  | (k', v) :: d' => if String.eqb k' k then Some v else dict_get d' k
  end.

(** [d[k] = v]: an existing key keeps its place, a new one goes last. *)
Fixpoint dict_set (d : Metadata) (k : string) (v : MetaValue) : Metadata :=
  match d with
  | [] => [(k, v)]
  | (k', v') :: d' =>
      if String.eqb k' k then (k', v) :: d' else (k', v') :: dict_set d' k v
  end.

(** [d.update(u)] *)
Definition dict_update (d u : Metadata) : Metadata :=
  fold_left (fun acc kv => dict_set acc (fst kv) (snd kv)) u d.

(* ================================================================== *)
(** ** Pillow *)

(** A value of an EXIF tag: the three types line 97 keeps ([float] by its
    [str]), and everything else. *)
Inductive ExifValue : Type :=
| ExifStr (s : string)
| ExifInt (n : Z)
| ExifFloat (repr : string)
| ExifOther.

(** What the service reads of an opened image.  [img_getexif] is [None]
    when the image class has no [_getexif]; calling it may raise, and it
    returns [None] or a dictionary. *)
Record PILImage : Type := {
  img_format : string;
  img_mode : string;
  img_size : Z * Z;
  img_info_transparency : bool;
  img_verify : Result unit;
  img_getexif : option (Result (option (list (Z * ExifValue))))
}.

(** [Image.open(io.BytesIO(content))]: an image, or an exception (a
    subclass of [Exception]). *)
Class Pillow : Type := {
  Image_open : bytes -> Result PILImage
}.

(* ================================================================== *)
(** ** [ImageProcessingService]: validation and metadata *)

Section StringOps.
Local Open Scope string_scope.

(** [s.lower()] on ASCII letters. *)
Definition lower_char (c : ascii) : ascii :=
  let n := N_of_ascii c in
  if (N.leb 65 n && N.leb n 90)%bool then ascii_of_N (n + 32) else c.

Fixpoint lower (s : string) : string :=
  match s with
  | EmptyString => EmptyString
  | String c s' => String (lower_char c) (lower s')
  end.

(** ["." in s] *)
Fixpoint contains_dot (s : string) : bool :=
  match s with
  | EmptyString => false
  | String c s' => Ascii.eqb c "."%char || contains_dot s'
  end.

Fixpoint last_segment_aux (s acc : string) : string :=
  match s with
  | EmptyString => acc
  | String c s' =>
      if Ascii.eqb c "."%char then last_segment_aux s' EmptyString
      else last_segment_aux s' (acc ++ String c EmptyString)
  end.

(** [s.split(".")[-1]] *)
Definition last_segment (s : string) : string := last_segment_aux s EmptyString.

(** [x in l] for a list of strings *)
Definition string_in (x : string) (l : list string) : bool :=
  existsb (String.eqb x) l.

(** [str(n)] for an [int] *)
Definition str_int (n : Z) : string :=
  DecimalString.NilZero.string_of_int (Z.to_int n).

(** [str(l)] for a list of strings without quotes or escapes in them *)
Definition str_list (l : list string) : string :=
  "[" ++ String.concat ", " (map (fun x => "'" ++ x ++ "'") l) ++ "]".

(** [x or "unknown"] for an optional string *)
Definition or_unknown (x : option string) : string :=
  match x with
  | None => "unknown"
  | Some EmptyString => "unknown"
  | Some s => s
  end.

End StringOps.

Section ImageProcessing.
Context {fp : PyFloat} {hl : Hashlib} {rnd : PyRandom} {pil : Pillow}.

Variable settings : Settings.

Local Open Scope string_scope.
Import ResultMonad.

(** Lines 36-67. *)
Definition validate_image (content : bytes) (content_type filename : string)
  : Result unit :=
  if (MAX_FILE_SIZE settings <? Z.of_nat (String.length content))%Z then
    Raise (HTTPException 413
             ("File size exceeds maximum allowed size of "
              ++ str_int (MAX_FILE_SIZE settings) ++ " bytes"))
  else if negb (String.prefix "image/" content_type) then
    Raise (HTTPException 400 "File must be an image")
  else
    let file_extension :=
      if contains_dot filename then last_segment (lower filename) else "" in
    if negb (string_in ("." ++ file_extension)
                       (map lower (ALLOWED_EXTENSIONS settings))) then
      Raise (HTTPException 400
               ("File extension not allowed. Allowed extensions: "
                ++ str_list (ALLOWED_EXTENSIONS settings)))
    else
      try_except
        (bind (Image_open content) (fun img => img_verify img))
        (fun e => Raise (HTTPException 400 ("Invalid image file: " ++ str_exn e))).

(** Lines 95-98: the EXIF entries whose value is a [str], [int] or [float]. *)
Definition exif_entry (kv : Z * ExifValue) : list (string * string) :=
  match snd kv with
  | ExifStr s => [(str_int (fst kv), s)]
  | ExifInt n => [(str_int (fst kv), str_int n)]
  | ExifFloat r => [(str_int (fst kv), r)]
  | ExifOther => []
  end.

(** Truth value of what [_getexif()] returns. *)
Definition exif_truthy (e : option (list (Z * ExifValue))) : bool :=
  match e with
  | None => false
  | Some [] => false
  | Some _ => true
  end.

(** Lines 81-100, the body of the [try]. *)
Definition extract_image_metadata_body (content : bytes) : Result Metadata :=
  bind (Image_open content) (fun img =>
    let metadata : Metadata :=
      [ ("format", MStr (img_format img));
        ("mode", MStr (img_mode img));
        ("size", MTuple (fst (img_size img)) (snd (img_size img)));
        ("width", MInt (fst (img_size img)));
        ("height", MInt (snd (img_size img)));
        ("has_transparency",
          MBool (string_in (img_mode img) ["RGBA"; "LA"]
                 || img_info_transparency img)) ] in
    match img_getexif img with
    | None => Ok metadata
    | Some getexif =>
        bind getexif (fun tested =>
          if exif_truthy tested then
            bind getexif (fun exif =>
              match exif with
              | Some (_ :: _ as items) =>
                  Ok (dict_set metadata "exif"
                        (MDict (flat_map exif_entry items)))
              | _ => Ok metadata
              end)
          else Ok metadata)
    end).

(** Lines 103-111, the [except Exception as e] branch. *)
Definition extraction_fallback (e : exn) : Metadata :=
  [ ("format", MStr "unknown");
    ("mode", MStr "unknown");
    ("size", MList [0; 0]%Z);
    ("width", MInt 0);
    ("height", MInt 0);
    ("has_transparency", MBool false);
    ("extraction_error", MStr (str_exn e)) ].

Definition extract_image_metadata (content : bytes) : Result Metadata :=
  try_except (extract_image_metadata_body content)
             (fun e => Ok (extraction_fallback e)).

(** Lines 174-191.  [now_iso] is [datetime.utcnow().isoformat()]. *)
Definition process_image (now_iso : string) (content : bytes)
           (filename content_type : string)
  : Rand.M (list R * Metadata) :=
  (_ <- Rand.lift (validate_image content content_type filename) ;;
   metadata <- Rand.lift (extract_image_metadata content) ;;
   let metadata :=
     dict_update metadata
       [ ("processing_timestamp", MStr now_iso);
         ("embedding_method", MStr "mock_hash_based");
         ("embedding_dimension", MInt (Z.of_nat (EMBEDDING_DIMENSION settings)));
         ("processed_by", MStr "ImageProcessingService") ] in
   embedding <- generate_mock_embedding settings content filename ;;
   Rand.ret (embedding, metadata))%rand.

End ImageProcessing.

(* ================================================================== *)
(** ** [app/models/image.py]: the [images] table *)

(** A UUID, as the 128-bit number it is. *)
Definition UUID : Type := N.

Definition datetime : Type := Z.

(** [str(uuid)] up to the dashes: the 32 hexadecimal digits. *)
Definition hex_char_of (d : N) : ascii :=
  if N.ltb d 10 then ascii_of_N (48 + d) else ascii_of_N (87 + d).

Fixpoint hex_digits (n : nat) (x : N) (acc : string) : string :=
  match n with
  | O => acc
  | S n' => hex_digits n' (N.div x 16) (String (hex_char_of (N.modulo x 16)) acc)
  end.

Definition str_uuid (u : UUID) : string := hex_digits 32 u EmptyString.

Module Image.

(** One row of [images]. *)
Record t : Type := {
  id : UUID;
  filename : string;
  original_filename : string;
  content_type : string;
  file_size : Z;
  file_path : option string;
  upload_timestamp : datetime;
  processed_timestamp : option datetime;
  embedding_vector : list R;
  image_metadata : option Metadata;
  processing_status : string
}.

(** The constructor as the mapped class gives it: a column that is not
    passed takes its default, [None] for [file_path] and for
    [processed_timestamp], ["pending"] for [processing_status].  The
    primary key and the upload timestamp, which the session and the server
    fill in, are arguments. *)
Definition create (id : UUID) (upload_timestamp : datetime)
           (filename original_filename content_type : string) (file_size : Z)
           (embedding_vector : list R) (image_metadata : option Metadata)
           (processing_status : option string)
           (processed_timestamp : option datetime) : t :=
  {| id := id;
     filename := filename;
     original_filename := original_filename;
     content_type := content_type;
     file_size := file_size;
     file_path := None;
     upload_timestamp := upload_timestamp;
     processed_timestamp := processed_timestamp;
     embedding_vector := embedding_vector;
     image_metadata := image_metadata;
     processing_status :=
       match processing_status with
       | Some status => status
       | None => "pending"%string
       end |}.

End Image.

(** The table, in the order a scan meets the rows. *)
Definition Table : Type := list Image.t.

(** The primary key. *)
Definition pk_unique (tbl : Table) : Prop := NoDup (map Image.id tbl).

Definition completed : string := "completed".
Definition pending : string := "pending".

Definition is_completed (img : Image.t) : bool :=
  String.eqb (Image.processing_status img) completed.

Section Database.
Variable settings : Settings.
Local Open Scope string_scope.

(** What the column types accept: [Vector(EMBEDDING_DIMENSION)],
    [String(n)] and [Integer]. *)
Definition column_types_ok (img : Image.t) : bool :=
  Nat.eqb (List.length (Image.embedding_vector img)) (EMBEDDING_DIMENSION settings)
  && Nat.leb (String.length (Image.filename img)) 255
  && Nat.leb (String.length (Image.original_filename img)) 255
  && Nat.leb (String.length (Image.content_type img)) 100
  && Nat.leb (String.length (Image.processing_status img)) 50
  && match Image.file_path img with
     | Some p => Nat.leb (String.length p) 512
     | None => true
     end
  && (Z.leb (-2147483648) (Image.file_size img)
      && Z.leb (Image.file_size img) 2147483647).

Definition id_in (u : UUID) (tbl : Table) : bool :=
  existsb (fun r => N.eqb (Image.id r) u) tbl.

(** [session.add(img); await session.commit()] *)
Definition db_insert (tbl : Table) (img : Image.t) : Result Table :=
  if id_in (Image.id img) tbl then
    Raise (SQLAlchemyError "duplicate key value violates unique constraint")
  else if negb (column_types_ok img) then
    Raise (SQLAlchemyError "value rejected by the column type")
  else Ok (tbl ++ [img])%list.

(** [await session.commit()] after the attributes of the row [u] were set. *)
Definition db_update (tbl : Table) (u : UUID) (img : Image.t) : Result Table :=
  if negb (column_types_ok img) then
    Raise (SQLAlchemyError "value rejected by the column type")
  else Ok (map (fun r => if N.eqb (Image.id r) u then img else r) tbl).

(** [session.delete(img); await session.commit()] *)
Definition db_delete (tbl : Table) (u : UUID) : Table :=
  filter (fun r => negb (N.eqb (Image.id r) u)) tbl.

(** [select(...).where(Image.id == u)] then [scalar_one_or_none()]. *)
Definition scalar_one_or_none {A} (rows : list A) : Result (option A) :=
  match rows with
  | [] => Ok None
  | [x] => Ok (Some x)
  | _ => Raise MultipleResultsFound
  end.

Definition select_by_id (tbl : Table) (u : UUID) : list Image.t :=
  filter (fun r => N.eqb (Image.id r) u) tbl.

End Database.

(* ================================================================== *)
(** ** Cosine distance *)

Definition Rleb (x y : R) : bool := if Rle_dec x y then true else false.

Section Cosine.
Local Open Scope R_scope.

Fixpoint dot (a b : list R) : R :=
  match a, b with
  | x :: a', y :: b' => x * y + dot a' b'
  | _, _ => 0
  end.

Definition vector_norm (a : list R) : R := sqrt (dot a a).

(** Modelled from the spec: pgvector's operator [<=>]
    ([Vector.cosine_distance]), which the repository calls and does not
    contain; one minus [dot(a,b) / (|a| * |b|)]. *)
Definition cosine_distance (a b : list R) : R :=
  1 - dot a b / (vector_norm a * vector_norm b).

End Cosine.

(* ================================================================== *)
(** ** [ORDER BY ... DESC] and [LIMIT] *)

(** SQL orders the rows by the key and leaves the order of rows with equal
    keys to the database: every sorted rearrangement is a possible result. *)
Definition order_by_desc {A} (key : A -> R) (rows out : list A) : Prop :=
  Permutation rows out /\ Sorted (fun a b => (key a >= key b)%R) out.

(** [LIMIT n]; a negative [n] is an error of the statement. *)
Definition sql_limit {A} (limit : Z) (rows : list A) : Result (list A) :=
  if (limit <? 0)%Z then Raise (SQLAlchemyError "LIMIT must not be negative")
  else Ok (firstn (Z.to_nat limit) rows).

(** Descending order of the keys, and strictly descending order. *)
Definition ge_key {A} (key : A -> R) (a b : A) : Prop := (key a >= key b)%R.
Definition gt_key {A} (key : A -> R) (a b : A) : Prop := (key a > key b)%R.

(** One execution the database may choose: insertion by descending key. *)
Fixpoint insert_desc {A} (key : A -> R) (x : A) (l : list A) : list A :=
  match l with
  | [] => [x]
  | y :: l' => if Rleb (key y) (key x) then x :: l else y :: insert_desc key x l'
  end.

Definition sort_desc {A} (key : A -> R) (l : list A) : list A :=
  fold_right (insert_desc key) [] l.

(** [OFFSET n]; a negative [n] is an error of the statement too. *)
Definition sql_offset {A} (offset : Z) (rows : list A) : Result (list A) :=
  if (offset <? 0)%Z then Raise (SQLAlchemyError "OFFSET must not be negative")
  else Ok (skipn (Z.to_nat offset) rows).

(* ================================================================== *)
(** ** [app/schemas/image.py] *)

Module SimilarImage.

Record t : Type := {
  id : UUID;
  filename : string;
  content_type : string;
  similarity_score : R;
  upload_timestamp : datetime
}.

(** The constructor of the schema: [Field(..., ge=0, le=1)] validates the
    score and raises otherwise. *)
Definition new (id : UUID) (filename content_type : string)
           (similarity_score : R) (upload_timestamp : datetime) : Result t :=
  if Rleb 0 similarity_score && Rleb similarity_score 1 then
    Ok {| id := id; filename := filename; content_type := content_type;
          similarity_score := similarity_score;
          upload_timestamp := upload_timestamp |}
  else Raise (ValidationError "similarity_score: input out of range").

End SimilarImage.

Module SimilarImagesResponse.

Record t : Type := {
  query_image_id : UUID;
  similar_images : list SimilarImage.t;
  total_results : Z;
  search_timestamp : datetime
}.

End SimilarImagesResponse.

Module ImageUploadResponse.

Record t : Type := {
  id : UUID;
  filename : string;
  message : string;
  processing_status : string
}.

End ImageUploadResponse.

Module ImageMetadata.

Record t : Type := {
  id : UUID;
  filename : string;
  content_type : string;
  file_size : Z;
  upload_timestamp : datetime;
  processed_timestamp : option datetime;
  processing_status : string;
  metadata : option Metadata
}.

End ImageMetadata.

Module ImageCreate.
Section ImageCreate.
Variable settings : Settings.
Local Open Scope string_scope.

(** The validator of [embedding_vector], lines 32-43. *)
Definition validate_embedding_dimension (v : list R) : Result (list R) :=
  if negb (Nat.eqb (List.length v) (EMBEDDING_DIMENSION settings)) then
    Raise (ValueError
             ("Embedding vector must have "
              ++ str_int (Z.of_nat (EMBEDDING_DIMENSION settings))
              ++ " dimensions, got " ++ str_int (Z.of_nat (List.length v))))
  else Ok v.

End ImageCreate.
End ImageCreate.

(* ================================================================== *)
(** ** [app/services/vector_service.py] *)

Module VectorService.
Section VectorService.
Variable settings : Settings.
Local Open Scope string_scope.
Import ResultMonad.

(** A row of the similarity statement, lines 59-65. *)
Record SimilarRow : Type := {
  row_id : UUID;
  row_filename : string;
  row_content_type : string;
  row_upload_timestamp : datetime;
  row_similarity_score : R
}.

(** [1 - Image.embedding_vector.cosine_distance(query_embedding)] *)
Definition similarity (query_embedding : list R) (img : Image.t) : R :=
  (1 - cosine_distance (Image.embedding_vector img) query_embedding)%R.

(** The [where] clauses, lines 66-72: [if query_image_id] holds for every
    UUID. *)
Definition similar_where (query_embedding : list R)
           (query_image_id : option UUID) (threshold : R) (img : Image.t)
  : bool :=
  is_completed img
  && Rleb threshold (similarity query_embedding img)
  && match query_image_id with
     | Some u => negb (N.eqb (Image.id img) u)
     | None => true
     end.

Definition similar_row (query_embedding : list R) (img : Image.t)
  : SimilarRow :=
  {| row_id := Image.id img;
     row_filename := Image.filename img;
     row_content_type := Image.content_type img;
     row_upload_timestamp := Image.upload_timestamp img;
     row_similarity_score := similarity query_embedding img |}.

(** The rows the statement selects, before [ORDER BY] and [LIMIT]. *)
Definition similar_candidates (tbl : Table) (query_embedding : list R)
           (query_image_id : option UUID) (threshold : R) : list SimilarRow :=
  map (similar_row query_embedding)
      (filter (similar_where query_embedding query_image_id threshold) tbl).

(** [session.execute(stmt)] then [fetchall()], lines 75-82. *)
Definition execute_similar (tbl : Table) (query_embedding : list R)
           (query_image_id : option UUID) (limit : Z) (threshold : R)
           (fetched : Result (list SimilarRow)) : Prop :=
  exists sorted,
    order_by_desc row_similarity_score
      (similar_candidates tbl query_embedding query_image_id threshold) sorted
    /\ fetched = sql_limit limit sorted.

Definition to_similar_image (row : SimilarRow) : Result SimilarImage.t :=
  SimilarImage.new (row_id row) (row_filename row) (row_content_type row)
                   (row_similarity_score row) (row_upload_timestamp row).

(** Lines 84-106: the conversion loop and the [except] clauses. *)
Definition similar_images_of (fetched : Result (list SimilarRow))
  : Result (list SimilarImage.t) :=
  match fetched with
  | Raise e =>
      Raise (RuntimeError ("Database error during similarity search: " ++ str_exn e))
  | Ok rows =>
      try_except (mapM to_similar_image rows)
        (fun e => Raise (RuntimeError
                    ("Unexpected error during similarity search: " ++ str_exn e)))
  end.

(** Lines 50-51. *)
Definition effective_threshold (threshold : option R) : R :=
  match threshold with
  | None => SIMILARITY_THRESHOLD settings
  | Some t => t
  end.

(** [find_similar_images]: [out] is a possible outcome of the call. *)
Definition find_similar_images (tbl : Table) (query_embedding : list R)
           (query_image_id : option UUID) (limit : Z) (threshold : option R)
           (out : Result (list SimilarImage.t)) : Prop :=
  exists fetched,
    execute_similar tbl query_embedding query_image_id limit
                    (effective_threshold threshold) fetched
    /\ out = similar_images_of fetched.

(** [store_image_embedding], lines 125-144; [now] is [datetime.utcnow()].
    Returns the outcome and the table after the call. *)
Definition store_image_embedding (now : datetime) (tbl : Table)
           (image_id : UUID) (embedding : list R) : Result bool * Table :=
  match scalar_one_or_none (select_by_id tbl image_id) with
  | Raise e =>
      (Raise (RuntimeError ("Database error storing embedding: " ++ str_exn e)), tbl)
  | Ok None => (Ok false, tbl)
  | Ok (Some image) =>
      let image' :=
        {| Image.id := Image.id image;
           Image.filename := Image.filename image;
           Image.original_filename := Image.original_filename image;
           Image.content_type := Image.content_type image;
           Image.file_size := Image.file_size image;
           Image.file_path := Image.file_path image;
           Image.upload_timestamp := Image.upload_timestamp image;
           Image.processed_timestamp := Some now;
           Image.embedding_vector := embedding;
           Image.image_metadata := Image.image_metadata image;
           Image.processing_status := completed |} in
      match db_update settings tbl image_id image' with
      | Ok tbl' => (Ok true, tbl')
      | Raise e =>
          (Raise (RuntimeError ("Database error storing embedding: " ++ str_exn e)),
           tbl)
      end
  end.

(** [get_image_embedding], lines 161-186. *)
Definition get_image_embedding (tbl : Table) (image_id : UUID)
  : Result (option (list R)) :=
  match scalar_one_or_none
          (map Image.embedding_vector
             (filter (fun r => N.eqb (Image.id r) image_id && is_completed r) tbl))
  with
  | Raise e =>
      Raise (RuntimeError ("Database error retrieving embedding: " ++ str_exn e))
  | Ok embedding => Ok embedding
  end.

(** The statement of [find_duplicate_images], lines 282-299:
    [images i1 CROSS JOIN images i2] under the [WHERE] clause. *)
Definition duplicate_where (threshold : R) (p : Image.t * Image.t) : bool :=
  is_completed (fst p) && is_completed (snd p)
  && N.ltb (Image.id (fst p)) (Image.id (snd p))
  && Rleb threshold
       (1 - cosine_distance (Image.embedding_vector (fst p))
                            (Image.embedding_vector (snd p)))%R.

Definition duplicate_row (p : Image.t * Image.t) : UUID * UUID * R :=
  (Image.id (fst p), Image.id (snd p),
   (1 - cosine_distance (Image.embedding_vector (fst p))
                        (Image.embedding_vector (snd p)))%R).

Definition image_pairs (tbl : Table) (threshold : R) : list (UUID * UUID * R) :=
  map duplicate_row (filter (duplicate_where threshold) (list_prod tbl tbl)).

(** [find_duplicate_images]: [out] is a possible outcome of the call. *)
Definition find_duplicate_images (tbl : Table) (threshold : R) (limit : Z)
           (out : Result (list (UUID * UUID * R))) : Prop :=
  exists sorted,
    order_by_desc snd (image_pairs tbl threshold) sorted
    /\ out = match sql_limit limit sorted with
             | Ok rows => Ok rows
             | Raise e =>
                 Raise (RuntimeError
                          ("Database error finding duplicates: " ++ str_exn e))
             end.

(** The dictionary [get_embedding_stats] returns, by its keys. *)
Record EmbeddingStats : Type := {
  total_images : Z;
  processed_images : Z;
  pending_images : Z;
  embedding_dimension : nat;
  similarity_threshold : R
}.

(** [SELECT COUNT( * ) FROM images WHERE processing_status = status] *)
Definition count_status (tbl : Table) (status : string) : Z :=
  Z.of_nat (List.length
              (filter (fun r => String.eqb (Image.processing_status r) status) tbl)).

(** [get_embedding_stats], lines 201-229. *)
Definition get_embedding_stats (tbl : Table) : Result EmbeddingStats :=
  let total := Z.of_nat (List.length tbl) in
  let processed := count_status tbl "completed" in
  let pending := count_status tbl "pending" in
  Ok {| total_images := total;
        processed_images := processed;
        pending_images := pending;
        embedding_dimension := EMBEDDING_DIMENSION settings;
        similarity_threshold := SIMILARITY_THRESHOLD settings |}.

(** The loop of [batch_similarity_search], lines 252-259: [results] is the
    list built so far, [out] a possible outcome of the remaining turns. *)
Fixpoint batch_loop (tbl : Table) (query_embeddings : list (list R))
         (limit : Z) (threshold : option R)
         (results : list (list SimilarImage.t))
         (out : Result (list (list SimilarImage.t))) : Prop :=
  match query_embeddings with
  | [] => out = Ok results
  | embedding :: rest =>
      exists found,
        find_similar_images tbl embedding None limit threshold found
        /\ match found with
           | Raise e => out = Raise e
           | Ok similar_images =>
               batch_loop tbl rest limit threshold
                          (results ++ [similar_images])%list out
           end
  end.

(** [batch_similarity_search]: [out] is a possible outcome of the call. *)
Definition batch_similarity_search (tbl : Table)
           (query_embeddings : list (list R)) (limit : Z)
           (threshold : option R)
           (out : Result (list (list SimilarImage.t))) : Prop :=
  batch_loop tbl query_embeddings limit threshold [] out.

End VectorService.
End VectorService.

(* ================================================================== *)
(** ** Reported duplicate pairs *)

(** The two IDs of a reported pair. *)
Definition pair_ids (p : UUID * UUID * R) : UUID * UUID := fst p.

(** Two reported pairs name the same set of IDs. *)
Definition same_id_set (p q : UUID * UUID * R) : Prop :=
  (fst (pair_ids p) = fst (pair_ids q) /\ snd (pair_ids p) = snd (pair_ids q))
  \/ (fst (pair_ids p) = snd (pair_ids q) /\ snd (pair_ids p) = fst (pair_ids q)).

(* ================================================================== *)
(** ** [app/api/v1/images.py] *)

Module ImagesAPI.
Section ImagesAPI.
Context {fp : PyFloat} {hl : Hashlib} {rnd : PyRandom} {pil : Pillow}.
Variable settings : Settings.
Local Open Scope string_scope.

(** What one upload takes from outside the program: the value [uuid4()]
    gives the new row, and the readings of the clock ([utcnow().isoformat()]
    in [process_image], [utcnow()] at line 73, [now()] in the database). *)
Record UploadEnv : Type := {
  uuid4 : UUID;
  now_iso : string;
  utcnow : datetime;
  server_now : datetime
}.

(** An [UploadFile]. *)
Record UploadFile : Type := {
  file_content : bytes;
  file_filename : option string;
  file_content_type : option string
}.

Definition HTTP_404_NOT_FOUND : Z := 404.
Definition HTTP_500_INTERNAL_SERVER_ERROR : Z := 500.

(** Lines 65-74: the row the handler builds.  It passes
    [processing_status="completed"] and the processed timestamp. *)
Definition new_image (env : UploadEnv) (file : UploadFile)
           (embedding : list R) (metadata : Metadata) : Image.t :=
  Image.create (uuid4 env) (server_now env)
    (or_unknown (file_filename file))
    (or_unknown (file_filename file))
    (match file_content_type file with
     | None | Some EmptyString => "application/octet-stream"
     | Some s => s
     end)
    (Z.of_nat (String.length (file_content file)))
    embedding (Some metadata) (Some completed) (Some (utcnow env)).

(** [upload_image], lines 53-95: the response, the table and the generator
    after the call. *)
Definition upload_image (env : UploadEnv) (file : UploadFile) (tbl : Table)
           (s : rng_state)
  : Result ImageUploadResponse.t * Table * rng_state :=
  let content := file_content file in
  match process_image settings (now_iso env) content
          (or_unknown (file_filename file))
          (match file_content_type file with
           | None | Some EmptyString => "application/octet-stream"
           | Some c => c
           end) s
  with
  | (Raise e, s') =>
      if is_HTTPException e then (Raise e, tbl, s')
      else (Raise (HTTPException HTTP_500_INTERNAL_SERVER_ERROR
                     ("Failed to process image: " ++ str_exn e)), tbl, s')
  | (Ok (embedding, metadata), s') =>
      let image := new_image env file embedding metadata in
      match db_insert settings tbl image with
      | Raise e =>
          (Raise (HTTPException HTTP_500_INTERNAL_SERVER_ERROR
                    ("Failed to process image: " ++ str_exn e)), tbl, s')
      | Ok tbl' =>
          (Ok {| ImageUploadResponse.id := Image.id image;
                 ImageUploadResponse.filename := Image.filename image;
                 ImageUploadResponse.message :=
                   "Image uploaded and processed successfully";
                 ImageUploadResponse.processing_status :=
                   Image.processing_status image |},
           tbl', s')
      end
  end.

(** Truth value of an optional list: [None] and [[]] are false. *)
Definition embedding_truthy (e : option (list R)) : bool :=
  match e with
  | None => false
  | Some [] => false
  | Some _ => true
  end.

(** The endpoint [find_similar_images], lines 183-218: [out] is a possible
    outcome of the request; [now] is [datetime.utcnow()]. *)
Definition find_similar_images (now : datetime) (tbl : Table)
           (image_id : UUID) (limit : Z) (threshold : R)
           (out : Result SimilarImagesResponse.t) : Prop :=
  match VectorService.get_image_embedding tbl image_id with
  | Raise e =>
      out = Raise (HTTPException HTTP_500_INTERNAL_SERVER_ERROR
                     ("Failed to find similar images: " ++ str_exn e))
  | Ok query_embedding =>
      if negb (embedding_truthy query_embedding) then
        out = Raise (HTTPException HTTP_404_NOT_FOUND
                       ("Image with ID " ++ str_uuid image_id
                        ++ " not found or not processed"))
      else
        exists found,
          VectorService.find_similar_images settings tbl
            (match query_embedding with Some q => q | None => [] end)
            (Some image_id) limit (Some threshold) found
          /\ out = match found with
                   | Raise e =>
                       Raise (HTTPException HTTP_500_INTERNAL_SERVER_ERROR
                                ("Failed to find similar images: " ++ str_exn e))
                   | Ok similar_images =>
                       Ok {| SimilarImagesResponse.query_image_id := image_id;
                             SimilarImagesResponse.similar_images := similar_images;
                             SimilarImagesResponse.total_results :=
                               Z.of_nat (List.length similar_images);
                             SimilarImagesResponse.search_timestamp := now |}
                   end
  end.

(** [delete_image], lines 293-314. *)
Definition delete_image (tbl : Table) (image_id : UUID) : Result unit * Table :=
  match scalar_one_or_none (select_by_id tbl image_id) with
  | Raise e =>
      (Raise (HTTPException HTTP_500_INTERNAL_SERVER_ERROR
                ("Failed to delete image: " ++ str_exn e)), tbl)
  | Ok None =>
      (Raise (HTTPException HTTP_404_NOT_FOUND
                ("Image with ID " ++ str_uuid image_id ++ " not found")), tbl)
  | Ok (Some _) => (Ok tt, db_delete tbl image_id)
  end.

(** The [ImageMetadata] both handlers build from a row, lines 133-142 and
    252-261. *)
Definition image_metadata_of (image : Image.t) : ImageMetadata.t :=
  {| ImageMetadata.id := Image.id image;
     ImageMetadata.filename := Image.filename image;
     ImageMetadata.content_type := Image.content_type image;
     ImageMetadata.file_size := Image.file_size image;
     ImageMetadata.upload_timestamp := Image.upload_timestamp image;
     ImageMetadata.processed_timestamp := Image.processed_timestamp image;
     ImageMetadata.processing_status := Image.processing_status image;
     ImageMetadata.metadata := Image.image_metadata image |}.

(** [get_image_metadata], lines 122-150. *)
Definition get_image_metadata (tbl : Table) (image_id : UUID)
  : Result ImageMetadata.t :=
  match scalar_one_or_none (select_by_id tbl image_id) with
  | Raise e =>
      Raise (HTTPException HTTP_500_INTERNAL_SERVER_ERROR
               ("Failed to retrieve image metadata: " ++ str_exn e))
  | Ok None =>
      Raise (HTTPException HTTP_404_NOT_FOUND
               ("Image with ID " ++ str_uuid image_id ++ " not found"))
  | Ok (Some image) => Ok (image_metadata_of image)
  end.

(** The statement of [list_images], line 247:
    [ORDER BY upload_timestamp DESC LIMIT limit OFFSET skip]. *)
Definition execute_list (tbl : Table) (skip limit : Z)
           (fetched : Result (list Image.t)) : Prop :=
  exists sorted,
    order_by_desc (fun img => IZR (Image.upload_timestamp img)) tbl sorted
    /\ fetched = ResultMonad.bind (sql_offset skip sorted) (sql_limit limit).

(** [list_images], lines 246-269: [out] is a possible outcome of the
    request. *)
Definition list_images (tbl : Table) (skip limit : Z)
           (out : Result (list ImageMetadata.t)) : Prop :=
  exists fetched,
    execute_list tbl skip limit fetched
    /\ out = match fetched with
             | Ok images => Ok (map image_metadata_of images)
             | Raise e =>
                 Raise (HTTPException HTTP_500_INTERNAL_SERVER_ERROR
                          ("Failed to retrieve images: " ++ str_exn e))
             end.

End ImagesAPI.
End ImagesAPI.

(* ================================================================== *)
(** ** The life of the table *)

Module Lifecycle.
Section Lifecycle.
Context {fp : PyFloat} {hl : Hashlib} {rnd : PyRandom} {pil : Pillow}.
Variable settings : Settings.

(** The calls of the program that write the table. *)
Inductive call : Type :=
| Upload (env : ImagesAPI.UploadEnv) (file : ImagesAPI.UploadFile)
| StoreEmbedding (now : datetime) (image_id : UUID) (embedding : list R)
| Delete (image_id : UUID).

Definition state : Type := (Table * rng_state)%type.

Definition step (st : state) (c : call) : state :=
  match c with
  | Upload env file =>
      let '(_, tbl', s') := ImagesAPI.upload_image settings env file (fst st) (snd st) in
      (tbl', s')
  | StoreEmbedding now image_id embedding =>
      (snd (VectorService.store_image_embedding settings now (fst st) image_id embedding),
       snd st)
  | Delete image_id => (snd (ImagesAPI.delete_image (fst st) image_id), snd st)
  end.

(** The table after a sequence of calls on an empty table. *)
Definition run (s0 : rng_state) (calls : list call) : state :=
  fold_left step calls ([], s0).

(** A row has what a processed image must have. *)
Definition processed_ok (img : Image.t) : Prop :=
  Image.processed_timestamp img <> None
  /\ List.length (Image.embedding_vector img) = EMBEDDING_DIMENSION settings.

(** What every stored row satisfies. *)
Definition row_ok (img : Image.t) : Prop :=
  Image.processing_status img = completed /\ processed_ok img.

End Lifecycle.
End Lifecycle.

(* ================================================================== *)
(** ** A small environment for closed examples

    Stand-ins for the three libraries, used only to run the definitions
    on concrete inputs: every digest is sixty-four (thirty-two) zeros, the
    generator state is the last seed plus the number of draws, and every
    non-empty content opens as a one-pixel image. *)

Module Example.

Definition zeros (n : nat) : string :=
  fold_right String EmptyString (repeat "0"%char n).

#[export] Instance hashlib : Hashlib.
Proof.
  refine {| sha256_hexdigest := fun _ => zeros 64;
            md5_hexdigest := fun _ => zeros 32 |}.
  - intro b. reflexivity.
  - intro b. reflexivity.
Defined.

(** Arithmetic without rounding is one way to meet [PyFloat]. *)
Lemma exact_close (k : nat) (x : R) : (0 <= x)%R -> close k x x.
Proof.
  intros Hx.
  assert (He : (0 < eps <= / 2)%R).
  { unfold eps. split.
    - apply Rinv_0_lt_compat. lra.
    - apply Rinv_le_contravar; lra. }
  assert (H : (0 < (1 - eps) ^ k <= 1)%R).
  { split.
    - apply pow_lt. lra.
    - pose proof (pow_incr (1 - eps) 1 k) as Hp. rewrite pow1 in Hp.
      apply Hp. lra. }
  unfold close. repeat split; nra.
Qed.

#[export] Instance pyfloat : PyFloat.
Proof.
  refine {| fadd := Rplus; fmul := Rmult; fdiv := Rdiv;
            fpow2 := fun x => (x * x)%R; fsqrt := sqrt; fsum := Rsum |}.
  - intros x. apply exact_close. nra.
  - intros x Hx. apply exact_close, sqrt_pos.
  - intros x y Hy. apply exact_close, Rabs_pos.
  - intros l Hl. apply exact_close. unfold Rsum.
    induction Hl as [|x l Hx Hl IH]; simpl in *; lra.
Defined.

#[export] Instance pyrandom : PyRandom.
Proof.
  refine {| rng_state := Z;
            seed_str := fun a _ => Z.of_nat (String.length a);
            seed_int := fun a _ => a;
            random := fun s => ((IZR (s mod 8) / 8)%R, (s + 1)%Z) |}.
  - intros a s s'. reflexivity.
  - intros a s s'. reflexivity.
Defined.

Definition one_pixel : PILImage :=
  {| img_format := "PNG";
     img_mode := "RGB";
     img_size := (1, 1)%Z;
     img_info_transparency := false;
     img_verify := Ok tt;
     img_getexif := None |}.

#[export] Instance pillow : Pillow :=
  {| Image_open := fun content =>
       match content with
       | EmptyString => Raise (UnidentifiedImageError "cannot identify image file")
       | _ => Ok one_pixel
       end |}.

(** The default settings with two dimensions instead of 512. *)
Definition settings2 : Settings :=
  {| EMBEDDING_DIMENSION := 2;
     SIMILARITY_THRESHOLD := SIMILARITY_THRESHOLD default_settings;
     MAX_FILE_SIZE := MAX_FILE_SIZE default_settings;
     ALLOWED_EXTENSIONS := ALLOWED_EXTENSIONS default_settings |}.

(** Rows for the examples: two dimensions, fixed names and dates. *)
Definition image (id : UUID) (embedding : list R) (status : string) : Image.t :=
  {| Image.id := id;
     Image.filename := "a.png";
     Image.original_filename := "a.png";
     Image.content_type := "image/png";
     Image.file_size := 3%Z;
     Image.file_path := None;
     Image.upload_timestamp := 0%Z;
     Image.processed_timestamp :=
       if String.eqb status completed then Some 0%Z else None;
     Image.embedding_vector := embedding;
     Image.image_metadata := None;
     Image.processing_status := status |}.

Arguments image id%_N embedding status%_string.

Definition east : list R := [1; 0]%R.
Definition west : list R := [-1; 0]%R.
Definition north : list R := [0; 1]%R.

(** The result row of a stored row with a given score. *)
Definition similar (id : UUID) (score : R) : SimilarImage.t :=
  {| SimilarImage.id := id;
     SimilarImage.filename := "a.png";
     SimilarImage.content_type := "image/png";
     SimilarImage.similarity_score := score;
     SimilarImage.upload_timestamp := 0%Z |}.

Arguments similar id%_N score%_R.

(** The row the similarity statement returns for a stored example row. *)
Definition row (id : UUID) (score : R) : VectorService.SimilarRow :=
  {| VectorService.row_id := id;
     VectorService.row_filename := "a.png";
     VectorService.row_content_type := "image/png";
     VectorService.row_upload_timestamp := 0%Z;
     VectorService.row_similarity_score := score |}.

Arguments row id%_N score%_R.

(** Two completed rows with the same embedding. *)
Definition tied : Table := [image 1 east completed; image 2 east completed].

(** Two completed rows of different similarity. *)
Definition apart : Table := [image 5 north completed; image 1 east completed].

(** One completed row pointing away from the query. *)
Definition opposite : Table := [image 3 west completed].

(** Two completed rows pointing in opposite directions. *)
Definition facing : Table := [image 1 east completed; image 3 west completed].

(** Completed rows on three sides of the query, and a pending one. *)
Definition mixed : Table :=
  [image 1 east completed; image 3 west completed;
   image 4 east pending; image 5 north completed].

(** An upload: a small PNG, and what the environment gives the call. *)
Definition png_file : ImagesAPI.UploadFile :=
  {| ImagesAPI.file_content := "abc"%string;
     ImagesAPI.file_filename := Some "a.png"%string;
     ImagesAPI.file_content_type := Some "image/png"%string |}.

Definition first_upload : ImagesAPI.UploadEnv :=
  {| ImagesAPI.uuid4 := 7%N;
     ImagesAPI.now_iso := "2024-01-01T00:00:00"%string;
     ImagesAPI.utcnow := 1%Z;
     ImagesAPI.server_now := 1%Z |}.

End Example.

(* ================================================================== *)
(** * Properties *)

Unset Implicit Arguments.

(* ================================================================== *)
(** ** Hexadecimal digests *)

Section HexFacts.
Local Open Scope string_scope.

Lemma hex_digit_value_some (c : ascii) :
  is_hex_char c = true -> exists d, hex_digit_value c = Some d.
Proof.
  unfold is_hex_char, hex_digit_value.
  set (n := Z.of_N (N_of_ascii c)).
  destruct ((48 <=? n)%Z && (n <=? 57)%Z); [eauto|].
  destruct ((97 <=? n)%Z && (n <=? 102)%Z); [eauto|].
  destruct ((65 <=? n)%Z && (n <=? 70)%Z); [eauto|].
  simpl. discriminate.
Qed.

Lemma int16_aux_ok (s : string) :
  forallb_string is_hex_char s = true ->
  forall acc, exists z, int16_aux s acc = Ok z.
Proof.
  induction s as [|c s IH]; simpl; intros H acc.
  - eauto.
  - apply andb_prop in H. destruct H as [Hc Hs].
    destruct (hex_digit_value_some c Hc) as [d ->].
    apply IH, Hs.
Qed.

Lemma int16_ok (s : string) :
  s <> EmptyString -> forallb_string is_hex_char s = true ->
  exists z, int16 s = Ok z.
Proof.
  intros Hne Hs. destruct s as [|c s]; [congruence|].
  unfold int16. apply int16_aux_ok, Hs.
Qed.

Lemma forallb_string_get (p : ascii -> bool) (s : string) :
  forallb_string p s = true ->
  forall n c, String.get n s = Some c -> p c = true.
Proof.
  induction s as [|a s IH]; simpl; intros H n c Hg.
  - discriminate.
  - apply andb_prop in H. destruct H as [Ha Hs].
    destruct n as [|n].
    + injection Hg as <-. exact Ha.
    + eapply IH; eauto.
Qed.

Lemma get_some_lt (s : string) :
  forall n, n < String.length s -> exists c, String.get n s = Some c.
Proof.
  induction s as [|a s IH]; simpl; intros n Hn.
  - lia.
  - destruct n as [|n]; [eauto|]. apply IH. lia.
Qed.

Lemma forallb_string_substring (p : ascii -> bool) (s : string) :
  forallb_string p s = true ->
  forall n m, forallb_string p (String.substring n m s) = true.
Proof.
  induction s as [|a s IH]; intros H n m.
  - destruct n, m; reflexivity.
  - simpl in H. apply andb_prop in H. destruct H as [Ha Hs].
    destruct n as [|n]; destruct m as [|m]; simpl; auto.
    rewrite Ha. simpl. apply IH, Hs.
Qed.

Lemma substring_nonempty (s : string) (m : nat) :
  s <> EmptyString -> String.substring 0 (S m) s <> EmptyString.
Proof.
  destruct s as [|a s]; [congruence|]. simpl. discriminate.
Qed.

(** On a digest, the two conversions of lines 140-141 succeed. *)
Lemma char_at_mod_ok (h : string) (n i : nat) :
  is_hexdigest (S n) h = true ->
  exists c, char_at_mod h i = Ok c /\ exists z, int16 c = Ok z.
Proof.
  unfold is_hexdigest. intros H. apply andb_prop in H. destruct H as [Hl Hh].
  apply Nat.eqb_eq in Hl. unfold char_at_mod. rewrite Hl.
  destruct (get_some_lt h (i mod S n)) as [c Hc].
  { rewrite Hl. apply Nat.mod_upper_bound. discriminate. }
  rewrite Hc. eexists. split; [reflexivity|].
  apply int16_ok; [discriminate|]. simpl.
  rewrite (forallb_string_get _ _ Hh _ _ Hc). reflexivity.
Qed.

Lemma prefix8_ok (h : string) (n : nat) :
  is_hexdigest (S n) h = true ->
  exists z, int16 (String.substring 0 8 h) = Ok z.
Proof.
  unfold is_hexdigest. intros H. apply andb_prop in H. destruct H as [Hl Hh].
  apply Nat.eqb_eq in Hl. apply int16_ok.
  - apply substring_nonempty. destruct h; [discriminate|discriminate].
  - apply forallb_string_substring, Hh.
Qed.

End HexFacts.

(* ================================================================== *)
(** ** The embedding loop *)

Section EmbeddingFacts.
Context {fp : PyFloat} {hl : Hashlib} {rnd : PyRandom}.
Variable settings : Settings.

(** A turn of the loop either raises before it touches the generator, or
    reseeds it: what it yields does not depend on the state it starts in. *)
Lemma embedding_step_reseeds (h : string) (i : nat) (acc : list R)
      (s1 s2 : rng_state) :
  (exists e, embedding_step h i acc s1 = (Raise e, s1)
             /\ embedding_step h i acc s2 = (Raise e, s2))
  \/ embedding_step h i acc s1 = embedding_step h i acc s2.
Proof.
  unfold embedding_step, Rand.bind, Rand.lift, Rand.random_seed_int,
    Rand.random_uniform, Rand.ret.
  destruct (char_at_mod h i) as [c|e]; [|left; eauto].
  destruct (int16 c) as [off|e]; [|left; eauto].
  destruct (int16 (substring 0 8 h)) as [base|e]; [|left; eauto].
  right. rewrite (seed_int_reset _ s1 s2). reflexivity.
Qed.

Lemma for_each_steps_result (h : string) (l : list nat) :
  forall (acc : list R) (s1 s2 : rng_state),
    fst (Rand.for_each l (embedding_step h) acc s1)
    = fst (Rand.for_each l (embedding_step h) acc s2).
Proof.
  induction l as [|i l IH]; intros acc s1 s2; simpl.
  - reflexivity.
  - unfold Rand.bind.
    destruct (embedding_step_reseeds h i acc s1 s2) as [[e [H1 H2]]|H].
    + rewrite H1, H2. reflexivity.
    + rewrite H. destruct (embedding_step h i acc s2) as [[acc'|e] s'].
      * reflexivity.
      * reflexivity.
Qed.

Lemma embedding_loop_result (h : string) (s1 s2 : rng_state) :
  fst (embedding_loop settings h s1) = fst (embedding_loop settings h s2).
Proof. unfold embedding_loop. apply for_each_steps_result. Qed.

(** On a digest every turn of the loop appends one value. *)
Lemma embedding_step_ok (h : string) (n i : nat) (acc : list R) (s : rng_state) :
  is_hexdigest (S n) h = true ->
  exists v s', embedding_step h i acc s = (Ok (acc ++ [v]), s').
Proof.
  intros Hh. unfold embedding_step, Rand.bind, Rand.lift, Rand.random_seed_int,
    Rand.random_uniform, Rand.ret.
  destruct (@char_at_mod_ok h n i Hh) as [c [-> [off ->]]].
  destruct (@prefix8_ok h n Hh) as [base ->].
  destruct (random (seed_int (base + Z.of_nat i + off) s)) as [r s'].
  eauto.
Qed.

Lemma for_each_steps_ok (h : string) (n : nat) (l : list nat) :
  is_hexdigest (S n) h = true ->
  forall (acc : list R) (s : rng_state),
  exists vs s', Rand.for_each l (embedding_step h) acc s = (Ok (acc ++ vs), s')
                /\ List.length vs = List.length l.
Proof.
  intros Hh. induction l as [|i l IH]; intros acc s; simpl.
  - exists [], s. rewrite app_nil_r. split; reflexivity.
  - unfold Rand.bind.
    destruct (@embedding_step_ok h n i acc s Hh) as [v [s1 ->]].
    destruct (IH (acc ++ [v]) s1) as [vs [s2 [-> Hlen]]].
    exists (v :: vs), s2. rewrite <- app_assoc. simpl. split; congruence.
Qed.

(** The raw vector is always produced and has the configured length. *)
Lemma raw_embedding_ok (content : bytes) (filename : string) (s : rng_state) :
  exists raw s', raw_embedding settings content filename s = (Ok raw, s')
                 /\ List.length raw = EMBEDDING_DIMENSION settings.
Proof.
  unfold raw_embedding, Rand.bind, Rand.random_seed_str, embedding_loop.
  destruct (@for_each_steps_ok (combined_hash_of content filename) 63
              (seq 0 (EMBEDDING_DIMENSION settings))
              (sha256_hexdigest_spec _) []
              (seed_str (combined_hash_of content filename) s))
    as [vs [s' [H Hlen]]].
  exists vs, s'. split; [exact H|]. rewrite Hlen. apply length_seq.
Qed.

End EmbeddingFacts.

(* ================================================================== *)
(** ** Rounding *)

Section Rounding.
Local Open Scope R_scope.

Lemma eps_bounds : 0 < eps <= / 1000000000000000.
Proof.
  unfold eps. split.
  - apply Rinv_0_lt_compat. lra.
  - apply Rinv_le_contravar; lra.
Qed.

Lemma shrink_pow_bounds (k : nat) : 0 < (1 - eps) ^ k <= 1.
Proof.
  pose proof eps_bounds as He.
  assert (Hd : / 1000000000000000 <= / 2) by (apply Rinv_le_contravar; lra).
  split.
  - apply pow_lt. lra.
  - pose proof (pow_incr (1 - eps) 1 k) as Hp. rewrite pow1 in Hp.
    apply Hp. lra.
Qed.

Lemma shrink_pow_le (j k : nat) :
  (j <= k)%nat -> (1 - eps) ^ k <= (1 - eps) ^ j.
Proof.
  pose proof eps_bounds as He.
  induction 1 as [|k Hle IH].
  - lra.
  - pose proof (shrink_pow_bounds k). simpl. nra.
Qed.

Lemma close_nonneg (k : nat) (x y : R) : close k x y -> 0 <= x.
Proof.
  intros [Hy [Hl _]]. pose proof (shrink_pow_bounds k). nra.
Qed.

Lemma close_zero (k : nat) (x y : R) : close k x y -> (x = 0 <-> y = 0).
Proof.
  intros H. pose proof (close_nonneg _ _ _ H) as Hx.
  destruct H as [Hy [Hl Hu]]. pose proof (shrink_pow_bounds k).
  split; intros E; subst; nra.
Qed.

Lemma close_weaken (j k : nat) (x y : R) :
  (j <= k)%nat -> close j x y -> close k x y.
Proof.
  intros Hle H. pose proof (close_nonneg _ _ _ H) as Hx.
  destruct H as [Hy [Hl Hu]].
  pose proof (shrink_pow_le j k Hle). pose proof (shrink_pow_bounds k).
  unfold close. repeat split; nra.
Qed.

Lemma close_trans (j k : nat) (x y z : R) :
  close j x y -> close k y z -> close (j + k) x z.
Proof.
  intros H H'. pose proof (close_nonneg _ _ _ H) as Hx.
  destruct H as [Hy [Hl Hu]]. destruct H' as [Hz [Hl' Hu']].
  pose proof (shrink_pow_bounds j). pose proof (shrink_pow_bounds k).
  unfold close. rewrite pow_add. repeat split.
  - exact Hz.
  - apply Rle_trans with ((1 - eps) ^ j * y); [|exact Hl].
    rewrite Rmult_assoc. apply Rmult_le_compat_l; lra.
  - apply Rle_trans with (y * (1 - eps) ^ k); [|exact Hu'].
    rewrite <- Rmult_assoc. apply Rmult_le_compat_r; lra.
Qed.

Lemma close_add (k : nat) (x y x' y' : R) :
  close k x y -> close k x' y' -> close k (x + x') (y + y').
Proof. unfold close. intros [? [? ?]] [? [? ?]]. repeat split; nra. Qed.

Lemma close_mul (j k : nat) (x y x' y' : R) :
  close j x y -> close k x' y' -> close (j + k) (x * x') (y * y').
Proof.
  intros H H'. pose proof (close_nonneg _ _ _ H) as Hx.
  pose proof (close_nonneg _ _ _ H') as Hx'.
  destruct H as [Hy [Hl Hu]]. destruct H' as [Hy' [Hl' Hu']].
  pose proof (shrink_pow_bounds j). pose proof (shrink_pow_bounds k).
  unfold close. rewrite pow_add. repeat split.
  - nra.
  - replace ((1 - eps) ^ j * (1 - eps) ^ k * (y * y'))
      with (((1 - eps) ^ j * y) * ((1 - eps) ^ k * y')) by ring.
    apply Rmult_le_compat; nra.
  - replace (x * x' * ((1 - eps) ^ j * (1 - eps) ^ k))
      with ((x * (1 - eps) ^ j) * (x' * (1 - eps) ^ k)) by ring.
    apply Rmult_le_compat; nra.
Qed.

Lemma close_div (j k : nat) (x y x' y' : R) :
  close j x y -> close k x' y' -> 0 < x' -> 0 < y' ->
  close (j + k) (x / x') (y / y').
Proof.
  intros H H' Hx'pos Hy'pos.
  pose proof (close_nonneg _ _ _ H) as Hx.
  destruct H as [Hy [Hl Hu]]. destruct H' as [_ [Hl' Hu']].
  pose proof (shrink_pow_bounds j). pose proof (shrink_pow_bounds k).
  unfold close. rewrite pow_add. repeat split.
  - apply Rmult_le_pos; [lra|]. apply Rlt_le, Rinv_0_lt_compat, Hy'pos.
  - apply (Rmult_le_reg_r (x' * y')); [nra|].
    replace ((1 - eps) ^ j * (1 - eps) ^ k * (y / y') * (x' * y'))
      with (((1 - eps) ^ j * y) * (x' * (1 - eps) ^ k)) by (field; lra).
    replace (x / x' * (x' * y')) with (x * y') by (field; lra).
    apply Rmult_le_compat; nra.
  - apply (Rmult_le_reg_r (x' * y')); [nra|].
    replace (x / x' * ((1 - eps) ^ j * (1 - eps) ^ k) * (x' * y'))
      with ((x * (1 - eps) ^ j) * ((1 - eps) ^ k * y')) by (field; lra).
    replace (y / y' * (x' * y')) with (y * x') by (field; lra).
    apply Rmult_le_compat; nra.
Qed.

Lemma close_sqrt (k : nat) (x y : R) :
  close k x y -> close k (sqrt x) (sqrt y).
Proof.
  intros H. pose proof (close_nonneg _ _ _ H) as Hx.
  destruct H as [Hy [Hl Hu]].
  pose proof (shrink_pow_bounds k) as [Hp0 Hp1].
  unfold close. repeat split.
  - apply sqrt_pos.
  - rewrite <- (sqrt_square ((1 - eps) ^ k)) at 1 by lra.
    rewrite <- sqrt_mult_alt by nra.
    apply sqrt_le_1_alt. nra.
  - rewrite <- (sqrt_square ((1 - eps) ^ k)) at 1 by lra.
    rewrite <- sqrt_mult_alt by lra.
    apply sqrt_le_1_alt. nra.
Qed.

Lemma sqr_abs (x : R) : x * x = Rabs x * Rabs x.
Proof. unfold Rabs. destruct (Rcase_abs x); ring. Qed.

(** The square of a number known up to its sign. *)
Lemma close_sqr (k : nat) (x y : R) :
  close k (Rabs x) (Rabs y) -> close (k + k) (x * x) (y * y).
Proof.
  intros H. rewrite (sqr_abs x), (sqr_abs y). apply close_mul; exact H.
Qed.

Lemma close_sum (k : nat) (xs ys : list R) :
  Forall2 (close k) xs ys -> close k (Rsum xs) (Rsum ys).
Proof.
  induction 1 as [|x y xs ys Hxy _ IH]; simpl.
  - unfold close. pose proof (shrink_pow_bounds k). repeat split; lra.
  - apply close_add; assumption.
Qed.

Lemma bernoulli (k : nat) : 1 - INR k * eps <= (1 - eps) ^ k.
Proof.
  pose proof eps_bounds. induction k as [|k IH].
  - simpl. lra.
  - rewrite S_INR. pose proof (shrink_pow_bounds k). pose proof (pos_INR k).
    simpl. nra.
Qed.

(** A number within [k] roundings of 1 is within [2 * k * eps] of it. *)
Lemma close_one (k : nat) (x : R) :
  close k x 1 -> INR k * eps <= / 2 -> Rabs (x - 1) <= 2 * (INR k * eps).
Proof.
  intros [_ [Hl Hu]] Hk. pose proof (bernoulli k).
  pose proof (shrink_pow_bounds k). pose proof eps_bounds.
  pose proof (pos_INR k).
  apply Rabs_le. split.
  - nra.
  - assert (x * (1 - INR k * eps) <= 1) by nra. nra.
Qed.

End Rounding.

(* ================================================================== *)
(** ** Normalisation *)

Section NormFacts.
Context {fp : PyFloat}.
Local Open Scope R_scope.

Lemma Rsum_squares_nonneg (v : list R) : 0 <= Rsum (map sq v).
Proof.
  induction v as [|x v IH]; simpl; [lra|]. unfold sq at 1. nra.
Qed.

(** The computed sum of squares is the exact one up to [length v + 1]
    roundings. *)
Lemma sum_squares_close (v : list R) :
  close (List.length v + 1) (fsum (map fpow2 v)) (Rsum (map sq v)).
Proof.
  assert (Hall : Forall2 (close 1) (map fpow2 v) (map sq v)).
  { induction v as [|x v IH]; simpl; constructor; [apply (@fpow2_close fp)|exact IH]. }
  assert (Hpos : Forall (fun x => 0 <= x) (map fpow2 v)).
  { apply Forall_forall. intros y Hy. apply in_map_iff in Hy.
    destruct Hy as [x [<- _]]. apply (close_nonneg 1 _ _ (@fpow2_close fp x)). }
  pose proof (@fsum_close fp _ Hpos) as Hs. rewrite length_map in Hs.
  exact (close_trans _ _ _ _ _ Hs (close_sum _ _ _ Hall)).
Qed.

(** The computed norm is the Euclidean norm up to [length v + 2]
    roundings. *)
Lemma l2_norm_close (v : list R) :
  close (List.length v + 2) (l2_norm v) (euclidean_norm v).
Proof.
  unfold l2_norm, euclidean_norm.
  pose proof (sum_squares_close v) as Hs.
  pose proof (@fsqrt_close fp _ (close_nonneg _ _ _ Hs)) as Hr.
  replace (List.length v + 2)%nat with (1 + (List.length v + 1))%nat by lia.
  exact (close_trans _ _ _ _ _ Hr (close_sqrt _ _ _ Hs)).
Qed.

Lemma l2_norm_nonneg (v : list R) : 0 <= l2_norm v.
Proof. exact (close_nonneg _ _ _ (l2_norm_close v)). Qed.

(** The computed norm is zero exactly when the vector is the zero vector
    of its length. *)
Lemma l2_norm_zero_iff (v : list R) :
  l2_norm v = 0 <-> euclidean_norm v = 0.
Proof. exact (close_zero _ _ _ (l2_norm_close v)). Qed.

Lemma euclidean_norm_sqr (v : list R) :
  euclidean_norm v * euclidean_norm v = Rsum (map sq v).
Proof. unfold euclidean_norm. apply sqrt_sqrt, Rsum_squares_nonneg. Qed.

Lemma Rsum_scaled (t : R) (v : list R) :
  Rsum (map (fun x => sq x / t) v) = Rsum (map sq v) / t.
Proof.
  induction v as [|x v IH]; simpl.
  - unfold Rdiv. ring.
  - rewrite IH. unfold Rdiv. ring.
Qed.

(** Each component of the divided vector, squared. *)
Lemma divided_component_close (v : list R) (x : R) :
  0 < l2_norm v ->
  close (2 * List.length v + 6)
        (sq (fdiv x (l2_norm v))) (sq x / Rsum (map sq v)).
Proof.
  intros Hpos. set (n := List.length v).
  pose proof (l2_norm_close v) as Hn. fold n in Hn.
  assert (He : 0 < euclidean_norm v).
  { pose proof (close_nonneg _ _ _ Hn). destruct Hn as [Hy _].
    destruct (Req_dec (euclidean_norm v) 0) as [E|E]; [|lra].
    apply l2_norm_zero_iff in E. lra. }
  assert (Hd : close 2 (sq (fdiv x (l2_norm v))) (sq (x / l2_norm v))).
  { apply (close_sqr 1). apply (@fdiv_close fp). lra. }
  assert (Hq : close (0 + ((n + 2) + (n + 2)))
                     (sq x / (l2_norm v * l2_norm v))
                     (sq x / (euclidean_norm v * euclidean_norm v))).
  { apply close_div.
    - unfold close. simpl. unfold sq. repeat split; nra.
    - apply close_mul; exact Hn.
    - nra.
    - nra. }
  rewrite euclidean_norm_sqr in Hq.
  replace (sq (x / l2_norm v)) with (sq x / (l2_norm v * l2_norm v)) in Hd
    by (unfold sq; field; lra).
  replace (2 * n + 6)%nat with (2 + (0 + ((n + 2) + (n + 2))))%nat by lia.
  exact (close_trans _ _ _ _ _ Hd Hq).
Qed.

Lemma Forall2_map_same (A : Type) (P : R -> R -> Prop) (f g : A -> R)
      (l : list A) :
  (forall x, P (f x) (g x)) -> Forall2 P (map f l) (map g l).
Proof.
  intros H. induction l as [|x l IH]; simpl; constructor; [apply H|exact IH].
Qed.

(** The Euclidean norm of the divided vector is 1 up to
    [2 * length v + 6] roundings. *)
Lemma divided_euclidean_norm_close (v : list R) :
  0 < l2_norm v ->
  close (2 * List.length v + 6)
        (euclidean_norm (map (fun x => fdiv x (l2_norm v)) v)) 1.
Proof.
  intros Hpos.
  assert (Ht : 0 < Rsum (map sq v)).
  { pose proof (Rsum_squares_nonneg v).
    destruct (Req_dec (Rsum (map sq v)) 0) as [E|E]; [|lra].
    assert (E' : euclidean_norm v = 0)
      by (unfold euclidean_norm; rewrite E; apply sqrt_0).
    apply l2_norm_zero_iff in E'. lra. }
  assert (Hq : close (2 * List.length v + 6)
                     (Rsum (map sq (map (fun x => fdiv x (l2_norm v)) v)))
                     (Rsum (map (fun x => sq x / Rsum (map sq v)) v))).
  { rewrite map_map. apply close_sum, Forall2_map_same.
    intros x. apply divided_component_close, Hpos. }
  replace (Rsum (map (fun x => sq x / Rsum (map sq v)) v)) with 1 in Hq
    by (rewrite Rsum_scaled; field; lra).
  apply close_sqrt in Hq. rewrite sqrt_1 in Hq. exact Hq.
Qed.

(** So is the norm of the divided vector as the code computes it, up to
    [3 * length v + 8] roundings. *)
Lemma divided_l2_norm_close (v : list R) :
  0 < l2_norm v ->
  close (3 * List.length v + 8)
        (l2_norm (map (fun x => fdiv x (l2_norm v)) v)) 1.
Proof.
  intros Hpos.
  pose proof (l2_norm_close (map (fun x => fdiv x (l2_norm v)) v)) as Hc.
  rewrite length_map in Hc.
  replace (3 * List.length v + 8)%nat
    with ((List.length v + 2) + (2 * List.length v + 6))%nat by lia.
  exact (close_trans _ _ _ _ _ Hc (divided_euclidean_norm_close v Hpos)).
Qed.

(** Up to a thousand million components, that many roundings stay far
    below the tolerance. *)
Lemma roundings_within_tolerance (n k : nat) (x : R) :
  (Z.of_nat n <= 1000000000)%Z -> (k <= 3 * n + 8)%nat ->
  close k x 1 -> Rabs (x - 1) < 1 / 1000.
Proof.
  intros Hn Hk Hc.
  assert (HK : INR k <= 3000000008).
  { rewrite INR_IZR_INZ. apply IZR_le. lia. }
  pose proof eps_bounds as [He0 He1]. pose proof (pos_INR k) as Hk0.
  assert (Hprod : INR k * eps <= 3000000008 * / 1000000000000000).
  { apply Rmult_le_compat; lra. }
  assert (Hhalf : INR k * eps <= / 2) by lra.
  pose proof (close_one k x Hc Hhalf). lra.
Qed.

Lemma normalize_unit (v : list R) :
  (Z.of_nat (List.length v) <= 1000000000)%Z ->
  l2_norm v <> 0 ->
  Rabs (l2_norm (normalize v) - 1) < 1 / 1000
  /\ Rabs (euclidean_norm (normalize v) - 1) < 1 / 1000.
Proof.
  intros Hn Hne. unfold normalize.
  pose proof (l2_norm_nonneg v) as Hge.
  destruct (Rlt_dec 0 (l2_norm v)) as [Hlt|Hnlt]; [|lra].
  split.
  - apply (roundings_within_tolerance (List.length v)
             (3 * List.length v + 8)); [exact Hn|lia|].
    apply divided_l2_norm_close, Hlt.
  - apply (roundings_within_tolerance (List.length v)
             (2 * List.length v + 6)); [exact Hn|lia|].
    apply divided_euclidean_norm_close, Hlt.
Qed.

Lemma normalize_zero (v : list R) : l2_norm v = 0 -> normalize v = v.
Proof.
  intros H0. unfold normalize.
  destruct (Rlt_dec 0 (l2_norm v)) as [Hlt|Hnlt]; [lra|reflexivity].
Qed.

Lemma normalize_length (v : list R) :
  List.length (normalize v) = List.length v.
Proof.
  unfold normalize.
  destruct (Rlt_dec 0 (l2_norm v)); [apply length_map|reflexivity].
Qed.

End NormFacts.

(* ================================================================== *)
(** ** [generate_mock_embedding] *)

Section GeneratorTheorems.
Context {fp : PyFloat} {hl : Hashlib} {rnd : PyRandom}.
Variable settings : Settings.

Lemma generate_mock_embedding_ok (content : bytes) (filename : string)
      (s : rng_state) :
  exists raw s',
    raw_embedding settings content filename s = (Ok raw, s')
    /\ generate_mock_embedding settings content filename s
       = (Ok (normalize raw), s')
    /\ List.length (normalize raw) = EMBEDDING_DIMENSION settings.
Proof.
  destruct (raw_embedding_ok settings content filename s) as [raw [s' [H Hl]]].
  exists raw, s'. split; [exact H|]. split.
  - unfold generate_mock_embedding, Rand.bind, Rand.ret. rewrite H. reflexivity.
  - rewrite normalize_length. exact Hl.
Qed.

(** Line 134 replaces the state of the generator before anything is
    drawn: the raw vector, and the state left behind, are the same from
    every state. *)
Lemma raw_embedding_reseeds (content : bytes) (filename : string)
      (s1 s2 : rng_state) :
  raw_embedding settings content filename s1
  = raw_embedding settings content filename s2.
Proof.
  unfold raw_embedding, Rand.bind, Rand.random_seed_str.
  rewrite (seed_str_reset (combined_hash_of content filename) s1 s2).
  reflexivity.
Qed.

(** Two calls in a row return the same embedding twice. *)
Lemma generate_mock_embedding_twice (content : bytes) (filename : string)
      (s : rng_state) :
  exists e,
    fst ((e1 <- generate_mock_embedding settings content filename ;;
          e2 <- generate_mock_embedding settings content filename ;;
          Rand.ret (e1, e2))%rand s) = Ok (e, e).
Proof.
  destruct (generate_mock_embedding_ok content filename s)
    as [raw [s' [Hraw [Hgen _]]]].
  exists (normalize raw). unfold Rand.bind at 1. rewrite Hgen.
  unfold Rand.bind at 1.
  assert (Hgen' : generate_mock_embedding settings content filename s'
                  = (Ok (normalize raw), s')).
  { unfold generate_mock_embedding, Rand.bind, Rand.ret in *.
    rewrite (raw_embedding_reseeds content filename s' s). exact Hgen. }
  rewrite Hgen'. reflexivity.
Qed.

(** C1.  [generate_mock_embedding(content, filename)] yields the same
    outcome whatever state earlier calls left the module-level generator
    in: the embedding is a function of the content and the label alone. *)
Theorem generate_mock_embedding_deterministic
        (content : bytes) (filename : string) (s1 s2 : rng_state) :
  fst (generate_mock_embedding settings content filename s1)
  = fst (generate_mock_embedding settings content filename s2).
Proof.
  unfold generate_mock_embedding, Rand.bind.
  rewrite (raw_embedding_reseeds content filename s1 s2).
  reflexivity.
Qed.

(** C10.  Removing the first [random.seed(combined_hash)] (line 134) does
    not change what [generate_mock_embedding] returns: each turn of the
    loop reseeds the generator before it draws. *)
Theorem initial_seed_is_redundant
        (content : bytes) (filename : string) (s : rng_state) :
  fst (generate_mock_embedding settings content filename s)
  = fst (generate_mock_embedding_unseeded settings content filename s).
Proof.
  unfold generate_mock_embedding, generate_mock_embedding_unseeded,
    raw_embedding, raw_embedding_unseeded, Rand.bind, Rand.random_seed_str.
  set (h := combined_hash_of content filename).
  pose proof (embedding_loop_result settings h (seed_str h s) s) as H.
  destruct (embedding_loop settings h (seed_str h s)) as [[raw1|e1] t1];
    destruct (embedding_loop settings h s) as [[raw2|e2] t2];
    simpl in H; try discriminate; injection H as ->; reflexivity.
Qed.

(** C2.  For a dimension of at most a thousand million, the call returns
    an embedding [e] computed from the raw vector of the same run, which
    has [EMBEDDING_DIMENSION] components.  When the norm the code computes
    for the raw vector is not zero, the norm of [e] is within 1e-3 of 1,
    both computed the same way and as the Euclidean norm itself; when it
    is zero, which is when the raw vector is all zeros, [e] is the raw
    vector, nothing having been divided. *)
Theorem generate_mock_embedding_normalized
        (content : bytes) (filename : string) (s : rng_state) :
  (Z.of_nat (EMBEDDING_DIMENSION settings) <= 1000000000)%Z ->
  exists raw e,
    fst (raw_embedding settings content filename s) = Ok raw
    /\ List.length raw = EMBEDDING_DIMENSION settings
    /\ fst (generate_mock_embedding settings content filename s) = Ok e
    /\ (l2_norm raw <> 0%R ->
        (Rabs (l2_norm e - 1) < 1 / 1000)%R
        /\ (Rabs (euclidean_norm e - 1) < 1 / 1000)%R)
    /\ (l2_norm raw = 0%R -> e = raw)
    /\ (l2_norm raw = 0%R <-> euclidean_norm raw = 0%R).
Proof.
  intros Hdim.
  destruct (generate_mock_embedding_ok content filename s)
    as [raw [s' [Hraw [Hgen Hlen]]]].
  rewrite normalize_length in Hlen.
  exists raw, (normalize raw).
  rewrite Hraw, Hgen. simpl.
  split; [reflexivity|]. split; [exact Hlen|].
  split; [reflexivity|]. split; [|split].
  - apply normalize_unit. rewrite Hlen. exact Hdim.
  - apply normalize_zero.
  - apply l2_norm_zero_iff.
Qed.

End GeneratorTheorems.

Section GeneratorExamples.
Import Example.
Local Open Scope string_scope.

(** The raw vector of a run in the example environment. *)
Lemma example_raw_embedding :
  fst (raw_embedding settings2 "abc" "a.png" 0%Z)
  = Ok [(-1 + (1 - -1) * (0 / 8))%R; (-1 + (1 - -1) * (1 / 8))%R].
Proof. cbv - [Rplus Rmult Rminus Ropp Rdiv IZR Rinv]. reflexivity. Qed.

Lemma example_raw_norm_nonzero :
  l2_norm [(-1 + (1 - -1) * (0 / 8))%R; (-1 + (1 - -1) * (1 / 8))%R] <> 0%R.
Proof.
  cbv [l2_norm fsqrt fsum fpow2 pyfloat map Rsum fold_right].
  match goal with
  | |- sqrt ?t <> 0%R => assert (H : (0 < sqrt t)%R)
  end.
  { apply sqrt_lt_R0. lra. }
  lra.
Qed.

(** C2 on a run whose raw vector is not zero. *)
Lemma generate_mock_embedding_normalized_witness :
  exists raw e,
    fst (raw_embedding settings2 "abc" "a.png" 0%Z) = Ok raw
    /\ l2_norm raw <> 0%R
    /\ fst (generate_mock_embedding settings2 "abc" "a.png" 0%Z) = Ok e
    /\ (Rabs (l2_norm e - 1) < 1 / 1000)%R
    /\ (Rabs (euclidean_norm e - 1) < 1 / 1000)%R.
Proof.
  assert (Hdim : (Z.of_nat (EMBEDDING_DIMENSION settings2) <= 1000000000)%Z)
    by (simpl; lia).
  destruct (generate_mock_embedding_normalized (rnd := pyrandom) settings2
              "abc" "a.png" 0%Z Hdim)
    as [raw [e [Hraw [_ [Hgen [Hnz _]]]]]].
  exists raw, e.
  assert (Hne : l2_norm raw <> 0%R).
  { rewrite example_raw_embedding in Hraw. injection Hraw as <-.
    exact example_raw_norm_nonzero. }
  split; [exact Hraw|]. split; [exact Hne|]. split; [exact Hgen|].
  exact (Hnz Hne).
Defined.

End GeneratorExamples.

(* ================================================================== *)
(** ** [extract_image_metadata] *)

Section MetadataTheorems.
Context {pil : Pillow}.
Local Open Scope string_scope.

Lemma extraction_fallback_fields (e : exn) :
  dict_get (extraction_fallback e) "width" = Some (MInt 0)
  /\ dict_get (extraction_fallback e) "height" = Some (MInt 0)
  /\ dict_get (extraction_fallback e) "format" = Some (MStr "unknown")
  /\ dict_get (extraction_fallback e) "extraction_error" = Some (MStr (str_exn e)).
Proof. repeat split. Qed.

(** A failure of [Image.open] is a failure of the body of the [try]. *)
Lemma open_failure_fails_body (content : bytes) (e : exn) :
  Image_open content = Raise e ->
  extract_image_metadata_body content = Raise e.
Proof.
  intros H. unfold extract_image_metadata_body, ResultMonad.bind.
  rewrite H. reflexivity.
Qed.

(** C9.  [extract_image_metadata] returns a dictionary for every content
    and never raises.  Whatever exception the body of its [try] raises is
    turned into the fallback record; in particular, when the content does
    not decode, the record has width 0, height 0, format ["unknown"] and
    the text of the exception under ["extraction_error"]. *)
Theorem extract_image_metadata_never_raises (content : bytes) :
  exists m,
    extract_image_metadata content = Ok m
    /\ (forall e, extract_image_metadata_body content = Raise e ->
                  m = extraction_fallback e)
    /\ (forall e, Image_open content = Raise e ->
          dict_get m "width" = Some (MInt 0)
          /\ dict_get m "height" = Some (MInt 0)
          /\ dict_get m "format" = Some (MStr "unknown")
          /\ dict_get m "extraction_error" = Some (MStr (str_exn e))).
Proof.
  unfold extract_image_metadata, ResultMonad.try_except.
  destruct (extract_image_metadata_body content) as [m|e0] eqn:Hbody.
  - exists m. split; [reflexivity|]. split.
    + intros e He. discriminate.
    + intros e He. apply open_failure_fails_body in He. congruence.
  - exists (extraction_fallback e0). split; [reflexivity|]. split.
    + intros e He. congruence.
    + intros e He. apply open_failure_fails_body in He.
      assert (e0 = e) as -> by congruence.
      apply extraction_fallback_fields.
Qed.

End MetadataTheorems.

Section MetadataExamples.
Import Example.
Local Open Scope string_scope.

(** C9 on a content that does not decode (the empty one). *)
Lemma extract_image_metadata_never_raises_witness :
  exists m,
    extract_image_metadata "" = Ok m
    /\ dict_get m "width" = Some (MInt 0)
    /\ dict_get m "height" = Some (MInt 0)
    /\ dict_get m "format" = Some (MStr "unknown")
    /\ dict_get m "extraction_error" = Some (MStr "cannot identify image file").
Proof.
  destruct (extract_image_metadata_never_raises (pil := pillow) "")
    as [m [Hm [_ Hfail]]].
  exists m. split; [exact Hm|].
  exact (Hfail (UnidentifiedImageError "cannot identify image file") eq_refl).
Defined.

(** A content that decodes gives the image's own fields. *)
Example extract_image_metadata_decodes :
  extract_image_metadata "x"
  = Ok [ ("format", MStr "PNG"); ("mode", MStr "RGB"); ("size", MTuple 1 1);
         ("width", MInt 1); ("height", MInt 1);
         ("has_transparency", MBool false) ].
Proof. reflexivity. Qed.

End MetadataExamples.

(* ================================================================== *)
(** ** Ordering, limits and conversions *)

Section QueryFacts.

Lemma Rleb_true (x y : R) : Rleb x y = true <-> (x <= y)%R.
Proof.
  unfold Rleb. destruct (Rle_dec x y); split; intros H;
    try reflexivity; try assumption; try discriminate; contradiction.
Qed.

Lemma Rleb_false (x y : R) : Rleb x y = false <-> (y < x)%R.
Proof.
  unfold Rleb. destruct (Rle_dec x y); split; intros H;
    try reflexivity; try discriminate; try lra.
Qed.

Variable A : Type.
Variable key : A -> R.

Lemma ge_key_trans : Relations_1.Transitive (ge_key key).
Proof. intros a b c Hab Hbc. unfold ge_key in *. lra. Qed.

Lemma insert_desc_perm (x : A) (l : list A) :
  Permutation (x :: l) (insert_desc key x l).
Proof.
  induction l as [|y l IH]; simpl.
  - apply Permutation_refl.
  - destruct (Rleb (key y) (key x)).
    + apply Permutation_refl.
    + eapply perm_trans; [apply perm_swap|]. apply perm_skip, IH.
Qed.

Lemma insert_desc_hd (x a : A) (l : list A) :
  ge_key key a x -> HdRel (ge_key key) a l -> HdRel (ge_key key) a (insert_desc key x l).
Proof.
  intros Hax Hl. destruct l as [|y l]; simpl.
  - constructor. exact Hax.
  - destruct (Rleb (key y) (key x)); constructor.
    + exact Hax.
    + inversion Hl; assumption.
Qed.

Lemma insert_desc_sorted (x : A) (l : list A) :
  Sorted (ge_key key) l -> Sorted (ge_key key) (insert_desc key x l).
Proof.
  induction l as [|y l IH]; simpl; intros Hs.
  - repeat constructor.
  - destruct (Rleb (key y) (key x)) eqn:E.
    + constructor; [exact Hs|]. constructor.
      apply Rleb_true in E. unfold ge_key. lra.
    + apply Rleb_false in E. inversion Hs as [|? ? Hs' Hhd]; subst.
      constructor; [apply IH, Hs'|].
      apply insert_desc_hd; [unfold ge_key; lra|exact Hhd].
Qed.

(** The database always has a way to order the rows. *)
Lemma order_by_desc_sort (l : list A) : order_by_desc key l (sort_desc key l).
Proof.
  unfold order_by_desc, sort_desc. induction l as [|x l [IHp IHs]]; simpl.
  - split; constructor.
  - split.
    + eapply perm_trans; [apply perm_skip, IHp|]. apply insert_desc_perm.
    + apply insert_desc_sorted, IHs.
Qed.

Lemma sorted_firstn (n : nat) (l : list A) :
  Sorted (ge_key key) l -> Sorted (ge_key key) (firstn n l).
Proof.
  intros Hs. apply Sorted_StronglySorted in Hs; [|exact ge_key_trans].
  apply StronglySorted_Sorted. revert n.
  induction Hs as [|a l Hs IH Hall]; intros n.
  - rewrite firstn_nil. constructor.
  - destruct n as [|n]; simpl; constructor.
    + apply IH.
    + rewrite Forall_forall in *. intros x Hx. apply Hall.
      rewrite <- (firstn_skipn n l). apply in_or_app. left. exact Hx.
Qed.

Lemma in_firstn (n : nat) (l : list A) (x : A) : In x (firstn n l) -> In x l.
Proof.
  intros Hx. rewrite <- (firstn_skipn n l). apply in_or_app. left. exact Hx.
Qed.

(** Keys that are pairwise distinct turn the order into a strict one. *)
Lemma sorted_distinct_strict (l : list A) :
  Sorted (ge_key key) l -> NoDup (map key l) -> StronglySorted (gt_key key) l.
Proof.
  intros Hs. apply Sorted_StronglySorted in Hs; [|exact ge_key_trans].
  induction Hs as [|a l Hs IH Hall]; simpl; intros Hnd.
  - constructor.
  - inversion Hnd as [|? ? Hnotin Hnd']; subst.
    constructor; [apply IH, Hnd'|].
    rewrite Forall_forall in *. intros x Hx.
    specialize (Hall x Hx). unfold ge_key in Hall. unfold gt_key.
    destruct (Req_dec (key a) (key x)) as [Heq|Hne]; [|lra].
    exfalso. apply Hnotin. rewrite Heq. apply in_map, Hx.
Qed.

(** A list has one strictly descending arrangement only. *)
Lemma strict_order_unique (l1 : list A) :
  forall l2, Permutation l1 l2 ->
             StronglySorted (gt_key key) l1 -> StronglySorted (gt_key key) l2 -> l1 = l2.
Proof.
  induction l1 as [|x l1 IH]; intros l2 Hp H1 H2.
  - apply Permutation_nil in Hp. congruence.
  - destruct l2 as [|y l2].
    + apply Permutation_sym, Permutation_nil in Hp. discriminate.
    + inversion H1 as [|? ? H1' Hx]; subst.
      inversion H2 as [|? ? H2' Hy]; subst.
      rewrite Forall_forall in Hx, Hy.
      assert (Hxy : x = y).
      { assert (Hin1 : In x (y :: l2))
          by (eapply Permutation_in; [exact Hp|left; reflexivity]).
        assert (Hin2 : In y (x :: l1))
          by (eapply Permutation_in;
              [apply Permutation_sym, Hp|left; reflexivity]).
        destruct Hin1 as [E|Hin1]; [congruence|].
        destruct Hin2 as [E|Hin2]; [congruence|].
        specialize (Hx y Hin2). specialize (Hy x Hin1).
        unfold gt_key in *. lra. }
      subst y. f_equal. apply IH; [|exact H1'|exact H2'].
      eapply Permutation_cons_inv. exact Hp.
Qed.

(** With pairwise distinct keys, [ORDER BY] has one result. *)
Lemma order_by_desc_unique (rows s1 s2 : list A) :
  NoDup (map key rows) ->
  order_by_desc key rows s1 -> order_by_desc key rows s2 -> s1 = s2.
Proof.
  intros Hnd [Hp1 Hs1] [Hp2 Hs2].
  apply strict_order_unique.
  - eapply perm_trans; [apply Permutation_sym, Hp1|exact Hp2].
  - apply sorted_distinct_strict; [exact Hs1|].
    eapply Permutation_NoDup; [apply Permutation_map, Hp1|exact Hnd].
  - apply sorted_distinct_strict; [exact Hs2|].
    eapply Permutation_NoDup; [apply Permutation_map, Hp2|exact Hnd].
Qed.

Lemma sql_limit_ok (limit : Z) (rows out : list A) :
  sql_limit limit rows = Ok out ->
  (0 <= limit)%Z /\ out = firstn (Z.to_nat limit) rows.
Proof.
  unfold sql_limit. destruct (limit <? 0)%Z eqn:E; intros H.
  - discriminate.
  - apply Z.ltb_ge in E. injection H as <-. split; [exact E|reflexivity].
Qed.

End QueryFacts.

Section MapMFacts.
Variables A B : Type.
Variable f : A -> Result B.

Lemma mapM_ok (l : list A) :
  forall out, ResultMonad.mapM f l = Ok out ->
              Forall2 (fun a b => f a = Ok b) l out.
Proof.
  induction l as [|x l IH]; simpl; intros out H.
  - injection H as <-. constructor.
  - unfold ResultMonad.bind in H.
    destruct (f x) as [y|e] eqn:Hx; [|discriminate].
    destruct (ResultMonad.mapM f l) as [ys|e]; [|discriminate].
    injection H as <-. constructor; [exact Hx|apply IH; reflexivity].
Qed.

Lemma Forall2_in_right (P : A -> B -> Prop) (l1 : list A) (l2 : list B) :
  Forall2 P l1 l2 -> forall b, In b l2 -> exists a, In a l1 /\ P a b.
Proof.
  induction 1 as [|a b0 l1 l2 Hab _ IH]; intros b Hb.
  - inversion Hb.
  - destruct Hb as [<-|Hb].
    + exists a. split; [left; reflexivity|exact Hab].
    + destruct (IH b Hb) as [a' [Ha' Hp]]. exists a'. split; [right|]; assumption.
Qed.

End MapMFacts.

(* ================================================================== *)
(** ** [VectorService.find_similar_images] *)

Section SimilarFacts.
Import VectorService.
Variable settings : Settings.

(** What the constructor of [SimilarImage] accepts, and what it builds. *)
Lemma to_similar_image_ok (row : SimilarRow) (r : SimilarImage.t) :
  to_similar_image row = Ok r ->
  SimilarImage.id r = row_id row
  /\ SimilarImage.similarity_score r = row_similarity_score row
  /\ (0 <= row_similarity_score row <= 1)%R.
Proof.
  unfold to_similar_image, SimilarImage.new.
  destruct (Rleb 0 (row_similarity_score row)) eqn:E0; simpl; [|discriminate].
  destruct (Rleb (row_similarity_score row) 1) eqn:E1; [|discriminate].
  intros H. injection H as <-. simpl.
  apply Rleb_true in E0. apply Rleb_true in E1. auto.
Qed.

Lemma to_similar_image_out_of_range (row : SimilarRow) :
  ~ (0 <= row_similarity_score row <= 1)%R ->
  to_similar_image row
  = Raise (ValidationError "similarity_score: input out of range").
Proof.
  intros Hout. unfold to_similar_image, SimilarImage.new.
  destruct (Rleb 0 (row_similarity_score row)) eqn:E0; simpl; [|reflexivity].
  destruct (Rleb (row_similarity_score row) 1) eqn:E1; [|reflexivity].
  apply Rleb_true in E0. apply Rleb_true in E1. exfalso. apply Hout. auto.
Qed.

(** The conversion loop stops at the first row the schema rejects. *)
Lemma mapM_out_of_range (rows : list SimilarRow) :
  Exists (fun row => ~ (0 <= row_similarity_score row <= 1)%R) rows ->
  ResultMonad.mapM to_similar_image rows
  = Raise (ValidationError "similarity_score: input out of range").
Proof.
  induction rows as [|row rows IH]; intros Hex.
  - inversion Hex.
  - simpl. unfold ResultMonad.bind.
    destruct (to_similar_image row) as [r|e] eqn:Hrow.
    + apply to_similar_image_ok in Hrow. destruct Hrow as [_ [_ Hin]].
      inversion Hex as [? ? Hout|? ? Hex']; subst; [contradiction|].
      rewrite (IH Hex'). reflexivity.
    + destruct (Rle_dec 0 (row_similarity_score row)) as [H0|H0];
        [destruct (Rle_dec (row_similarity_score row) 1) as [H1|H1]|].
      * unfold to_similar_image, SimilarImage.new in Hrow.
        apply Rleb_true in H0. apply Rleb_true in H1.
        rewrite H0, H1 in Hrow. discriminate.
      * rewrite to_similar_image_out_of_range in Hrow by lra. congruence.
      * rewrite to_similar_image_out_of_range in Hrow by lra. congruence.
Qed.

(** Every selected row comes from a completed stored row that passes the
    threshold and is not the excluded one. *)
Lemma similar_candidates_in (tbl : Table) (q : list R) (qid : option UUID)
      (t : R) (row : SimilarRow) :
  In row (similar_candidates tbl q qid t) ->
  exists img, In img tbl /\ row = similar_row q img
              /\ is_completed img = true
              /\ (t <= similarity q img)%R
              /\ (forall u, qid = Some u -> Image.id img <> u).
Proof.
  unfold similar_candidates. intros Hin.
  apply in_map_iff in Hin. destruct Hin as [img [<- Hf]].
  apply filter_In in Hf. destruct Hf as [Hin Hw].
  unfold similar_where in Hw.
  apply andb_prop in Hw. destruct Hw as [Hw Hex].
  apply andb_prop in Hw. destruct Hw as [Hc Ht].
  exists img. repeat split; auto.
  - apply Rleb_true, Ht.
  - intros u ->. apply negb_true_iff, N.eqb_neq in Hex. exact Hex.
Qed.

(** The call always has an outcome. *)
Lemma find_similar_images_total (tbl : Table) (q : list R)
      (qid : option UUID) (limit : Z) (threshold : option R) :
  exists out, find_similar_images settings tbl q qid limit threshold out.
Proof.
  eexists. eexists. split; [|reflexivity].
  eexists. split; [apply order_by_desc_sort|reflexivity].
Qed.

(** What a successful call went through. *)
Lemma find_similar_images_ok_inv (tbl : Table) (q : list R)
      (qid : option UUID) (limit : Z) (threshold : option R)
      (found : list SimilarImage.t) :
  find_similar_images settings tbl q qid limit threshold (Ok found) ->
  exists sorted,
    order_by_desc row_similarity_score
      (similar_candidates tbl q qid (effective_threshold settings threshold))
      sorted
    /\ (0 <= limit)%Z
    /\ Forall2 (fun row r => to_similar_image row = Ok r)
               (firstn (Z.to_nat limit) sorted) found.
Proof.
  intros [fetched [[sorted [Hord ->]] Hout]].
  exists sorted. split; [exact Hord|].
  unfold similar_images_of in Hout.
  destruct (sql_limit limit sorted) as [rows|e] eqn:Hlim; [|discriminate].
  apply sql_limit_ok in Hlim. destruct Hlim as [Hpos ->].
  split; [exact Hpos|].
  unfold ResultMonad.try_except in Hout.
  destruct (ResultMonad.mapM to_similar_image
              (firstn (Z.to_nat limit) sorted)) as [l|e] eqn:Hm;
    [|discriminate].
  injection Hout as ->. apply mapM_ok, Hm.
Qed.

(** Each result of a successful call is a stored row's, with its score. *)
Lemma find_similar_images_results (tbl : Table) (q : list R)
      (qid : option UUID) (limit : Z) (threshold : option R)
      (found : list SimilarImage.t) :
  find_similar_images settings tbl q qid limit threshold (Ok found) ->
  Forall (fun r =>
            exists img,
              In img tbl /\ is_completed img = true
              /\ SimilarImage.id r = Image.id img
              /\ SimilarImage.similarity_score r = similarity q img
              /\ (effective_threshold settings threshold <= similarity q img)%R
              /\ (0 <= similarity q img <= 1)%R
              /\ (forall u, qid = Some u -> Image.id img <> u)) found.
Proof.
  intros H. apply find_similar_images_ok_inv in H.
  destruct H as [sorted [[Hperm _] [_ Hall]]].
  apply Forall_forall. intros r Hr.
  destruct (Forall2_in_right _ _ _ _ _ Hall r Hr) as [row [Hrow Hconv]].
  apply in_firstn in Hrow.
  apply (Permutation_in _ (Permutation_sym Hperm)) in Hrow.
  apply similar_candidates_in in Hrow.
  destruct Hrow as [img [Hin [-> [Hc [Ht Hex]]]]].
  apply to_similar_image_ok in Hconv. simpl in Hconv.
  destruct Hconv as [Hid [Hscore Hrange]].
  exists img. repeat split; auto; apply Hrange.
Qed.

End SimilarFacts.

Section SimilarTheorems.
Import VectorService.
Variable settings : Settings.

Lemma sorted_results (rows : list SimilarRow) (found : list SimilarImage.t) :
  Forall2 (fun row r => to_similar_image row = Ok r) rows found ->
  StronglySorted (ge_key row_similarity_score) rows ->
  StronglySorted (ge_key SimilarImage.similarity_score) found.
Proof.
  induction 1 as [|row r rows found Hconv Hall IH]; intros Hs.
  - constructor.
  - inversion Hs as [|? ? Hs' Hhd]; subst.
    constructor; [apply IH, Hs'|].
    apply Forall_forall. intros r' Hr'.
    destruct (Forall2_in_right _ _ _ _ _ Hall r' Hr') as [row' [Hrow' Hconv']].
    rewrite Forall_forall in Hhd. specialize (Hhd row' Hrow').
    apply to_similar_image_ok in Hconv. apply to_similar_image_ok in Hconv'.
    destruct Hconv as [_ [E _]]. destruct Hconv' as [_ [E' _]].
    unfold ge_key in *. rewrite E, E'. exact Hhd.
Qed.

(** C6.  Every result of [find_similar_images] has a similarity score at
    or above the threshold in force, and is the row of a stored, completed
    image whose similarity to the query is that score: an image below the
    threshold contributes no result at all. *)
Theorem find_similar_images_respects_threshold
        (tbl : Table) (query_embedding : list R) (query_image_id : option UUID)
        (limit : Z) (threshold : option R) (found : list SimilarImage.t) :
  find_similar_images settings tbl query_embedding query_image_id limit
                      threshold (Ok found) ->
  Forall (fun r =>
            (effective_threshold settings threshold
             <= SimilarImage.similarity_score r)%R
            /\ exists img,
                 In img tbl /\ is_completed img = true
                 /\ SimilarImage.id r = Image.id img
                 /\ SimilarImage.similarity_score r
                    = similarity query_embedding img) found.
Proof.
  intros H. apply find_similar_images_results in H.
  eapply Forall_impl; [|exact H]. simpl.
  intros r [img [Hin [Hc [Hid [Hs [Ht _]]]]]].
  split; [rewrite Hs; exact Ht|].
  exists img. auto.
Qed.

(** C5, as the code has it.  A score that [find_similar_images] returns
    lies in [0,1] and is the value [1 - cosine_distance] itself, not a
    clipped one; when a row the statement returns has a score outside
    [0,1], the schema rejects it and the call raises [RuntimeError]. *)
Theorem similarity_scores_validated_not_clipped
        (tbl : Table) (query_embedding : list R) (query_image_id : option UUID)
        (limit : Z) (threshold : option R) :
  (forall found,
      find_similar_images settings tbl query_embedding query_image_id limit
                          threshold (Ok found) ->
      Forall (fun r =>
                (0 <= SimilarImage.similarity_score r <= 1)%R
                /\ exists img,
                     In img tbl /\ SimilarImage.id r = Image.id img
                     /\ SimilarImage.similarity_score r
                        = (1 - cosine_distance (Image.embedding_vector img)
                                               query_embedding)%R) found)
  /\ (forall rows,
         execute_similar tbl query_embedding query_image_id limit
                         (effective_threshold settings threshold) (Ok rows) ->
         Exists (fun row => ~ (0 <= row_similarity_score row <= 1)%R) rows ->
         find_similar_images settings tbl query_embedding query_image_id limit
           threshold
           (Raise (RuntimeError
                     "Unexpected error during similarity search: similarity_score: input out of range"))).
Proof.
  split.
  - intros found H. apply find_similar_images_results in H.
    eapply Forall_impl; [|exact H]. simpl.
    intros r [img [Hin [_ [Hid [Hs [_ [Hr _]]]]]]].
    split; [rewrite Hs; exact Hr|].
    exists img. auto.
  - intros rows Hexec Hex. exists (Ok rows). split; [exact Hexec|].
    unfold similar_images_of, ResultMonad.try_except.
    rewrite (mapM_out_of_range rows Hex). reflexivity.
Qed.

(** C3, as the code has it.  The results of [find_similar_images] are in
    descending order of similarity and the statement names no second key:
    two calls with the same arguments on the same table give the same
    outcome when no two selected rows have the same similarity. *)
Theorem find_similar_images_order
        (tbl : Table) (query_embedding : list R) (query_image_id : option UUID)
        (limit : Z) (threshold : option R)
        (out1 out2 : Result (list SimilarImage.t)) :
  find_similar_images settings tbl query_embedding query_image_id limit
                      threshold out1 ->
  find_similar_images settings tbl query_embedding query_image_id limit
                      threshold out2 ->
  (forall found, out1 = Ok found ->
     Sorted (fun a b => (SimilarImage.similarity_score a
                         >= SimilarImage.similarity_score b)%R) found)
  /\ (NoDup (map row_similarity_score
               (similar_candidates tbl query_embedding query_image_id
                  (effective_threshold settings threshold))) ->
      out1 = out2).
Proof.
  intros H1 H2. split.
  - intros found ->. apply find_similar_images_ok_inv in H1.
    destruct H1 as [sorted [[_ Hs] [_ Hall]]].
    apply (StronglySorted_Sorted
             (R := ge_key SimilarImage.similarity_score)).
    apply (sorted_results _ _ Hall).
    apply Sorted_StronglySorted; [apply ge_key_trans|].
    apply sorted_firstn. exact Hs.
  - intros Hnd.
    destruct H1 as [f1 [[s1 [Ho1 ->]] ->]].
    destruct H2 as [f2 [[s2 [Ho2 ->]] ->]].
    rewrite (order_by_desc_unique _ _ _ _ _ Hnd Ho1 Ho2). reflexivity.
Qed.

End SimilarTheorems.

(* ================================================================== *)
(** ** Runs of the similarity search *)

Section SimilarExamples.
Import Example VectorService.
Local Open Scope R_scope.

Lemma cosine_east_east : cosine_distance east east = 0.
Proof.
  unfold cosine_distance, vector_norm, east. simpl.
  replace (1 * 1 + (0 * 0 + 0)) with 1 by lra. rewrite sqrt_1. lra.
Qed.

Lemma cosine_west_east : cosine_distance west east = 2.
Proof.
  unfold cosine_distance, vector_norm, west, east. simpl.
  replace (-1 * -1 + (0 * 0 + 0)) with 1 by lra.
  replace (1 * 1 + (0 * 0 + 0)) with 1 by lra. rewrite sqrt_1. lra.
Qed.

Lemma cosine_north_east : cosine_distance north east = 1.
Proof.
  unfold cosine_distance, vector_norm, north, east. simpl.
  replace (0 * 0 + (1 * 1 + 0)) with 1 by lra.
  replace (1 * 1 + (0 * 0 + 0)) with 1 by lra. rewrite sqrt_1. lra.
Qed.

Lemma similarity_east (u : UUID) (st : string) :
  similarity east (image u east st) = 1.
Proof. unfold similarity. simpl. rewrite cosine_east_east. lra. Qed.

Lemma similarity_west (u : UUID) (st : string) :
  similarity east (image u west st) = -1.
Proof. unfold similarity. simpl. rewrite cosine_west_east. lra. Qed.

Lemma similarity_north (u : UUID) (st : string) :
  similarity east (image u north st) = 0.
Proof. unfold similarity. simpl. rewrite cosine_north_east. lra. Qed.

Lemma similar_row_east (u : UUID) (st : string) :
  similar_row east (image u east st) = row u 1.
Proof. unfold similar_row, row. rewrite similarity_east. reflexivity. Qed.

Lemma similar_row_west (u : UUID) (st : string) :
  similar_row east (image u west st) = row u (-1).
Proof. unfold similar_row, row. rewrite similarity_west. reflexivity. Qed.

Lemma similar_row_north (u : UUID) (st : string) :
  similar_row east (image u north st) = row u 0.
Proof. unfold similar_row, row. rewrite similarity_north. reflexivity. Qed.

(** The [where] clause on an example row, by its three conditions. *)
Lemma similar_where_image (qid : option UUID) (t : R) (u : UUID)
      (v : list R) (st : string) :
  similar_where east qid t (image u v st)
  = String.eqb st completed
    && Rleb t (similarity east (image u v st))
    && match qid with Some x => negb (N.eqb u x) | None => true end.
Proof. reflexivity. Qed.

Lemma to_similar_image_row (u : UUID) (s : R) :
  0 <= s <= 1 -> to_similar_image (row u s) = Ok (similar u s).
Proof.
  intros [H0 H1]. unfold to_similar_image, SimilarImage.new. simpl.
  apply Rleb_true in H0. apply Rleb_true in H1. rewrite H0, H1. reflexivity.
Qed.

Lemma tied_candidates :
  similar_candidates tied east None 0 = [row 1 1; row 2 1].
Proof.
  unfold similar_candidates, tied. cbn [filter].
  rewrite !similar_where_image, !similarity_east.
  assert (H : Rleb 0 1 = true) by (apply Rleb_true; lra).
  rewrite H. simpl. rewrite !similar_row_east. reflexivity.
Qed.

(** Descending order of a concrete list of rows. *)
Ltac sorted_desc :=
  repeat first
    [ apply Sorted_nil | apply HdRel_nil
    | apply Sorted_cons | apply HdRel_cons; simpl; lra ].

(** An outcome of the call, from the rows selected and an order for them. *)
Lemma find_similar_images_run (settings : Settings) (tbl : Table)
      (q : list R) (qid : option UUID) (limit : Z) (threshold : option R)
      (rows sorted : list SimilarRow) (out : Result (list SimilarImage.t)) :
  similar_candidates tbl q qid (effective_threshold settings threshold) = rows ->
  Permutation rows sorted ->
  Sorted (fun a b => row_similarity_score a >= row_similarity_score b) sorted ->
  similar_images_of (sql_limit limit sorted) = out ->
  find_similar_images settings tbl q qid limit threshold out.
Proof.
  intros Hc Hp Hs Ho. exists (sql_limit limit sorted). split.
  - exists sorted. split; [|reflexivity]. rewrite Hc. split; assumption.
  - symmetry. exact Ho.
Qed.

Lemma similar_images_of_two (u v : UUID) (s t : R) :
  0 <= s <= 1 -> 0 <= t <= 1 ->
  similar_images_of (sql_limit 5 [row u s; row v t])
  = Ok [similar u s; similar v t].
Proof.
  intros Hs Ht. unfold similar_images_of, sql_limit. simpl.
  rewrite !to_similar_image_row by assumption. reflexivity.
Qed.

Lemma tied_first_order :
  find_similar_images settings2 tied east None 5 (Some 0)
                      (Ok [similar 1 1; similar 2 1]).
Proof.
  eapply find_similar_images_run.
  - exact tied_candidates.
  - apply Permutation_refl.
  - sorted_desc.
  - apply similar_images_of_two; lra.
Qed.

Lemma tied_second_order :
  find_similar_images settings2 tied east None 5 (Some 0)
                      (Ok [similar 2 1; similar 1 1]).
Proof.
  eapply find_similar_images_run.
  - exact tied_candidates.
  - apply perm_swap.
  - sorted_desc.
  - apply similar_images_of_two; lra.
Qed.

(** C3 fails as stated: on a table with two completed rows of the same
    similarity, the same call has two outcomes whose ID sequences differ. *)
Lemma find_similar_images_tie_order_varies :
  exists found1 found2,
    find_similar_images settings2 tied east None 5 (Some 0) (Ok found1)
    /\ find_similar_images settings2 tied east None 5 (Some 0) (Ok found2)
    /\ map SimilarImage.id found1 <> map SimilarImage.id found2.
Proof.
  exists [similar 1 1; similar 2 1], [similar 2 1; similar 1 1].
  split; [exact tied_first_order|]. split; [exact tied_second_order|].
  simpl. discriminate.
Qed.

Lemma apart_candidates :
  similar_candidates apart east None 0 = [row 5 0; row 1 1].
Proof.
  unfold similar_candidates, apart. cbn [filter].
  rewrite !similar_where_image, similarity_east, similarity_north.
  assert (H1 : Rleb 0 1 = true) by (apply Rleb_true; lra).
  assert (H0 : Rleb 0 0 = true) by (apply Rleb_true; lra).
  rewrite H0, H1. simpl. rewrite similar_row_east, similar_row_north.
  reflexivity.
Qed.

Lemma apart_run :
  find_similar_images settings2 apart east None 5 (Some 0)
                      (Ok [similar 1 1; similar 5 0]).
Proof.
  eapply find_similar_images_run.
  - exact apart_candidates.
  - apply perm_swap.
  - sorted_desc.
  - apply similar_images_of_two; lra.
Qed.

(** C3 as the code has it, on a table without ties: the call has one
    outcome, in descending order of similarity. *)
Lemma find_similar_images_order_witness :
  Sorted (fun a b => SimilarImage.similarity_score a
                     >= SimilarImage.similarity_score b)
         [similar 1 1; similar 5 0]
  /\ (forall out,
         find_similar_images settings2 apart east None 5 (Some 0) out ->
         out = Ok [similar 1 1; similar 5 0]).
Proof.
  split.
  - exact (proj1 (find_similar_images_order settings2 apart east None 5
                    (Some 0) _ _ apart_run apart_run) _ eq_refl).
  - intros out Hout. symmetry.
    apply (proj2 (find_similar_images_order settings2 apart east None 5
                    (Some 0) _ _ apart_run Hout)).
    simpl effective_threshold. rewrite apart_candidates. simpl.
    repeat constructor; simpl; intros H; repeat destruct H as [H|H]; lra.
Defined.

Lemma opposite_candidates :
  similar_candidates opposite east None (-1) = [row 3 (-1)].
Proof.
  unfold similar_candidates, opposite. cbn [filter].
  rewrite similar_where_image, similarity_west.
  assert (H : Rleb (-1) (-1) = true) by (apply Rleb_true; lra).
  rewrite H. simpl. rewrite similar_row_west. reflexivity.
Qed.

Lemma opposite_rejected :
  to_similar_image (row 3 (-1))
  = Raise (ValidationError "similarity_score: input out of range").
Proof. apply to_similar_image_out_of_range. simpl. lra. Qed.

(** C5 fails as stated: for a stored vector opposite to the query the
    statement computes the score -1, which nothing clips to 0; with a
    threshold that lets the row through, the call can only raise. *)
Lemma find_similar_images_does_not_clip :
  map row_similarity_score (similar_candidates opposite east None (-1)) = [-1]
  /\ (forall out,
         find_similar_images settings2 opposite east None 5
                             (Some (-1)) out ->
         out = Raise (RuntimeError
                        "Unexpected error during similarity search: similarity_score: input out of range")).
Proof.
  split.
  - rewrite opposite_candidates. reflexivity.
  - intros out [fetched [[sorted [[Hp _] ->]] ->]].
    simpl effective_threshold in Hp. rewrite opposite_candidates in Hp.
    apply Permutation_length_1_inv in Hp. subst sorted.
    unfold similar_images_of, sql_limit. simpl.
    unfold ResultMonad.bind. rewrite opposite_rejected. reflexivity.
Qed.

Lemma mixed_candidates :
  similar_candidates mixed east None (1 / 2) = [row 1 1].
Proof.
  unfold similar_candidates, mixed. cbn [filter].
  rewrite !similar_where_image, !similarity_east, similarity_west,
    similarity_north.
  assert (H1 : Rleb (1 / 2) 1 = true) by (apply Rleb_true; lra).
  assert (H2 : Rleb (1 / 2) (-1) = false) by (apply Rleb_false; lra).
  assert (H3 : Rleb (1 / 2) 0 = false) by (apply Rleb_false; lra).
  rewrite H1, H2, H3. simpl. rewrite similar_row_east. reflexivity.
Qed.

Lemma mixed_run :
  find_similar_images settings2 mixed east None 5 (Some (1 / 2))
                      (Ok [similar 1 1]).
Proof.
  eapply find_similar_images_run.
  - exact mixed_candidates.
  - apply Permutation_refl.
  - sorted_desc.
  - unfold similar_images_of, sql_limit. simpl.
    rewrite to_similar_image_row by lra. reflexivity.
Qed.

(** C6 on a table with rows above and below the threshold 1/2. *)
Lemma find_similar_images_respects_threshold_witness :
  find_similar_images settings2 mixed east None 5 (Some (1 / 2))
                      (Ok [similar 1 1])
  /\ Forall (fun r =>
               1 / 2 <= SimilarImage.similarity_score r
               /\ exists img,
                    In img mixed /\ is_completed img = true
                    /\ SimilarImage.id r = Image.id img
                    /\ SimilarImage.similarity_score r = similarity east img)
            [similar 1 1].
Proof.
  split; [exact mixed_run|].
  exact (find_similar_images_respects_threshold settings2 mixed east
           None 5 (Some (1 / 2)) [similar 1 1] mixed_run).
Defined.

Lemma opposite_execution :
  execute_similar opposite east None 5 (-1) (Ok [row 3 (-1)]).
Proof.
  exists [row 3 (-1)]. split; [|reflexivity].
  rewrite opposite_candidates. split; [apply Permutation_refl|sorted_desc].
Qed.

(** C5 as the code has it: a returned score in [0,1], and a raise for the
    score -1. *)
Lemma similarity_scores_validated_not_clipped_witness :
  Forall (fun r =>
            0 <= SimilarImage.similarity_score r <= 1
            /\ exists img,
                 In img mixed /\ SimilarImage.id r = Image.id img
                 /\ SimilarImage.similarity_score r
                    = 1 - cosine_distance (Image.embedding_vector img) east)
         [similar 1 1]
  /\ find_similar_images settings2 opposite east None 5 (Some (-1))
       (Raise (RuntimeError
                 "Unexpected error during similarity search: similarity_score: input out of range")).
Proof.
  split.
  - exact (proj1 (similarity_scores_validated_not_clipped settings2
                    mixed east None 5 (Some (1 / 2))) _ mixed_run).
  - apply (proj2 (similarity_scores_validated_not_clipped settings2
                    opposite east None 5 (Some (-1))) _ opposite_execution).
    constructor. simpl. lra.
Defined.

End SimilarExamples.

(* ================================================================== *)
(** ** [VectorService.find_duplicate_images] *)

Section NoDupFacts.
Variables A B C : Type.

(** Filtering rows keeps their keys pairwise distinct. *)
Lemma filter_keeps_distinct_keys (keep : A -> bool) (key : A -> B)
      (rows : list A) :
  NoDup (map key rows) -> NoDup (map key (filter keep rows)).
Proof.
  intros Hnd. induction rows as [|r rows IH]; simpl in *.
  - constructor.
  - apply NoDup_cons_iff in Hnd. destruct Hnd as [Hfresh Hnd].
    destruct (keep r); simpl; [|apply IH, Hnd].
    constructor; [|apply IH, Hnd].
    intros Hin. apply Hfresh. apply in_map_iff in Hin.
    destruct Hin as [r' [Hkey Hin]]. apply filter_In in Hin.
    apply in_map_iff. exists r'. tauto.
Qed.

Lemma NoDup_firstn (n : nat) (l : list A) : NoDup l -> NoDup (firstn n l).
Proof.
  intros Hnd. rewrite <- (firstn_skipn n l) in Hnd.
  eapply NoDup_app_remove_r. exact Hnd.
Qed.

(** Distinct keys on both sides give distinct pairs of keys in the
    product. *)
Lemma NoDup_keys_prod (f : A -> C) (g : B -> C) (l1 : list A) (l2 : list B) :
  NoDup (map f l1) -> NoDup (map g l2) ->
  NoDup (map (fun p => (f (fst p), g (snd p))) (list_prod l1 l2)).
Proof.
  intros H1 H2. induction l1 as [|x l1 IH]; simpl.
  - constructor.
  - inversion H1 as [|? ? Hnotin H1']; subst.
    rewrite map_app, map_map. simpl. apply NoDup_app.
    + clear -H2. induction l2 as [|y l2 IH2]; simpl.
      * constructor.
      * inversion H2 as [|? ? Hn H2']; subst. constructor; [|apply IH2, H2'].
        intros Hin. apply Hn. apply in_map_iff in Hin.
        destruct Hin as [y' [E Hy']]. injection E as E.
        rewrite <- E. apply in_map, Hy'.
    + apply IH, H1'.
    + intros a Ha Hb. apply in_map_iff in Ha. destruct Ha as [y [<- _]].
      apply in_map_iff in Hb. destruct Hb as [[x' y'] [E Hin]].
      simpl in E. injection E as Ex _.
      apply in_prod_iff in Hin. destruct Hin as [Hx' _].
      apply Hnotin. rewrite <- Ex. apply in_map, Hx'.
Qed.

Lemma NoDup_map_distinct (f : A -> B) (l : list A) :
  NoDup (map f l) -> ForallOrdPairs (fun x y => f x <> f y) l.
Proof.
  induction l as [|x l IH]; simpl; intros Hnd.
  - constructor.
  - inversion Hnd as [|? ? Hnotin Hnd']; subst.
    constructor; [|apply IH, Hnd'].
    apply Forall_forall. intros y Hy E. apply Hnotin. rewrite E.
    apply in_map, Hy.
Qed.

Lemma ForallOrdPairs_impl (P Q : A -> A -> Prop) (R : A -> Prop) (l : list A) :
  (forall x y, R x -> R y -> P x y -> Q x y) ->
  Forall R l -> ForallOrdPairs P l -> ForallOrdPairs Q l.
Proof.
  intros Himp HR. induction 1 as [|x l Hx Hl IH].
  - constructor.
  - inversion HR as [|? ? Rx HR']; subst.
    constructor; [|apply IH, HR'].
    rewrite Forall_forall in *. intros y Hy.
    apply Himp; [exact Rx|apply HR', Hy|apply Hx, Hy].
Qed.

End NoDupFacts.

Section DuplicateTheorems.
Import VectorService.

Lemma image_pairs_ids (tbl : Table) (threshold : R) :
  map pair_ids (image_pairs tbl threshold)
  = map (fun p => (Image.id (fst p), Image.id (snd p)))
        (filter (duplicate_where threshold) (list_prod tbl tbl)).
Proof. unfold image_pairs. rewrite map_map. reflexivity. Qed.

Lemma image_pairs_nodup (tbl : Table) (threshold : R) :
  pk_unique tbl -> NoDup (map pair_ids (image_pairs tbl threshold)).
Proof.
  intros Hpk. rewrite image_pairs_ids. apply filter_keeps_distinct_keys.
  apply (NoDup_keys_prod _ _ _ Image.id Image.id); exact Hpk.
Qed.

Lemma image_pairs_ordered (tbl : Table) (threshold : R) :
  Forall (fun p => (fst (pair_ids p) < snd (pair_ids p))%N)
         (image_pairs tbl threshold).
Proof.
  apply Forall_forall. intros p Hp. unfold image_pairs in Hp.
  apply in_map_iff in Hp. destruct Hp as [[i1 i2] [<- Hin]].
  apply filter_In in Hin. destruct Hin as [_ Hw].
  unfold duplicate_where in Hw. simpl in Hw.
  apply andb_prop in Hw. destruct Hw as [Hw _].
  apply andb_prop in Hw. destruct Hw as [_ Hlt].
  apply N.ltb_lt in Hlt. exact Hlt.
Qed.

Lemma find_duplicate_images_total (tbl : Table) (threshold : R) (limit : Z) :
  exists out, find_duplicate_images tbl threshold limit out.
Proof.
  eexists. eexists. split; [apply order_by_desc_sort|reflexivity].
Qed.

Lemma find_duplicate_images_ok_inv (tbl : Table) (threshold : R) (limit : Z)
      (pairs : list (UUID * UUID * R)) :
  find_duplicate_images tbl threshold limit (Ok pairs) ->
  exists sorted,
    order_by_desc snd (image_pairs tbl threshold) sorted
    /\ pairs = firstn (Z.to_nat limit) sorted.
Proof.
  intros [sorted [Hord Hout]]. exists sorted. split; [exact Hord|].
  destruct (sql_limit limit sorted) as [rows|e] eqn:Hlim; [|discriminate].
  injection Hout as ->. apply sql_limit_ok in Hlim. apply Hlim.
Qed.

(** C7.  In the list [find_duplicate_images] returns, the first ID of every
    entry is strictly below the second, so no entry pairs a row with
    itself, and no two entries name the same set of IDs. *)
Theorem find_duplicate_images_pairs_unique
        (tbl : Table) (threshold : R) (limit : Z)
        (pairs : list (UUID * UUID * R)) :
  pk_unique tbl ->
  find_duplicate_images tbl threshold limit (Ok pairs) ->
  Forall (fun p => (fst (pair_ids p) < snd (pair_ids p))%N
                   /\ fst (pair_ids p) <> snd (pair_ids p)) pairs
  /\ ForallOrdPairs (fun p q => ~ same_id_set p q) pairs.
Proof.
  intros Hpk H. apply find_duplicate_images_ok_inv in H.
  destruct H as [sorted [[Hperm _] ->]].
  assert (Hord : Forall (fun p => (fst (pair_ids p) < snd (pair_ids p))%N)
                        (firstn (Z.to_nat limit) sorted)).
  { apply Forall_forall. intros p Hp. apply in_firstn in Hp.
    apply (Permutation_in _ (Permutation_sym Hperm)) in Hp.
    pose proof (image_pairs_ordered tbl threshold) as Hall.
    rewrite Forall_forall in Hall. apply Hall, Hp. }
  split.
  - eapply Forall_impl; [|exact Hord]. simpl. intros p Hlt.
    split; [exact Hlt|]. intros E. rewrite E in Hlt.
    apply N.lt_irrefl in Hlt. exact Hlt.
  - apply (ForallOrdPairs_impl _ (fun p q => pair_ids p <> pair_ids q) _
             (fun p => (fst (pair_ids p) < snd (pair_ids p))%N)).
    + intros p q Hp Hq Hne [[E1 E2]|[E1 E2]].
      * apply Hne. destruct (pair_ids p), (pair_ids q). simpl in *. congruence.
      * rewrite E1, E2 in Hp. apply (N.lt_asymm _ _ Hp Hq).
    + exact Hord.
    + apply NoDup_map_distinct. rewrite <- firstn_map. apply NoDup_firstn.
      eapply Permutation_NoDup; [apply Permutation_map, Hperm|].
      apply image_pairs_nodup, Hpk.
Qed.

End DuplicateTheorems.

(** The IDs of a concrete table are pairwise distinct. *)
Ltac distinct_ids :=
  repeat (apply NoDup_cons; [simpl; intuition discriminate|]);
  apply NoDup_nil.

Section DuplicateExamples.
Import Example VectorService.
Local Open Scope R_scope.

Lemma tied_pairs : image_pairs tied (95 / 100) = [(1%N, 2%N, 1)].
Proof.
  unfold image_pairs, tied. cbn [list_prod map app filter].
  unfold duplicate_where. simpl.
  rewrite cosine_east_east.
  assert (H : Rleb (95 / 100) (1 - 0) = true) by (apply Rleb_true; lra).
  rewrite H. simpl. unfold duplicate_row. simpl. rewrite cosine_east_east.
  replace (1 - 0) with 1 by lra. reflexivity.
Qed.

Lemma tied_pk_unique : pk_unique tied.
Proof.
  unfold pk_unique, tied. simpl. distinct_ids.
Qed.

(** The example rows fit the columns of a two-dimensional table. *)
Lemma example_tables_fit_columns :
  forallb (column_types_ok settings2) (tied ++ apart ++ opposite ++ facing ++ mixed)
  = true.
Proof. reflexivity. Qed.

Lemma tied_duplicates :
  find_duplicate_images tied (95 / 100) 100 (Ok [(1%N, 2%N, 1)]).
Proof.
  exists [(1%N, 2%N, 1)]. split; [|reflexivity].
  rewrite tied_pairs. split; [apply Permutation_refl|].
  repeat constructor.
Qed.

Lemma cosine_east_west : cosine_distance east west = 2.
Proof.
  unfold cosine_distance, vector_norm, west, east. simpl.
  replace (-1 * -1 + (0 * 0 + 0)) with 1 by lra.
  replace (1 * 1 + (0 * 0 + 0)) with 1 by lra. rewrite sqrt_1. lra.
Qed.

(** The duplicate search does not clip either, and has no schema that
    rejects: with threshold -1 it reports the score -1. *)
Lemma find_duplicate_images_negative_score :
  find_duplicate_images facing (-1) 100 (Ok [(1%N, 3%N, -1)]).
Proof.
  assert (Hpairs : image_pairs facing (-1) = [(1%N, 3%N, -1)]).
  { unfold image_pairs, facing. cbn [list_prod map app filter].
    unfold duplicate_where. simpl. rewrite cosine_east_west.
    assert (H : Rleb (-1) (1 - 2) = true) by (apply Rleb_true; lra).
    rewrite H. simpl. unfold duplicate_row. simpl. rewrite cosine_east_west.
    replace (1 - 2) with (-1) by lra. reflexivity. }
  exists [(1%N, 3%N, -1)]. split; [|reflexivity].
  rewrite Hpairs. split; [apply Permutation_refl|repeat constructor].
Qed.

(** C7 on a table of two identical images: one pair, reported once. *)
Lemma find_duplicate_images_pairs_unique_witness :
  pk_unique tied
  /\ find_duplicate_images tied (95 / 100) 100 (Ok [(1%N, 2%N, 1)])
  /\ Forall (fun p => (fst (pair_ids p) < snd (pair_ids p))%N
                      /\ fst (pair_ids p) <> snd (pair_ids p))
            [(1%N, 2%N, 1)]
  /\ ForallOrdPairs (fun p q => ~ same_id_set p q) [(1%N, 2%N, 1)].
Proof.
  split; [exact tied_pk_unique|]. split; [exact tied_duplicates|].
  exact (find_duplicate_images_pairs_unique tied (95 / 100) 100
           [(1%N, 2%N, 1)] tied_pk_unique tied_duplicates).
Defined.

End DuplicateExamples.

(* ================================================================== *)
(** ** The similarity endpoint on an image that is not completed *)

Section EndpointTheorems.
Variable settings : Settings.
Local Open Scope string_scope.

(** Under the primary key, the rows with a given ID are that row alone. *)
Lemma pk_unique_row (tbl : Table) (img r : Image.t) :
  pk_unique tbl -> In img tbl -> In r tbl -> Image.id r = Image.id img ->
  r = img.
Proof.
  unfold pk_unique. induction tbl as [|x tbl IH]; simpl; intros Hnd Hi Hr E.
  - contradiction.
  - inversion Hnd as [|? ? Hnotin Hnd']; subst.
    destruct Hi as [->|Hi]; destruct Hr as [->|Hr].
    + reflexivity.
    + exfalso. apply Hnotin. rewrite <- E. apply in_map, Hr.
    + exfalso. apply Hnotin. rewrite E. apply in_map, Hi.
    + apply IH; assumption.
Qed.

Lemma get_image_embedding_not_completed (tbl : Table) (img : Image.t) :
  pk_unique tbl -> In img tbl -> Image.processing_status img <> completed ->
  VectorService.get_image_embedding tbl (Image.id img) = Ok None.
Proof.
  intros Hpk Hin Hst. unfold VectorService.get_image_embedding.
  assert (Hnone : filter (fun r => N.eqb (Image.id r) (Image.id img)
                                   && is_completed r) tbl = []).
  { destruct (filter _ tbl) as [|r rest] eqn:Hf; [reflexivity|].
    exfalso. assert (Hr : In r (r :: rest)) by (left; reflexivity).
    rewrite <- Hf in Hr. apply filter_In in Hr. destruct Hr as [Hr Hc].
    apply andb_prop in Hc. destruct Hc as [Hid Hc].
    apply N.eqb_eq in Hid.
    rewrite (pk_unique_row tbl img r Hpk Hin Hr Hid) in Hc.
    unfold is_completed in Hc. apply String.eqb_eq in Hc. contradiction. }
  rewrite Hnone. reflexivity.
Qed.

(** C8.  For a stored image that is not completed (a pending one, say),
    [get_image_embedding] returns [None] and the endpoint has one outcome:
    the 404 [HTTPException].  It never answers with a list of results. *)
Theorem similar_query_on_pending_is_not_found
        (now : datetime) (tbl : Table) (img : Image.t) (limit : Z)
        (threshold : R) :
  pk_unique tbl -> In img tbl -> Image.processing_status img <> completed ->
  VectorService.get_image_embedding tbl (Image.id img) = Ok None
  /\ forall out,
       ImagesAPI.find_similar_images settings now tbl (Image.id img) limit
                                     threshold out
       <-> out = Raise (HTTPException 404
                          ("Image with ID " ++ str_uuid (Image.id img)
                           ++ " not found or not processed")).
Proof.
  intros Hpk Hin Hst.
  pose proof (get_image_embedding_not_completed tbl img Hpk Hin Hst) as Hget.
  split; [exact Hget|].
  intros out. unfold ImagesAPI.find_similar_images. rewrite Hget. simpl.
  reflexivity.
Qed.

End EndpointTheorems.

Section EndpointExamples.
Import Example.
Local Open Scope string_scope.

Lemma mixed_pk_unique : pk_unique mixed.
Proof.
  unfold pk_unique, mixed. simpl. distinct_ids.
Qed.

(** C8 on the pending row of the example table. *)
Lemma similar_query_on_pending_is_not_found_witness :
  Image.processing_status (image 4 east pending) = pending
  /\ VectorService.get_image_embedding mixed 4%N = Ok None
  /\ forall out,
       ImagesAPI.find_similar_images settings2 0%Z mixed 4%N 10
                                     (7 / 10)%R out
       <-> out = Raise (HTTPException 404
                          "Image with ID 00000000000000000000000000000004 not found or not processed").
Proof.
  split; [reflexivity|].
  apply (similar_query_on_pending_is_not_found settings2 0%Z mixed
           (image 4 east pending) 10 (7 / 10)%R mixed_pk_unique).
  - simpl. tauto.
  - discriminate.
Defined.

End EndpointExamples.

(* ================================================================== *)
(** ** The life of a row *)

Section LifecycleFacts.
Context {fp : PyFloat} {hl : Hashlib} {rnd : PyRandom} {pil : Pillow}.
Variable settings : Settings.
Import Lifecycle.

Lemma column_types_ok_dimension (img : Image.t) :
  column_types_ok settings img = true ->
  List.length (Image.embedding_vector img) = EMBEDDING_DIMENSION settings.
Proof.
  unfold column_types_ok. intros H.
  repeat (apply andb_prop in H; destruct H as [H _]).
  apply Nat.eqb_eq, H.
Qed.

Lemma db_insert_ok (tbl tbl' : Table) (img : Image.t) :
  db_insert settings tbl img = Ok tbl' ->
  tbl' = tbl ++ [img]
  /\ column_types_ok settings img = true
  /\ id_in (Image.id img) tbl = false.
Proof.
  unfold db_insert. destruct (id_in (Image.id img) tbl); [discriminate|].
  destruct (column_types_ok settings img); simpl; [|discriminate].
  intros H. injection H as <-. auto.
Qed.

(** What an upload does to the table: nothing when it raises, one new
    row, built at lines 65-74 and accepted by the column types, when it
    answers. *)
Lemma upload_image_table (env : ImagesAPI.UploadEnv)
      (file : ImagesAPI.UploadFile) (tbl : Table) (s : rng_state) :
  (exists e s',
      ImagesAPI.upload_image settings env file tbl s = (Raise e, tbl, s'))
  \/ (exists resp embedding metadata s',
         ImagesAPI.upload_image settings env file tbl s
         = (Ok resp, tbl ++ [ImagesAPI.new_image env file embedding metadata], s')
         /\ ImageUploadResponse.processing_status resp = completed
         /\ column_types_ok settings
              (ImagesAPI.new_image env file embedding metadata) = true
         /\ id_in (ImagesAPI.uuid4 env) tbl = false).
Proof.
  unfold ImagesAPI.upload_image.
  destruct (process_image settings _ _ _ _ s) as [[[embedding metadata]|e] s'].
  - destruct (db_insert settings tbl
                (ImagesAPI.new_image env file embedding metadata))
      as [tbl'|e] eqn:Hins.
    + apply db_insert_ok in Hins. destruct Hins as [-> [Hcol Hid]].
      right. do 4 eexists. split; [reflexivity|]. simpl. auto.
    + left. eauto.
  - destruct (is_HTTPException e); left; eauto.
Qed.

Lemma store_image_embedding_table (now : datetime) (tbl : Table)
      (image_id : UUID) (embedding : list R) :
  snd (VectorService.store_image_embedding settings now tbl image_id embedding)
  = tbl
  \/ exists image',
       snd (VectorService.store_image_embedding settings now tbl image_id
                                                embedding)
       = map (fun r => if N.eqb (Image.id r) image_id then image' else r) tbl
       /\ Image.id image' = image_id
       /\ Image.processing_status image' = completed
       /\ Image.processed_timestamp image' = Some now
       /\ Image.embedding_vector image' = embedding
       /\ column_types_ok settings image' = true.
Proof.
  unfold VectorService.store_image_embedding.
  destruct (scalar_one_or_none (select_by_id tbl image_id))
    as [[image|]|e] eqn:Hsel; simpl; auto.
  unfold db_update.
  match goal with
  | |- context [column_types_ok settings ?i] =>
      destruct (column_types_ok settings i) eqn:Hcol
  end; simpl; auto.
  right. eexists. split; [reflexivity|]. simpl. repeat split; auto.
  unfold scalar_one_or_none, select_by_id in Hsel.
  destruct (filter _ tbl) as [|x [|y rest]] eqn:Hf; try discriminate.
  injection Hsel as ->.
  assert (Hin : In image (filter (fun r => N.eqb (Image.id r) image_id) tbl))
    by (rewrite Hf; left; reflexivity).
  apply filter_In in Hin. apply N.eqb_eq, Hin.
Qed.

Lemma delete_image_table (tbl : Table) (image_id : UUID) :
  snd (ImagesAPI.delete_image tbl image_id) = tbl
  \/ snd (ImagesAPI.delete_image tbl image_id) = db_delete tbl image_id.
Proof.
  unfold ImagesAPI.delete_image.
  destruct (scalar_one_or_none (select_by_id tbl image_id)) as [[image|]|e];
    simpl; auto.
Qed.

Lemma new_image_ok (env : ImagesAPI.UploadEnv) (file : ImagesAPI.UploadFile)
      (embedding : list R) (metadata : Metadata) :
  column_types_ok settings (ImagesAPI.new_image env file embedding metadata)
  = true ->
  row_ok settings (ImagesAPI.new_image env file embedding metadata).
Proof.
  intros Hcol. apply column_types_ok_dimension in Hcol.
  split; [reflexivity|]. split; [simpl; discriminate|exact Hcol].
Qed.

Lemma step_keeps_rows_ok (st : state) (c : call) :
  Forall (row_ok settings) (fst st) -> Forall (row_ok settings) (fst (step settings st c)).
Proof.
  destruct st as [tbl s]. simpl. intros Hall. destruct c as [env file|now u e|u].
  - simpl. destruct (upload_image_table env file tbl s)
      as [[e [s' H]]|[resp [emb [md [s' [H [_ [Hcol _]]]]]]]];
      rewrite H; simpl.
    + exact Hall.
    + apply Forall_app. split; [exact Hall|].
      constructor; [apply new_image_ok, Hcol|constructor].
  - simpl. destruct (store_image_embedding_table now tbl u e)
      as [H|[image' [H [_ [Hst [Hts [_ Hcol]]]]]]]; rewrite H.
    + exact Hall.
    + apply Forall_map. eapply Forall_impl; [|exact Hall]. intros r Hr.
      destruct (N.eqb (Image.id r) u); [|exact Hr].
      split; [exact Hst|]. split.
      * rewrite Hts. discriminate.
      * apply column_types_ok_dimension, Hcol.
  - simpl. destruct (delete_image_table tbl u) as [H|H]; rewrite H.
    + exact Hall.
    + unfold db_delete. apply Forall_forall. intros r Hr.
      apply filter_In in Hr. rewrite Forall_forall in Hall. apply Hall, Hr.
Qed.

Lemma fold_left_step_rows_ok (calls : list call) :
  forall st, Forall (row_ok settings) (fst st) ->
             Forall (row_ok settings) (fst (fold_left (step settings) calls st)).
Proof.
  induction calls as [|c calls IH]; simpl; intros st Hst.
  - exact Hst.
  - apply IH, step_keeps_rows_ok, Hst.
Qed.

Lemma id_in_false (u : UUID) (tbl : Table) :
  id_in u tbl = false -> ~ In u (map Image.id tbl).
Proof.
  unfold id_in. intros Hf Hin. apply in_map_iff in Hin.
  destruct Hin as [r [E Hr]].
  assert (Ht : existsb (fun r => N.eqb (Image.id r) u) tbl = true).
  { apply existsb_exists. exists r. split; [exact Hr|]. apply N.eqb_eq, E. }
  congruence.
Qed.

Lemma step_keeps_pk (st : state) (c : call) :
  pk_unique (fst st) -> pk_unique (fst (step settings st c)).
Proof.
  destruct st as [tbl s]. unfold pk_unique. simpl. intros Hpk.
  destruct c as [env file|now u e|u]; simpl.
  - destruct (upload_image_table env file tbl s)
      as [[e [s' H]]|[resp [emb [md [s' [H [_ [_ Hid]]]]]]]];
      rewrite H; simpl; [exact Hpk|].
    rewrite map_app. simpl. apply NoDup_app.
    + exact Hpk.
    + constructor; [intros []|constructor].
    + intros a Ha [<-|[]]. revert Ha. apply id_in_false, Hid.
  - destruct (store_image_embedding_table now tbl u e)
      as [H|[image' [H [Hid _]]]]; rewrite H; [exact Hpk|].
    rewrite map_map.
    rewrite (map_ext _ Image.id); [exact Hpk|].
    intros r. destruct (N.eqb (Image.id r) u) eqn:E; [|reflexivity].
    apply N.eqb_eq in E. congruence.
  - destruct (delete_image_table tbl u) as [H|H]; rewrite H; [exact Hpk|].
    unfold db_delete. apply filter_keeps_distinct_keys, Hpk.
Qed.

(** The primary key holds in every table the program builds. *)
Lemma run_pk_unique (s0 : rng_state) (calls : list call) :
  pk_unique (fst (run settings s0 calls)).
Proof.
  unfold run.
  assert (H : forall st, pk_unique (fst st) ->
                         pk_unique (fst (fold_left (step settings) calls st))).
  { induction calls as [|c calls IH]; simpl; intros st Hst.
    - exact Hst.
    - apply IH, step_keeps_pk, Hst. }
  apply H. constructor.
Qed.

(** C4, as the code has it.  An upload that answers has inserted its row
    already completed, with the embedding and the processed timestamp in
    that insert, and says so in its response; no row is ever stored as
    pending.  After any sequence of uploads, [store_image_embedding] calls
    and deletions, every stored row is completed and has a processed
    timestamp and an embedding of the configured dimension. *)
Theorem stored_images_are_completed :
  (forall env file tbl s resp tbl' s',
      ImagesAPI.upload_image settings env file tbl s = (Ok resp, tbl', s') ->
      ImageUploadResponse.processing_status resp = completed
      /\ exists img,
           tbl' = tbl ++ [img]
           /\ Image.processing_status img = completed
           /\ processed_ok settings img)
  /\ (forall s0 calls,
         Forall (fun img =>
                   Image.processing_status img = completed
                   /\ processed_ok settings img)
                (fst (run settings s0 calls))).
Proof.
  split.
  - intros env file tbl s resp tbl' s' Hup.
    destruct (upload_image_table env file tbl s)
      as [[e [s1 H]]|[resp1 [emb [md [s1 [H [Hst [Hcol _]]]]]]]];
      rewrite H in Hup; [discriminate|].
    injection Hup as <- <- <-. split; [exact Hst|].
    eexists. split; [reflexivity|]. apply new_image_ok, Hcol.
  - intros s0 calls. unfold run.
    apply (fold_left_step_rows_ok calls ([], s0)). constructor.
Qed.

End LifecycleFacts.

Section LifecycleExamples.
Import Example Lifecycle.
Local Open Scope string_scope.

Lemma png_file_validates :
  validate_image settings2 "abc" "image/png" "a.png" = Ok tt.
Proof. reflexivity. Qed.

Lemma png_file_processes (raw : list R) (s' : Z) :
  generate_mock_embedding (rnd := pyrandom) settings2 "abc" "a.png" 0%Z
  = (Ok (normalize raw), s') ->
  exists metadata,
    process_image (rnd := pyrandom) settings2 "2024-01-01T00:00:00" "abc"
                  "a.png" "image/png" 0%Z
    = (Ok (normalize raw, metadata), s').
Proof.
  intros Hgen. unfold process_image, Rand.bind, Rand.lift, Rand.ret.
  rewrite png_file_validates.
  change (extract_image_metadata "abc")
    with (Ok [ ("format", MStr "PNG"); ("mode", MStr "RGB");
               ("size", MTuple 1 1); ("width", MInt 1); ("height", MInt 1);
               ("has_transparency", MBool false) ]).
  cbv iota beta. rewrite Hgen. eexists. reflexivity.
Qed.

(** The upload of a small PNG into an empty table answers and stores one
    row. *)
Lemma first_upload_answers :
  exists resp img s',
    ImagesAPI.upload_image settings2 first_upload png_file [] 0%Z
    = (Ok resp, [img], s')
    /\ Image.id img = 7%N.
Proof.
  destruct (generate_mock_embedding_ok (rnd := pyrandom) settings2 "abc" "a.png" 0%Z)
    as [raw [s' [_ [Hgen Hlen]]]].
  destruct (png_file_processes raw s' Hgen) as [metadata Hproc].
  unfold ImagesAPI.upload_image.
  cbv beta iota delta [png_file first_upload ImagesAPI.file_content
    ImagesAPI.file_filename ImagesAPI.file_content_type ImagesAPI.now_iso
    or_unknown].
  rewrite Hproc.
  unfold db_insert, column_types_ok. simpl. rewrite Hlen. simpl.
  do 3 eexists. split; reflexivity.
Qed.

(** C4 fails as stated: the row of an accepted upload enters the table
    completed, not pending. *)
Lemma upload_stores_completed_not_pending :
  exists resp img s',
    ImagesAPI.upload_image settings2 first_upload png_file [] 0%Z
    = (Ok resp, [img], s')
    /\ Image.processing_status img = "completed"
    /\ Image.processing_status img <> "pending"
    /\ ImageUploadResponse.processing_status resp = "completed".
Proof.
  destruct first_upload_answers as [resp [img [s' [Hup _]]]].
  exists resp, img, s'. split; [exact Hup|].
  destruct (upload_image_table (rnd := pyrandom) settings2 first_upload
              png_file [] 0%Z)
    as [[e [s1 H]]|[resp1 [emb [md [s1 [H [Hst _]]]]]]];
    rewrite H in Hup; [discriminate|].
  injection Hup as <- <- <-. split; [reflexivity|].
  split; [simpl; discriminate|exact Hst].
Qed.

(** C4 as the code has it, on the same upload and on a run of three
    calls. *)
Lemma stored_images_are_completed_witness :
  (exists resp img s',
      ImagesAPI.upload_image settings2 first_upload png_file [] 0%Z
      = (Ok resp, [img], s')
      /\ ImageUploadResponse.processing_status resp = completed
      /\ Image.processing_status img = completed
      /\ processed_ok settings2 img)
  /\ Forall (fun img =>
               Image.processing_status img = completed
               /\ processed_ok settings2 img)
            (fst (run settings2 0%Z
                    [Upload first_upload png_file;
                     StoreEmbedding 5%Z 7%N east;
                     Delete 9%N])).
Proof.
  split.
  - destruct first_upload_answers as [resp [img [s' [Hup _]]]].
    exists resp, img, s'. split; [exact Hup|].
    destruct (proj1 (stored_images_are_completed (rnd := pyrandom) settings2)
                _ _ _ _ _ _ _ Hup) as [Hresp [img' [E [Hst Hok]]]].
    simpl in E. injection E as <-. auto.
  - exact (proj2 (stored_images_are_completed (rnd := pyrandom) settings2)
             0%Z _).
Defined.

End LifecycleExamples.

(* ================================================================== *)
(** * Further properties *)

(* ================================================================== *)
(** ** [validate_image] *)

Section ValidationFacts.
Local Open Scope string_scope.

Lemma lower_char_dot (c : ascii) :
  Ascii.eqb (lower_char c) "."%char = Ascii.eqb c "."%char.
Proof.
  destruct c as [b0 b1 b2 b3 b4 b5 b6 b7].
  destruct b0, b1, b2, b3, b4, b5, b6, b7; reflexivity.
Qed.

Lemma contains_dot_lower (s : string) : contains_dot (lower s) = contains_dot s.
Proof.
  induction s as [|c s IH]; simpl.
  - reflexivity.
  - rewrite lower_char_dot, IH. reflexivity.
Qed.

End ValidationFacts.

Section ValidationTheorems.
Context {fp : PyFloat} {hl : Hashlib} {rnd : PyRandom} {pil : Pillow}.
Variable settings : Settings.
Local Open Scope string_scope.

(** X1.  Whatever [validate_image] raises is an [HTTPException]: status 413
    exactly when the content is longer than [MAX_FILE_SIZE], whatever else
    is wrong with the file, and status 400 otherwise. *)
Theorem validate_image_raises_http
        (content : bytes) (content_type filename : string) (e : exn) :
  validate_image settings content content_type filename = Raise e ->
  exists detail,
    (e = HTTPException 413 detail
     /\ (MAX_FILE_SIZE settings < Z.of_nat (String.length content))%Z)
    \/ (e = HTTPException 400 detail
        /\ (Z.of_nat (String.length content) <= MAX_FILE_SIZE settings)%Z).
Proof.
  unfold validate_image. intros H.
  destruct (MAX_FILE_SIZE settings <? Z.of_nat (String.length content))%Z
    eqn:Hsize.
  - injection H as <-. eexists. left. split; [reflexivity|].
    apply Z.ltb_lt, Hsize.
  - apply Z.ltb_ge in Hsize.
    destruct (negb (String.prefix "image/" content_type)).
    { injection H as <-. eexists. right. split; [reflexivity|exact Hsize]. }
    destruct (negb (string_in _ _)).
    { injection H as <-. eexists. right. split; [reflexivity|exact Hsize]. }
    unfold ResultMonad.try_except in H.
    destruct (ResultMonad.bind _ _) as [u|e0]; [discriminate|].
    injection H as <-. eexists. right. split; [reflexivity|exact Hsize].
Qed.

(** X2.  [validate_image] reads the filename up to the case of its
    letters: two names with the same lower-case form are accepted or
    rejected alike, with the same exception. *)
Theorem validate_image_ignores_case
        (content : bytes) (content_type filename1 filename2 : string) :
  lower filename1 = lower filename2 ->
  validate_image settings content content_type filename1
  = validate_image settings content content_type filename2.
Proof.
  intros H. unfold validate_image.
  rewrite <- (contains_dot_lower filename1), <- (contains_dot_lower filename2).
  rewrite H. reflexivity.
Qed.

(** X3.  A filename without a dot has the empty extension: unless ["."]
    itself is an allowed extension, [validate_image] rejects it with
    status 400, or 413 for a content that is too long. *)
Theorem validate_image_requires_extension
        (content : bytes) (content_type filename : string) :
  contains_dot filename = false ->
  string_in "." (map lower (ALLOWED_EXTENSIONS settings)) = false ->
  exists status detail,
    validate_image settings content content_type filename
    = Raise (HTTPException status detail)
    /\ (status = 413 \/ status = 400)%Z.
Proof.
  intros Hdot Hext. unfold validate_image.
  destruct (MAX_FILE_SIZE settings <? Z.of_nat (String.length content))%Z.
  { do 2 eexists. split; [reflexivity|]. left. reflexivity. }
  destruct (negb (String.prefix "image/" content_type)).
  { do 2 eexists. split; [reflexivity|]. right. reflexivity. }
  rewrite Hdot. simpl. rewrite Hext. simpl.
  do 2 eexists. split; [reflexivity|]. right. reflexivity.
Qed.

End ValidationTheorems.

Section ValidationExamples.
Import Example.
Local Open Scope string_scope.

(** X1 on a file whose content type is not an image's. *)
Lemma validate_image_raises_http_witness :
  validate_image settings2 "abc" "text/plain" "a.png"
  = Raise (HTTPException 400 "File must be an image")
  /\ exists detail,
       (HTTPException 400 "File must be an image" = HTTPException 413 detail
        /\ (MAX_FILE_SIZE settings2 < Z.of_nat (String.length "abc"))%Z)
       \/ (HTTPException 400 "File must be an image" = HTTPException 400 detail
           /\ (Z.of_nat (String.length "abc") <= MAX_FILE_SIZE settings2)%Z).
Proof.
  split; [reflexivity|].
  apply (validate_image_raises_http settings2 "abc" "text/plain" "a.png").
  reflexivity.
Defined.

(** X2 on an upper-case name. *)
Lemma validate_image_ignores_case_witness :
  validate_image settings2 "abc" "image/png" "PHOTO.PNG"
  = validate_image settings2 "abc" "image/png" "photo.png".
Proof.
  apply validate_image_ignores_case. reflexivity.
Defined.

(** X3 on the name the upload handler uses when the file has none. *)
Lemma validate_image_requires_extension_witness :
  exists status detail,
    validate_image settings2 "abc" "image/png" "unknown"
    = Raise (HTTPException status detail)
    /\ (status = 413 \/ status = 400)%Z.
Proof.
  apply validate_image_requires_extension; reflexivity.
Defined.

End ValidationExamples.

(* ================================================================== *)
(** ** The components of an embedding *)

Section ComponentFacts.
Context {fp : PyFloat} {hl : Hashlib} {rnd : PyRandom}.
Variable settings : Settings.

Lemma embedding_step_draws (h : string) (n : nat) (base : Z) (i : nat)
      (acc : list R) (s : rng_state) :
  is_hexdigest (S n) h = true ->
  int16 (String.substring 0 8 h) = Ok base ->
  exists v s', embedding_step h i acc s = (Ok (acc ++ [v]), s')
               /\ drawn_at h base i v.
Proof.
  intros Hh Hb.
  destruct (char_at_mod_ok h n i Hh) as [c [Hc [off Hoff]]].
  unfold embedding_step, Rand.bind, Rand.lift, Rand.random_seed_int,
    Rand.random_uniform, Rand.ret.
  rewrite Hc, Hoff, Hb.
  destruct (random (seed_int (base + Z.of_nat i + off) s)) as [r s'] eqn:Hr.
  do 2 eexists. split; [reflexivity|].
  exists c, off. split; [exact Hc|]. split; [exact Hoff|].
  intros s0. unfold Rand.bind, Rand.random_seed_int, Rand.random_uniform.
  rewrite (seed_int_reset _ s0 s), Hr. reflexivity.
Qed.

Lemma for_each_steps_draw (h : string) (n : nat) (base : Z) (l : list nat) :
  is_hexdigest (S n) h = true ->
  int16 (String.substring 0 8 h) = Ok base ->
  forall (acc : list R) (s : rng_state),
  exists vs s', Rand.for_each l (embedding_step h) acc s = (Ok (acc ++ vs), s')
                /\ Forall2 (drawn_at h base) l vs.
Proof.
  intros Hh Hb. induction l as [|i l IH]; intros acc s; simpl.
  - exists [], s. rewrite app_nil_r. split; [reflexivity|constructor].
  - unfold Rand.bind.
    destruct (embedding_step_draws h n base i acc s Hh Hb) as [v [s1 [-> Hv]]].
    destruct (IH (acc ++ [v]) s1) as [vs [s2 [-> Hvs]]].
    exists (v :: vs), s2. rewrite <- app_assoc. simpl.
    split; [reflexivity|]. constructor; assumption.
Qed.

End ComponentFacts.

Section ComponentTheorems.
Context {fp : PyFloat} {hl : Hashlib} {rnd : PyRandom}.
Variable settings : Settings.

(** X4.  [generate_mock_embedding] never raises and returns exactly
    [EMBEDDING_DIMENSION] floats, for every content, filename and
    dimension: its result always passes the validator of
    [ImageCreate.embedding_vector], which rejects every other length with
    a [ValueError]. *)
Theorem generate_mock_embedding_fits_schema
        (content : bytes) (filename : string) (s : rng_state) :
  (exists e s',
      generate_mock_embedding settings content filename s = (Ok e, s')
      /\ List.length e = EMBEDDING_DIMENSION settings
      /\ ImageCreate.validate_embedding_dimension settings e = Ok e)
  /\ (forall v, List.length v <> EMBEDDING_DIMENSION settings ->
                exists msg,
                  ImageCreate.validate_embedding_dimension settings v
                  = Raise (ValueError msg)).
Proof.
  split.
  - destruct (generate_mock_embedding_ok settings content filename s)
      as [raw [s' [_ [Hgen Hlen]]]].
    exists (normalize raw), s'. split; [exact Hgen|]. split; [exact Hlen|].
    unfold ImageCreate.validate_embedding_dimension.
    rewrite Hlen, Nat.eqb_refl. reflexivity.
  - intros v Hv. unfold ImageCreate.validate_embedding_dimension.
    apply Nat.eqb_neq in Hv. rewrite Hv. simpl. eexists. reflexivity.
Qed.

(** X5.  The raw vector, component by component: with [h] the combined
    digest and [base] the number its first eight digits spell, the
    component of index [i] is the first draw of [random.uniform(-1, 1)]
    after seeding with [base + i + int(h[i % len(h)], 16)], from whatever
    state; it depends on nothing else, the earlier components included. *)
Theorem raw_embedding_components
        (content : bytes) (filename : string) (s : rng_state) :
  exists raw base,
    fst (raw_embedding settings content filename s) = Ok raw
    /\ int16 (String.substring 0 8 (combined_hash_of content filename)) = Ok base
    /\ Forall2 (drawn_at (combined_hash_of content filename) base)
               (seq 0 (EMBEDDING_DIMENSION settings)) raw.
Proof.
  set (h := combined_hash_of content filename).
  assert (Hh : is_hexdigest 64 h = true) by apply sha256_hexdigest_spec.
  destruct (prefix8_ok h 63 Hh) as [base Hb].
  destruct (for_each_steps_draw h 63 base
              (seq 0 (EMBEDDING_DIMENSION settings)) Hh Hb [] (seed_str h s))
    as [vs [s' [Hrun Hall]]].
  exists vs, base. split; [|split; [exact Hb|exact Hall]].
  unfold raw_embedding, Rand.bind, Rand.random_seed_str, embedding_loop.
  fold h. rewrite Hrun. reflexivity.
Qed.

(** X6.  A call leaves the module-level generator in a state that does
    not depend on the state it found: the outcome and the generator after
    the call are the same from every starting state, so whatever is drawn
    next is fixed by the content and the filename. *)
Theorem generate_mock_embedding_resets_generator
        (content : bytes) (filename : string) (s1 s2 : rng_state) :
  generate_mock_embedding settings content filename s1
  = generate_mock_embedding settings content filename s2
  /\ forall B (next : list R -> Rand.M B),
       (e <- generate_mock_embedding settings content filename ;; next e)%rand s1
       = (e <- generate_mock_embedding settings content filename ;; next e)%rand s2.
Proof.
  assert (H : generate_mock_embedding settings content filename s1
              = generate_mock_embedding settings content filename s2).
  { unfold generate_mock_embedding, Rand.bind.
    rewrite (raw_embedding_reseeds settings content filename s1 s2).
    reflexivity. }
  split; [exact H|].
  intros B next. unfold Rand.bind. rewrite H. reflexivity.
Qed.

End ComponentTheorems.

(* ================================================================== *)
(** ** [process_image] *)

Section ProcessingFacts.
Local Open Scope string_scope.

Lemma dict_get_set_same (d : Metadata) (k : string) (v : MetaValue) :
  dict_get (dict_set d k v) k = Some v.
Proof.
  induction d as [|[k' v'] d IH]; simpl.
  - rewrite String.eqb_refl. reflexivity.
  - destruct (String.eqb k' k) eqn:E; simpl; rewrite E; [reflexivity|exact IH].
Qed.

Lemma dict_get_set_other (d : Metadata) (k k' : string) (v : MetaValue) :
  k <> k' -> dict_get (dict_set d k v) k' = dict_get d k'.
Proof.
  intros Hne. induction d as [|[k0 v0] d IH]; simpl.
  - apply String.eqb_neq in Hne. rewrite Hne. reflexivity.
  - destruct (String.eqb k0 k) eqn:E; simpl.
    + apply String.eqb_eq in E. subst k0.
      apply String.eqb_neq in Hne. rewrite Hne. reflexivity.
    + destruct (String.eqb k0 k'); [reflexivity|exact IH].
Qed.

Lemma extract_image_metadata_total {pil : Pillow} (content : bytes) :
  exists m, extract_image_metadata content = Ok m.
Proof.
  unfold extract_image_metadata, ResultMonad.try_except.
  destruct (extract_image_metadata_body content); eauto.
Qed.

End ProcessingFacts.

Section ProcessingTheorems.
Context {fp : PyFloat} {hl : Hashlib} {rnd : PyRandom} {pil : Pillow}.
Variable settings : Settings.
Local Open Scope string_scope.

(** X7.  [process_image] raises exactly what [validate_image] raises and
    nothing else: metadata extraction and the embedding never make it
    fail.  When it raises, the generator has not been touched. *)
Theorem process_image_raises_as_validation
        (now_iso : string) (content : bytes) (filename content_type : string)
        (s : rng_state) :
  (forall e,
      fst (process_image settings now_iso content filename content_type s)
      = Raise e
      <-> validate_image settings content content_type filename = Raise e)
  /\ (forall e,
         validate_image settings content content_type filename = Raise e ->
         process_image settings now_iso content filename content_type s
         = (Raise e, s)).
Proof.
  unfold process_image, Rand.bind, Rand.lift, Rand.ret.
  destruct (validate_image settings content content_type filename) as [u|e0].
  - destruct (extract_image_metadata_total content) as [m ->].
    destruct (generate_mock_embedding_ok settings content filename s)
      as [raw [s' [_ [-> _]]]].
    simpl. split.
    + intros e. split; discriminate.
    + intros e H. discriminate.
  - simpl. split.
    + intros e. split; intros H; injection H as ->; reflexivity.
    + intros e H. injection H as ->. reflexivity.
Qed.

(** X8.  What a successful [process_image] returns: the embedding of
    [generate_mock_embedding], of length [EMBEDDING_DIMENSION], and the
    extracted metadata with four keys set, among them
    ["embedding_dimension"] to the configured dimension; every other key
    is as [extract_image_metadata] gave it. *)
Theorem process_image_metadata
        (now_iso : string) (content : bytes) (filename content_type : string)
        (s s' : rng_state) (embedding : list R) (metadata : Metadata) :
  process_image settings now_iso content filename content_type s
  = (Ok (embedding, metadata), s') ->
  generate_mock_embedding settings content filename s = (Ok embedding, s')
  /\ List.length embedding = EMBEDDING_DIMENSION settings
  /\ dict_get metadata "processing_timestamp" = Some (MStr now_iso)
  /\ dict_get metadata "embedding_method" = Some (MStr "mock_hash_based")
  /\ dict_get metadata "embedding_dimension"
     = Some (MInt (Z.of_nat (EMBEDDING_DIMENSION settings)))
  /\ dict_get metadata "processed_by" = Some (MStr "ImageProcessingService")
  /\ exists extracted,
       extract_image_metadata content = Ok extracted
       /\ forall k,
            k <> "processing_timestamp" -> k <> "embedding_method" ->
            k <> "embedding_dimension" -> k <> "processed_by" ->
            dict_get metadata k = dict_get extracted k.
Proof.
  unfold process_image, Rand.bind, Rand.lift, Rand.ret.
  destruct (validate_image settings content content_type filename) as [u|e0];
    [|discriminate].
  destruct (extract_image_metadata_total content) as [m Hm]. rewrite Hm.
  destruct (generate_mock_embedding_ok settings content filename s)
    as [raw [s1 [_ [Hgen Hlen]]]].
  rewrite Hgen. intros H. injection H as <- <- <-.
  split; [reflexivity|]. split; [exact Hlen|].
  unfold dict_update. simpl.
  repeat split.
  - rewrite !dict_get_set_other by discriminate. apply dict_get_set_same.
  - rewrite !dict_get_set_other by discriminate. apply dict_get_set_same.
  - rewrite !dict_get_set_other by discriminate. apply dict_get_set_same.
  - apply dict_get_set_same.
  - exists m. split; [reflexivity|]. intros k H1 H2 H3 H4.
    rewrite !dict_get_set_other by congruence. reflexivity.
Qed.

End ProcessingTheorems.

Section ProcessingExamples.
Import Example.
Local Open Scope string_scope.

(** X8 on the small PNG of the examples. *)
Lemma process_image_metadata_witness :
  exists embedding metadata s',
    process_image (rnd := pyrandom) settings2 "2024-01-01T00:00:00" "abc"
                  "a.png" "image/png" 0%Z
    = (Ok (embedding, metadata), s')
    /\ List.length embedding = 2
    /\ dict_get metadata "embedding_dimension" = Some (MInt 2)
    /\ dict_get metadata "format" = Some (MStr "PNG").
Proof.
  destruct (generate_mock_embedding_ok (rnd := pyrandom) settings2 "abc"
              "a.png" 0%Z) as [raw [s' [_ [Hgen _]]]].
  destruct (png_file_processes raw s' Hgen) as [metadata Hproc].
  exists (normalize raw), metadata, s'. split; [exact Hproc|].
  destruct (process_image_metadata (rnd := pyrandom) settings2 _ _ _ _ _ _ _ _
              Hproc)
    as [_ [Hlen [_ [_ [Hdim [_ [extracted [Hext Hkeep]]]]]]]].
  split; [exact Hlen|]. split; [exact Hdim|].
  rewrite Hkeep by discriminate.
  change (extract_image_metadata "abc")
    with (Ok [ ("format", MStr "PNG"); ("mode", MStr "RGB");
               ("size", MTuple 1 1); ("width", MInt 1); ("height", MInt 1);
               ("has_transparency", MBool false) ]) in Hext.
  injection Hext as <-. reflexivity.
Defined.

End ProcessingExamples.

(* ================================================================== *)
(** ** Looking rows up by their ID *)

Section TableFacts.

Lemma select_by_id_absent (tbl : Table) (u : UUID) :
  id_in u tbl = false -> select_by_id tbl u = [].
Proof.
  unfold id_in, select_by_id. induction tbl as [|r tbl IH]; simpl; intros H.
  - reflexivity.
  - apply orb_false_iff in H. destruct H as [Hr Ht].
    rewrite Hr. apply IH, Ht.
Qed.

Lemma select_by_id_present (tbl : Table) (u : UUID) :
  id_in u tbl = true -> select_by_id tbl u <> [].
Proof.
  unfold id_in, select_by_id. intros H. apply existsb_exists in H.
  destruct H as [r [Hin Hr]].
  assert (Hf : In r (filter (fun r => N.eqb (Image.id r) u) tbl))
    by (apply filter_In; auto).
  intros E. rewrite E in Hf. inversion Hf.
Qed.

(** Under the primary key a lookup finds at most one row. *)
Lemma select_by_id_pk (tbl : Table) (u : UUID) :
  pk_unique tbl ->
  select_by_id tbl u = []
  \/ exists img, select_by_id tbl u = [img] /\ In img tbl /\ Image.id img = u.
Proof.
  unfold pk_unique, select_by_id.
  induction tbl as [|r tbl IH]; simpl; intros Hnd.
  - left. reflexivity.
  - apply NoDup_cons_iff in Hnd. destruct Hnd as [Hfresh Hnd].
    destruct (N.eqb (Image.id r) u) eqn:E.
    + apply N.eqb_eq in E. right. exists r.
      assert (Hnone : filter (fun r0 => N.eqb (Image.id r0) u) tbl = []).
      { apply select_by_id_absent. unfold id_in.
        destruct (existsb _ tbl) eqn:Hex; [|reflexivity].
        exfalso. apply existsb_exists in Hex. destruct Hex as [x [Hx Hid]].
        apply N.eqb_eq in Hid. apply Hfresh. rewrite E, <- Hid.
        apply in_map, Hx. }
      rewrite Hnone. auto.
    + destruct (IH Hnd) as [H|[img [H [Hin Hid]]]]; [left; exact H|].
      right. exists img. auto.
Qed.

Lemma select_by_id_one (tbl : Table) (u : UUID) (img : Image.t) :
  select_by_id tbl u = [img] -> In img tbl /\ Image.id img = u.
Proof.
  intros H.
  assert (Hin : In img (select_by_id tbl u)) by (rewrite H; left; reflexivity).
  apply filter_In in Hin. destruct Hin as [Hin Hid].
  apply N.eqb_eq in Hid. auto.
Qed.

Lemma select_by_id_after_delete (tbl : Table) (u v : UUID) :
  select_by_id (db_delete tbl u) v
  = if N.eqb v u then [] else select_by_id tbl v.
Proof.
  unfold select_by_id, db_delete. induction tbl as [|r tbl IH]; simpl.
  - destruct (N.eqb v u); reflexivity.
  - destruct (N.eqb (Image.id r) u) eqn:Eu; simpl.
    + rewrite IH. destruct (N.eqb v u) eqn:Ev; [reflexivity|].
      apply N.eqb_eq in Eu. apply N.eqb_neq in Ev.
      assert (Hne : N.eqb (Image.id r) v = false)
        by (apply N.eqb_neq; congruence).
      rewrite Hne. reflexivity.
    + rewrite IH. destruct (N.eqb v u) eqn:Ev.
      * apply N.eqb_eq in Ev. subst v. rewrite Eu. reflexivity.
      * reflexivity.
Qed.


(** The statement of [get_image_embedding] reads the completed rows among
    those with the ID. *)
Lemma completed_rows_by_id (tbl : Table) (u : UUID) :
  filter (fun r => N.eqb (Image.id r) u && is_completed r) tbl
  = filter is_completed (select_by_id tbl u).
Proof.
  unfold select_by_id. induction tbl as [|r tbl IH]; simpl.
  - reflexivity.
  - destruct (N.eqb (Image.id r) u); simpl; [|exact IH].
    destruct (is_completed r); rewrite IH; reflexivity.
Qed.

End TableFacts.

(* ================================================================== *)
(** ** [upload_image] *)

Section UploadFacts.
Context {fp : PyFloat} {hl : Hashlib} {rnd : PyRandom} {pil : Pillow}.
Variable settings : Settings.
Local Open Scope string_scope.

Lemma validate_image_status
      (content : bytes) (content_type filename : string) (e : exn) :
  validate_image settings content content_type filename = Raise e ->
  exists status detail,
    e = HTTPException status detail /\ (status = 413 \/ status = 400)%Z.
Proof.
  unfold validate_image. intros H.
  destruct (MAX_FILE_SIZE settings <? Z.of_nat (String.length content))%Z.
  { injection H as <-. do 2 eexists. split; [reflexivity|]. left. reflexivity. }
  destruct (negb (String.prefix "image/" content_type)).
  { injection H as <-. do 2 eexists. split; [reflexivity|]. right. reflexivity. }
  destruct (negb (string_in _ _)).
  { injection H as <-. do 2 eexists. split; [reflexivity|]. right. reflexivity. }
  unfold ResultMonad.try_except in H.
  destruct (ResultMonad.bind _ _) as [u|e0]; [discriminate|].
  injection H as <-. do 2 eexists. split; [reflexivity|]. right. reflexivity.
Qed.

(** The two ways through [process_image]. *)
Lemma process_image_cases
      (now_iso : string) (content : bytes) (filename content_type : string)
      (s : rng_state) :
  (exists e,
      validate_image settings content content_type filename = Raise e
      /\ process_image settings now_iso content filename content_type s
         = (Raise e, s))
  \/ (validate_image settings content content_type filename = Ok tt
      /\ exists embedding metadata s',
           process_image settings now_iso content filename content_type s
           = (Ok (embedding, metadata), s')
           /\ generate_mock_embedding settings content filename s
              = (Ok embedding, s')
           /\ List.length embedding = EMBEDDING_DIMENSION settings).
Proof.
  unfold process_image, Rand.bind, Rand.lift, Rand.ret.
  destruct (validate_image settings content content_type filename) as [[]|e].
  - right. split; [reflexivity|].
    destruct (extract_image_metadata_total content) as [m ->].
    destruct (generate_mock_embedding_ok settings content filename s)
      as [raw [s' [_ [-> Hlen]]]].
    do 3 eexists. split; [reflexivity|]. split; [reflexivity|exact Hlen].
  - left. exists e. split; reflexivity.
Qed.

(** The row an upload builds fits the columns unless a name is too long
    for its column or the size too big for an [Integer]. *)
Lemma new_image_columns (env : ImagesAPI.UploadEnv)
      (file : ImagesAPI.UploadFile) (embedding : list R) (metadata : Metadata) :
  List.length embedding = EMBEDDING_DIMENSION settings ->
  column_types_ok settings (ImagesAPI.new_image env file embedding metadata)
  = false ->
  255 < String.length (or_unknown (ImagesAPI.file_filename file))
  \/ 100 < String.length
             (Image.content_type
                (ImagesAPI.new_image env file embedding metadata))
  \/ (2147483647 < Z.of_nat (String.length (ImagesAPI.file_content file)))%Z.
Proof.
  intros Hlen. unfold column_types_ok. simpl. rewrite Hlen, Nat.eqb_refl.
  simpl.
  destruct (Nat.leb (String.length (or_unknown (ImagesAPI.file_filename file)))
                    255) eqn:E1.
  2:{ intros _. left. apply Nat.leb_gt, E1. }
  simpl.
  match goal with
  | |- context [Nat.leb (String.length ?c) 100] =>
      destruct (Nat.leb (String.length c) 100) eqn:E2
  end.
  2:{ intros _. right. left. apply Nat.leb_gt, E2. }
  simpl.
  destruct (Z.leb (Z.of_nat (String.length (ImagesAPI.file_content file)))
                  2147483647) eqn:E3.
  2:{ intros _. right. right. apply Z.leb_gt, E3. }
  assert (E4 : Z.leb (-2147483648)
                 (Z.of_nat (String.length (ImagesAPI.file_content file)))
               = true) by (apply Z.leb_le; lia).
  rewrite E4. simpl. discriminate.
Qed.

(** The two ways through [upload_image]. *)
Lemma upload_image_cases (env : ImagesAPI.UploadEnv)
      (file : ImagesAPI.UploadFile) (tbl : Table) (s : rng_state) :
  (exists e,
      validate_image settings (ImagesAPI.file_content file)
        (Image.content_type (ImagesAPI.new_image env file [] []))
        (or_unknown (ImagesAPI.file_filename file)) = Raise e
      /\ ImagesAPI.upload_image settings env file tbl s = (Raise e, tbl, s))
  \/ (validate_image settings (ImagesAPI.file_content file)
        (Image.content_type (ImagesAPI.new_image env file [] []))
        (or_unknown (ImagesAPI.file_filename file)) = Ok tt
      /\ exists embedding metadata s',
           process_image settings (ImagesAPI.now_iso env)
             (ImagesAPI.file_content file)
             (or_unknown (ImagesAPI.file_filename file))
             (Image.content_type (ImagesAPI.new_image env file [] [])) s
           = (Ok (embedding, metadata), s')
           /\ generate_mock_embedding settings (ImagesAPI.file_content file)
                (or_unknown (ImagesAPI.file_filename file)) s
              = (Ok embedding, s')
           /\ List.length embedding = EMBEDDING_DIMENSION settings
           /\ ImagesAPI.upload_image settings env file tbl s
              = match db_insert settings tbl
                        (ImagesAPI.new_image env file embedding metadata) with
                | Raise e =>
                    (Raise (HTTPException 500
                              ("Failed to process image: " ++ str_exn e)),
                     tbl, s')
                | Ok tbl' =>
                    (Ok {| ImageUploadResponse.id := ImagesAPI.uuid4 env;
                           ImageUploadResponse.filename :=
                             or_unknown (ImagesAPI.file_filename file);
                           ImageUploadResponse.message :=
                             "Image uploaded and processed successfully";
                           ImageUploadResponse.processing_status := completed |},
                     tbl', s')
                end).
Proof.
  unfold ImagesAPI.upload_image.
  change (Image.content_type (ImagesAPI.new_image env file [] []))
    with (match ImagesAPI.file_content_type file with
          | None | Some EmptyString => "application/octet-stream"
          | Some c => c
          end).
  destruct (process_image_cases (ImagesAPI.now_iso env)
              (ImagesAPI.file_content file)
              (or_unknown (ImagesAPI.file_filename file))
              (match ImagesAPI.file_content_type file with
               | None | Some EmptyString => "application/octet-stream"
               | Some c => c
               end) s)
    as [[e [Hv Hp]]|[Hv [embedding [metadata [s' [Hp [Hg Hl]]]]]]].
  - left. exists e. split; [exact Hv|]. rewrite Hp.
    destruct (validate_image_status _ _ _ _ Hv) as [st [d [-> _]]].
    reflexivity.
  - right. split; [exact Hv|]. exists embedding, metadata, s'.
    split; [exact Hp|]. split; [exact Hg|]. split; [exact Hl|].
    rewrite Hp. reflexivity.
Qed.

Lemma db_delete_absent (tbl : Table) (u : UUID) :
  id_in u tbl = false -> db_delete tbl u = tbl.
Proof.
  unfold id_in, db_delete. induction tbl as [|r tbl IH]; simpl; intros H.
  - reflexivity.
  - apply orb_false_iff in H. destruct H as [Hr Ht].
    rewrite Hr. simpl. rewrite (IH Ht). reflexivity.
Qed.

(** A successful upload, with the row it stored. *)
Lemma upload_image_ok_inv (env : ImagesAPI.UploadEnv)
      (file : ImagesAPI.UploadFile) (tbl tbl' : Table) (s s' : rng_state)
      (resp : ImageUploadResponse.t) :
  ImagesAPI.upload_image settings env file tbl s = (Ok resp, tbl', s') ->
  exists embedding metadata,
    process_image settings (ImagesAPI.now_iso env)
      (ImagesAPI.file_content file)
      (or_unknown (ImagesAPI.file_filename file))
      (Image.content_type (ImagesAPI.new_image env file [] [])) s
    = (Ok (embedding, metadata), s')
    /\ generate_mock_embedding settings (ImagesAPI.file_content file)
         (or_unknown (ImagesAPI.file_filename file)) s
       = (Ok embedding, s')
    /\ tbl' = (tbl ++ [ImagesAPI.new_image env file embedding metadata])%list
    /\ ImageUploadResponse.id resp = ImagesAPI.uuid4 env
    /\ id_in (ImagesAPI.uuid4 env) tbl = false.
Proof.
  intros Hup.
  destruct (upload_image_cases env file tbl s)
    as [[e [_ H]]|[_ [embedding [metadata [s1 [Hp [Hg [_ H]]]]]]]];
    rewrite H in Hup; [discriminate|].
  destruct (db_insert settings tbl
              (ImagesAPI.new_image env file embedding metadata))
    as [tbl1|e] eqn:Hins; [|discriminate].
  injection Hup as <- <- <-.
  apply db_insert_ok in Hins. destruct Hins as [-> [_ Hid]].
  exists embedding, metadata. auto.
Qed.

End UploadFacts.

Section UploadTheorems.
Context {fp : PyFloat} {hl : Hashlib} {rnd : PyRandom} {pil : Pillow}.
Variable settings : Settings.
Local Open Scope string_scope.

(** X9.  A failed upload leaves the table as it was and raises an
    [HTTPException] only.  It is the exception of [validate_image], with
    status 413 or 400 and the generator untouched; or, for a file that
    passed validation and whose row the database refused, status 500. *)
Theorem upload_image_failures
        (env : ImagesAPI.UploadEnv) (file : ImagesAPI.UploadFile)
        (tbl tbl' : Table) (s s' : rng_state) (e : exn) :
  ImagesAPI.upload_image settings env file tbl s = (Raise e, tbl', s') ->
  tbl' = tbl
  /\ ((validate_image settings (ImagesAPI.file_content file)
         (Image.content_type (ImagesAPI.new_image env file [] []))
         (or_unknown (ImagesAPI.file_filename file)) = Raise e
       /\ s' = s
       /\ exists detail,
            e = HTTPException 413 detail \/ e = HTTPException 400 detail)
      \/ (validate_image settings (ImagesAPI.file_content file)
            (Image.content_type (ImagesAPI.new_image env file [] []))
            (or_unknown (ImagesAPI.file_filename file)) = Ok tt
          /\ exists embedding metadata cause,
               db_insert settings tbl
                 (ImagesAPI.new_image env file embedding metadata)
               = Raise cause
               /\ e = HTTPException 500
                        ("Failed to process image: " ++ str_exn cause))).
Proof.
  intros Hup.
  destruct (upload_image_cases settings env file tbl s)
    as [[e0 [Hv H]]|[Hv [embedding [metadata [s1 [_ [_ [Hlen H]]]]]]]];
    rewrite H in Hup.
  - injection Hup as <- <- <-. split; [reflexivity|]. left.
    split; [exact Hv|]. split; [reflexivity|].
    destruct (validate_image_status settings _ _ _ _ Hv)
      as [st [d [-> [->| ->]]]]; eauto.
  - destruct (db_insert settings tbl
                (ImagesAPI.new_image env file embedding metadata))
      as [tbl1|cause] eqn:Hins; [discriminate|].
    injection Hup as <- <- <-. split; [reflexivity|]. right.
    split; [exact Hv|]. exists embedding, metadata, cause.
    split; [exact Hins|reflexivity].
Qed.

(** X10.  An upload needs a content type and a filename with an
    extension.  Without a content type the handler passes
    ["application/octet-stream"], and without a filename ["unknown"],
    which has no dot: either way the request is rejected with status 400,
    or 413 for a content that is too long, and nothing is stored. *)
Theorem upload_image_rejects_missing_parts
        (env : ImagesAPI.UploadEnv) (file : ImagesAPI.UploadFile)
        (tbl : Table) (s : rng_state) :
  ImagesAPI.file_content_type file = None
  \/ (contains_dot (or_unknown (ImagesAPI.file_filename file)) = false
      /\ string_in "." (map lower (ALLOWED_EXTENSIONS settings)) = false) ->
  exists status detail,
    ImagesAPI.upload_image settings env file tbl s
    = (Raise (HTTPException status detail), tbl, s)
    /\ (status = 413 \/ status = 400)%Z.
Proof.
  intros Hmiss.
  destruct (upload_image_cases settings env file tbl s)
    as [[e [Hv H]]|[Hv _]].
  - destruct (validate_image_status settings _ _ _ _ Hv) as [st [d [-> Hst]]].
    exists st, d. split; [exact H|exact Hst].
  - exfalso. destruct Hmiss as [Hct|[Hdot Hext]].
    + unfold validate_image in Hv. simpl in Hv. rewrite Hct in Hv.
      simpl in Hv.
      destruct (MAX_FILE_SIZE settings
                <? Z.of_nat (String.length (ImagesAPI.file_content file)))%Z;
        discriminate.
    + unfold validate_image in Hv. rewrite Hdot in Hv. simpl in Hv.
      rewrite Hext in Hv. simpl in Hv.
      destruct (MAX_FILE_SIZE settings
                <? Z.of_nat (String.length (ImagesAPI.file_content file)))%Z;
        [discriminate|].
      destruct (negb (String.prefix "image/" _)); discriminate.
Qed.



(** X13.  Deleting the image a successful upload stored gives back the
    table as it was before the upload. *)
Theorem upload_then_delete_restores
        (env : ImagesAPI.UploadEnv) (file : ImagesAPI.UploadFile)
        (tbl tbl' : Table) (s s' : rng_state) (resp : ImageUploadResponse.t) :
  ImagesAPI.upload_image settings env file tbl s = (Ok resp, tbl', s') ->
  ImagesAPI.delete_image tbl' (ImageUploadResponse.id resp) = (Ok tt, tbl).
Proof.
  intros Hup. apply upload_image_ok_inv in Hup.
  destruct Hup as [embedding [metadata [_ [_ [-> [Hid Hfresh]]]]]].
  rewrite Hid. unfold ImagesAPI.delete_image, select_by_id.
  rewrite filter_app. fold (select_by_id tbl (ImagesAPI.uuid4 env)).
  rewrite (select_by_id_absent _ _ Hfresh). simpl.
  rewrite N.eqb_refl. simpl. f_equal.
  unfold db_delete. rewrite filter_app.
  fold (db_delete tbl (ImagesAPI.uuid4 env)).
  rewrite (db_delete_absent _ _ Hfresh). simpl.
  rewrite N.eqb_refl. simpl. apply app_nil_r.
Qed.

End UploadTheorems.

Section UploadExamples.
Import Example.
Local Open Scope string_scope.

(** X9 on a file sent without a content type. *)
Lemma upload_image_failures_witness :
  exists e tbl' s',
    ImagesAPI.upload_image settings2 first_upload
      {| ImagesAPI.file_content := "abc";
         ImagesAPI.file_filename := Some "a.png";
         ImagesAPI.file_content_type := None |} [] 0%Z
    = (Raise e, tbl', s')
    /\ e = HTTPException 400 "File must be an image"
    /\ tbl' = [].
Proof.
  assert (H : ImagesAPI.upload_image settings2 first_upload
                {| ImagesAPI.file_content := "abc";
                   ImagesAPI.file_filename := Some "a.png";
                   ImagesAPI.file_content_type := None |} [] 0%Z
              = (Raise (HTTPException 400 "File must be an image"), [], 0%Z))
    by reflexivity.
  do 3 eexists. split; [exact H|]. split; [reflexivity|].
  exact (proj1 (upload_image_failures (rnd := pyrandom) settings2 _ _ _ _ _ _ _ H)).
Defined.

(** X10 on a file sent without a filename. *)
Lemma upload_image_rejects_missing_parts_witness :
  exists status detail,
    ImagesAPI.upload_image settings2 first_upload
      {| ImagesAPI.file_content := "abc";
         ImagesAPI.file_filename := None;
         ImagesAPI.file_content_type := Some "image/png" |} [] 0%Z
    = (Raise (HTTPException status detail), [], 0%Z)
    /\ (status = 413 \/ status = 400)%Z.
Proof.
  apply (upload_image_rejects_missing_parts (rnd := pyrandom)).
  right. split; reflexivity.
Defined.



(** X13 on the same upload. *)
Lemma upload_then_delete_restores_witness :
  exists resp tbl' s',
    ImagesAPI.upload_image settings2 first_upload png_file [] 0%Z
    = (Ok resp, tbl', s')
    /\ ImagesAPI.delete_image tbl' (ImageUploadResponse.id resp) = (Ok tt, []).
Proof.
  destruct first_upload_answers as [resp [img [s' [Hup _]]]].
  exists resp, [img], s'. split; [exact Hup|].
  exact (upload_then_delete_restores (rnd := pyrandom) settings2
           _ _ _ _ _ _ _ Hup).
Defined.

End UploadExamples.

(* ================================================================== *)
(** ** [delete_image] and [get_image_metadata] *)

Section DeleteFacts.

Lemma scalar_one_or_none_some (A : Type) (rows : list A) (x : A) :
  scalar_one_or_none rows = Ok (Some x) -> rows = [x].
Proof.
  destruct rows as [|y [|z rest]]; simpl; intros H; try discriminate.
  injection H as ->. reflexivity.
Qed.

Lemma id_in_select (tbl : Table) (u : UUID) :
  id_in u tbl = negb (Nat.eqb (List.length (select_by_id tbl u)) 0).
Proof.
  unfold id_in, select_by_id. induction tbl as [|r tbl IH]; simpl.
  - reflexivity.
  - destruct (N.eqb (Image.id r) u); simpl; [reflexivity|exact IH].
Qed.

Lemma db_delete_length (tbl : Table) (u : UUID) :
  List.length (db_delete tbl u) + List.length (select_by_id tbl u)
  = List.length tbl.
Proof.
  unfold db_delete, select_by_id. induction tbl as [|r tbl IH]; simpl.
  - reflexivity.
  - destruct (N.eqb (Image.id r) u); simpl; lia.
Qed.

Lemma delete_image_ok_inv (tbl tbl' : Table) (u : UUID) :
  ImagesAPI.delete_image tbl u = (Ok tt, tbl') ->
  tbl' = db_delete tbl u /\ exists img, select_by_id tbl u = [img].
Proof.
  unfold ImagesAPI.delete_image.
  destruct (scalar_one_or_none (select_by_id tbl u)) as [[img|]|e] eqn:Hsel;
    intros H; try discriminate.
  injection H as <-. split; [reflexivity|].
  exists img. apply scalar_one_or_none_some, Hsel.
Qed.

End DeleteFacts.

Section DeleteTheorems.
Local Open Scope string_scope.

(** X14.  On a table with unique IDs [delete_image] has two outcomes and
    never status 500.  For a stored ID it answers, and the table loses
    that one row and keeps every other; for an unknown ID it raises
    status 404 and the table is as it was. *)
Theorem delete_image_outcomes (tbl : Table) (image_id : UUID) :
  pk_unique tbl ->
  (id_in image_id tbl = true
   /\ ImagesAPI.delete_image tbl image_id = (Ok tt, db_delete tbl image_id)
   /\ (forall r, In r (db_delete tbl image_id)
                 <-> In r tbl /\ Image.id r <> image_id)
   /\ List.length (db_delete tbl image_id) + 1 = List.length tbl)
  \/ (id_in image_id tbl = false
      /\ ImagesAPI.delete_image tbl image_id
         = (Raise (HTTPException 404
                     ("Image with ID " ++ str_uuid image_id ++ " not found")),
            tbl)).
Proof.
  intros Hpk. unfold ImagesAPI.delete_image.
  pose proof (db_delete_length tbl image_id) as Hlen.
  rewrite (id_in_select tbl image_id).
  destruct (select_by_id_pk tbl image_id Hpk) as [H|[img [H _]]];
    rewrite H in *; simpl in *.
  - right. split; reflexivity.
  - left. split; [reflexivity|]. split; [reflexivity|]. split; [|exact Hlen].
    intros r. unfold db_delete. rewrite filter_In.
    rewrite negb_true_iff, N.eqb_neq. reflexivity.
Qed.

(** X15.  Once [delete_image] has answered for an ID, the image is gone
    for every reader: [get_image_metadata] and a second [delete_image]
    raise status 404 and [get_image_embedding] returns [None]; what they
    return for every other ID is unchanged. *)
Theorem delete_then_lookups (tbl tbl' : Table) (image_id : UUID) :
  ImagesAPI.delete_image tbl image_id = (Ok tt, tbl') ->
  ImagesAPI.get_image_metadata tbl' image_id
  = Raise (HTTPException 404
             ("Image with ID " ++ str_uuid image_id ++ " not found"))
  /\ VectorService.get_image_embedding tbl' image_id = Ok None
  /\ ImagesAPI.delete_image tbl' image_id
     = (Raise (HTTPException 404
                 ("Image with ID " ++ str_uuid image_id ++ " not found")),
        tbl')
  /\ forall v, v <> image_id ->
       ImagesAPI.get_image_metadata tbl' v = ImagesAPI.get_image_metadata tbl v
       /\ VectorService.get_image_embedding tbl' v
          = VectorService.get_image_embedding tbl v.
Proof.
  intros H. apply delete_image_ok_inv in H. destruct H as [-> _].
  assert (Hsame : select_by_id (db_delete tbl image_id) image_id = []).
  { rewrite select_by_id_after_delete, N.eqb_refl. reflexivity. }
  unfold ImagesAPI.get_image_metadata, ImagesAPI.delete_image,
    VectorService.get_image_embedding.
  rewrite !completed_rows_by_id, Hsame. simpl.
  repeat split.
  - rewrite select_by_id_after_delete.
    apply N.eqb_neq in H. rewrite H. reflexivity.
  - rewrite completed_rows_by_id, select_by_id_after_delete.
    apply N.eqb_neq in H. rewrite H. rewrite <- completed_rows_by_id.
    reflexivity.
Qed.

End DeleteTheorems.

Section DeleteExamples.
Import Example.
Local Open Scope string_scope.

(** X14 on a stored row of the example table. *)
Lemma delete_image_outcomes_witness :
  pk_unique mixed
  /\ ImagesAPI.delete_image mixed 3%N
     = (Ok tt, [image 1 east completed; image 4 east pending;
                image 5 north completed]).
Proof.
  split; [exact mixed_pk_unique|].
  destruct (delete_image_outcomes mixed 3%N mixed_pk_unique)
    as [[_ [H _]]|[H _]].
  - exact H.
  - discriminate H.
Defined.

(** X15 on the same deletion. *)
Lemma delete_then_lookups_witness :
  ImagesAPI.delete_image mixed 3%N
  = (Ok tt, [image 1 east completed; image 4 east pending;
             image 5 north completed])
  /\ ImagesAPI.get_image_metadata
       [image 1 east completed; image 4 east pending; image 5 north completed]
       3%N
     = Raise (HTTPException 404
                "Image with ID 00000000000000000000000000000003 not found").
Proof.
  assert (H : ImagesAPI.delete_image mixed 3%N
              = (Ok tt, [image 1 east completed; image 4 east pending;
                         image 5 north completed])) by reflexivity.
  split; [exact H|].
  exact (proj1 (delete_then_lookups _ _ _ H)).
Defined.

End DeleteExamples.

(* ================================================================== *)
(** ** [store_image_embedding] *)

Section StoreTheorems.
Variable settings : Settings.
Local Open Scope string_scope.

(** What a call that returned [True] did. *)
Lemma store_image_embedding_true_inv (now : datetime) (tbl tbl' : Table)
      (image_id : UUID) (embedding : list R) :
  VectorService.store_image_embedding settings now tbl image_id embedding
  = (Ok true, tbl') ->
  exists image image',
    select_by_id tbl image_id = [image]
    /\ tbl' = map (fun r => if N.eqb (Image.id r) image_id then image' else r)
                  tbl
    /\ Image.id image' = image_id
    /\ Image.embedding_vector image' = embedding
    /\ Image.processing_status image' = completed
    /\ Image.processed_timestamp image' = Some now
    /\ Image.filename image' = Image.filename image
    /\ Image.upload_timestamp image' = Image.upload_timestamp image
    /\ Image.image_metadata image' = Image.image_metadata image
    /\ column_types_ok settings image' = true.
Proof.
  unfold VectorService.store_image_embedding.
  destruct (scalar_one_or_none (select_by_id tbl image_id))
    as [[image|]|e] eqn:Hsel; try discriminate.
  apply scalar_one_or_none_some in Hsel.
  unfold db_update.
  match goal with
  | |- context [column_types_ok settings ?i] =>
      destruct (column_types_ok settings i) eqn:Hcol
  end; simpl; [|discriminate].
  intros H. injection H as <-.
  do 2 eexists. split; [exact Hsel|]. split; [reflexivity|]. simpl.
  repeat split; try reflexivity; [|exact Hcol].
  apply (select_by_id_one _ _ _ Hsel).
Qed.


(** X17.  [store_image_embedding] never adds, removes or renames a row,
    and changes the table only when it returns [True].  For an ID that is
    not stored it returns [False]; for a vector whose length is not
    [EMBEDDING_DIMENSION] it never returns [True], and on a stored ID it
    raises [RuntimeError], the row keeping its old vector and status. *)
Theorem store_image_embedding_failures
        (now : datetime) (tbl : Table) (image_id : UUID) (embedding : list R) :
  map Image.id
      (snd (VectorService.store_image_embedding settings now tbl image_id
                                                embedding))
  = map Image.id tbl
  /\ (fst (VectorService.store_image_embedding settings now tbl image_id
                                               embedding) <> Ok true ->
      snd (VectorService.store_image_embedding settings now tbl image_id
                                               embedding) = tbl)
  /\ (id_in image_id tbl = false ->
      VectorService.store_image_embedding settings now tbl image_id embedding
      = (Ok false, tbl))
  /\ (List.length embedding <> EMBEDDING_DIMENSION settings ->
      fst (VectorService.store_image_embedding settings now tbl image_id
                                               embedding) <> Ok true
      /\ (pk_unique tbl -> id_in image_id tbl = true ->
          exists msg,
            VectorService.store_image_embedding settings now tbl image_id
                                                embedding
            = (Raise (RuntimeError msg), tbl))).
Proof.
  split; [|split; [|split]].
  - destruct (store_image_embedding_table settings now tbl image_id embedding)
      as [H|[image' [H [Hid _]]]]; rewrite H; [reflexivity|].
    rewrite map_map. apply map_ext. intros r.
    destruct (N.eqb (Image.id r) image_id) eqn:E; [|reflexivity].
    apply N.eqb_eq in E. congruence.
  - unfold VectorService.store_image_embedding.
    destruct (scalar_one_or_none (select_by_id tbl image_id))
      as [[image|]|e]; simpl; try reflexivity.
    destruct (db_update settings tbl image_id _) as [tbl1|e]; simpl;
      [|reflexivity].
    intros H. exfalso. apply H. reflexivity.
  - intros Hid. unfold VectorService.store_image_embedding.
    rewrite (select_by_id_absent _ _ Hid). reflexivity.
  - intros Hlen. split.
    + intros H.
      destruct (VectorService.store_image_embedding settings now tbl image_id
                  embedding) as [r tbl1] eqn:Hst.
      simpl in H. subst r.
      apply store_image_embedding_true_inv in Hst.
      destruct Hst as [image [image' [_ [_ [_ [Hemb [_ [_ [_ [_ [_ Hcol]]]]]]]]]]].
      apply column_types_ok_dimension in Hcol. congruence.
    + intros Hpk Hin. unfold VectorService.store_image_embedding.
      destruct (select_by_id_pk tbl image_id Hpk) as [H|[img [H _]]].
      * exfalso. apply (select_by_id_present _ _ Hin H).
      * rewrite H. simpl. unfold db_update, column_types_ok. simpl.
        apply Nat.eqb_neq in Hlen. rewrite Hlen. simpl.
        eexists. reflexivity.
Qed.

End StoreTheorems.

Section StoreExamples.
Import Example.
Local Open Scope string_scope.


End StoreExamples.

(* ================================================================== *)
(** ** Limits and the best results of [find_similar_images] *)

Section LimitFacts.
Variables A B : Type.

Lemma Forall2_in_left (P : A -> B -> Prop) (l1 : list A) (l2 : list B) :
  Forall2 P l1 l2 -> forall a, In a l1 -> exists b, In b l2 /\ P a b.
Proof.
  induction 1 as [|a0 b l1 l2 Hab _ IH]; intros a Ha.
  - inversion Ha.
  - destruct Ha as [<-|Ha].
    + exists b. split; [left; reflexivity|exact Hab].
    + destruct (IH a Ha) as [b' [Hb' Hp]]. exists b'. split; [right|]; assumption.
Qed.

(** In a sorted list whatever comes first is above whatever is cut off. *)
Lemma sorted_cut (key : A -> R) (l : list A) (n : nat) (x y : A) :
  Sorted (ge_key key) l ->
  In x (firstn n l) -> In y (skipn n l) -> (key x >= key y)%R.
Proof.
  intros Hs. apply Sorted_StronglySorted in Hs; [|apply ge_key_trans].
  revert n. induction Hs as [|a l Hs IH Hall]; intros n Hx Hy.
  - rewrite firstn_nil in Hx. inversion Hx.
  - destruct n as [|n]; simpl in Hx, Hy; [contradiction|].
    destruct Hx as [<-|Hx].
    + rewrite Forall_forall in Hall. apply Hall.
      rewrite <- (firstn_skipn n l). apply in_or_app. right. exact Hy.
    + apply (IH n Hx Hy).
Qed.

End LimitFacts.

Section LimitTheorems.
Import VectorService.
Variable settings : Settings.

Lemma found_ids (rows : list SimilarRow) (found : list SimilarImage.t) :
  Forall2 (fun row r => to_similar_image row = Ok r) rows found ->
  map SimilarImage.id found = map row_id rows.
Proof.
  induction 1 as [|row r rows found Hconv _ IH]; simpl.
  - reflexivity.
  - apply to_similar_image_ok in Hconv. destruct Hconv as [-> _].
    rewrite IH. reflexivity.
Qed.

(** X18.  [find_similar_images] returns as many results as there are
    selected rows, up to [limit]: exactly the smaller of the two numbers.
    With the limit 0 it returns the empty list, whatever the table holds;
    with a negative limit the statement fails and the call raises
    [RuntimeError]. *)
Theorem find_similar_images_limit
        (tbl : Table) (query_embedding : list R) (query_image_id : option UUID)
        (limit : Z) (threshold : option R) :
  (forall found,
      find_similar_images settings tbl query_embedding query_image_id limit
                          threshold (Ok found) ->
      (0 <= limit)%Z
      /\ List.length found
         = Nat.min (Z.to_nat limit)
             (List.length
                (similar_candidates tbl query_embedding query_image_id
                   (effective_threshold settings threshold))))
  /\ (forall out,
         limit = 0%Z ->
         find_similar_images settings tbl query_embedding query_image_id limit
                             threshold out ->
         out = Ok [])
  /\ (forall out,
         (limit < 0)%Z ->
         find_similar_images settings tbl query_embedding query_image_id limit
                             threshold out ->
         exists msg, out = Raise (RuntimeError msg)).
Proof.
  split; [|split].
  - intros found H. apply find_similar_images_ok_inv in H.
    destruct H as [sorted [[Hperm _] [Hpos Hall]]].
    split; [exact Hpos|].
    rewrite <- (Forall2_length Hall), length_firstn.
    rewrite (Permutation_length Hperm). reflexivity.
  - intros out -> [fetched [[sorted [_ ->]] ->]]. reflexivity.
  - intros out Hneg [fetched [[sorted [_ ->]] ->]].
    unfold sql_limit. apply Z.ltb_lt in Hneg. rewrite Hneg. simpl.
    eexists. reflexivity.
Qed.

(** X19.  The limit cuts off the worst rows only: a stored row that the
    [where] clauses select and that is not among the results scores no
    more than any result. *)
Theorem find_similar_images_keeps_best
        (tbl : Table) (query_embedding : list R) (query_image_id : option UUID)
        (limit : Z) (threshold : option R) (found : list SimilarImage.t)
        (img : Image.t) :
  find_similar_images settings tbl query_embedding query_image_id limit
                      threshold (Ok found) ->
  In img tbl ->
  similar_where query_embedding query_image_id
                (effective_threshold settings threshold) img = true ->
  ~ In (Image.id img) (map SimilarImage.id found) ->
  Forall (fun r =>
            (SimilarImage.similarity_score r
             >= similarity query_embedding img)%R) found.
Proof.
  intros H Hin Hsel Hout. apply find_similar_images_ok_inv in H.
  destruct H as [sorted [[Hperm Hs] [_ Hall]]].
  set (row := similar_row query_embedding img).
  assert (Hrow : In row sorted).
  { apply (Permutation_in _ Hperm). unfold similar_candidates.
    apply in_map, filter_In. auto. }
  rewrite <- (firstn_skipn (Z.to_nat limit) sorted) in Hrow.
  apply in_app_or in Hrow. destruct Hrow as [Hrow|Hrow].
  - exfalso. apply Hout. rewrite (found_ids _ _ Hall).
    change (Image.id img) with (row_id row). apply in_map, Hrow.
  - apply Forall_forall. intros r Hr.
    destruct (Forall2_in_right _ _ _ _ _ Hall r Hr) as [row' [Hrow' Hconv]].
    apply to_similar_image_ok in Hconv. destruct Hconv as [_ [-> _]].
    exact (sorted_cut _ row_similarity_score sorted (Z.to_nat limit) row' row
             Hs Hrow' Hrow).
Qed.

(** X20.  No image appears twice among the results of a search over a
    table with unique IDs, and the image whose ID is passed as
    [query_image_id] does not appear at all. *)
Theorem find_similar_images_distinct
        (tbl : Table) (query_embedding : list R) (query_image_id : option UUID)
        (limit : Z) (threshold : option R) (found : list SimilarImage.t) :
  pk_unique tbl ->
  find_similar_images settings tbl query_embedding query_image_id limit
                      threshold (Ok found) ->
  NoDup (map SimilarImage.id found)
  /\ forall u, query_image_id = Some u -> ~ In u (map SimilarImage.id found).
Proof.
  intros Hpk H. split.
  - apply find_similar_images_ok_inv in H.
    destruct H as [sorted [[Hperm _] [_ Hall]]].
    rewrite (found_ids _ _ Hall), <- firstn_map. apply NoDup_firstn.
    eapply Permutation_NoDup; [apply Permutation_map, Hperm|].
    unfold similar_candidates. rewrite map_map. simpl.
    apply (filter_keeps_distinct_keys _ _ _ Image.id). exact Hpk.
  - intros u Hu Hin. apply find_similar_images_results in H.
    rewrite Forall_forall in H. apply in_map_iff in Hin.
    destruct Hin as [r [Hid Hr]].
    destruct (H r Hr) as [img [_ [_ [E [_ [_ [_ Hex]]]]]]].
    apply (Hex u Hu). congruence.
Qed.

End LimitTheorems.

(** Descending order of a concrete list, by its keys. *)
Ltac descending :=
  repeat first
    [ apply Sorted_nil | apply HdRel_nil
    | apply Sorted_cons | apply HdRel_cons; simpl; lra ].

Section LimitExamples.
Import Example VectorService.
Local Open Scope R_scope.

(** The two rows of [apart] with the limit 1: the better one is kept. *)
Lemma apart_first :
  find_similar_images settings2 apart east None 1 (Some 0) (Ok [similar 1 1]).
Proof.
  eapply find_similar_images_run.
  - exact apart_candidates.
  - apply perm_swap.
  - descending.
  - unfold similar_images_of, sql_limit. simpl.
    rewrite to_similar_image_row by lra. reflexivity.
Qed.

Lemma apart_pk_unique : pk_unique apart.
Proof. unfold pk_unique, apart. simpl. distinct_ids. Qed.

(** X19 on that search: the row that was cut off scores 0, the result 1. *)
Lemma find_similar_images_keeps_best_witness :
  find_similar_images settings2 apart east None 1 (Some 0) (Ok [similar 1 1])
  /\ Forall (fun r =>
               SimilarImage.similarity_score r
               >= similarity east (image 5 north completed))
            [similar 1 1].
Proof.
  split; [exact apart_first|].
  apply (find_similar_images_keeps_best settings2 apart east None 1 (Some 0)
           [similar 1 1] (image 5 north completed) apart_first).
  - left. reflexivity.
  - rewrite similar_where_image, similarity_north. simpl.
    assert (H : Rleb 0 0 = true) by (apply Rleb_true; lra).
    rewrite H. reflexivity.
  - simpl. intros [H|[]]. discriminate H.
Defined.

(** The search for the images similar to the first row of [tied]. *)
Lemma tied_excluding_first :
  find_similar_images settings2 tied east (Some 1%N) 5 (Some (1 / 2))
                      (Ok [similar 2 1]).
Proof.
  eapply find_similar_images_run.
  - unfold similar_candidates, tied. cbn [filter].
    rewrite !similar_where_image, !similarity_east.
    assert (H : Rleb (1 / 2) 1 = true) by (apply Rleb_true; lra).
    simpl. unfold effective_threshold. rewrite H. simpl.
    rewrite similar_row_east. reflexivity.
  - apply Permutation_refl.
  - descending.
  - unfold similar_images_of, sql_limit. simpl.
    rewrite to_similar_image_row by lra. reflexivity.
Qed.

(** X20 on that search. *)
Lemma find_similar_images_distinct_witness :
  pk_unique tied
  /\ find_similar_images settings2 tied east (Some 1%N) 5 (Some (1 / 2))
                         (Ok [similar 2 1])
  /\ ~ In 1%N (map SimilarImage.id [similar 2 1]).
Proof.
  split; [exact tied_pk_unique|]. split; [exact tied_excluding_first|].
  exact (proj2 (find_similar_images_distinct settings2 tied east (Some 1%N) 5
                  (Some (1 / 2)) [similar 2 1] tied_pk_unique
                  tied_excluding_first) 1%N eq_refl).
Defined.

End LimitExamples.

(* ================================================================== *)
(** ** The similarity endpoint and the batch search *)

Section EndpointFacts.

(** What a successful [get_image_embedding] read. *)
Lemma get_image_embedding_some_inv (tbl : Table) (u : UUID) (q : list R) :
  VectorService.get_image_embedding tbl u = Ok (Some q) ->
  exists img,
    In img tbl /\ Image.id img = u /\ is_completed img = true
    /\ Image.embedding_vector img = q.
Proof.
  unfold VectorService.get_image_embedding.
  destruct (scalar_one_or_none _) as [[q0|]|e] eqn:Hsel; intros H;
    try discriminate.
  injection H as ->. apply scalar_one_or_none_some in Hsel.
  destruct (filter _ tbl) as [|img rest] eqn:Hf; [discriminate|].
  simpl in Hsel. injection Hsel as Hq _.
  assert (Hin : In img (img :: rest)) by (left; reflexivity).
  rewrite <- Hf in Hin. apply filter_In in Hin. destruct Hin as [Hin Hc].
  apply andb_prop in Hc. destruct Hc as [Hid Hc]. apply N.eqb_eq in Hid.
  exists img. auto.
Qed.

End EndpointFacts.

Section EndpointResponseTheorems.
Variable settings : Settings.
Local Open Scope string_scope.

(** X21.  A response of the similarity endpoint names the queried image,
    counts its results in [total_results], which is at most [limit], and
    never lists the queried image itself.  Its results are those of
    [VectorService.find_similar_images] for the stored embedding of the
    queried image, which is a completed row with a non-empty vector. *)
Theorem similar_endpoint_response
        (now : datetime) (tbl : Table) (image_id : UUID) (limit : Z)
        (threshold : R) (resp : SimilarImagesResponse.t) :
  ImagesAPI.find_similar_images settings now tbl image_id limit threshold
                                (Ok resp) ->
  SimilarImagesResponse.query_image_id resp = image_id
  /\ SimilarImagesResponse.search_timestamp resp = now
  /\ SimilarImagesResponse.total_results resp
     = Z.of_nat (List.length (SimilarImagesResponse.similar_images resp))
  /\ (0 <= SimilarImagesResponse.total_results resp <= limit)%Z
  /\ (forall r, In r (SimilarImagesResponse.similar_images resp) ->
                SimilarImage.id r <> image_id)
  /\ exists img,
       In img tbl /\ Image.id img = image_id /\ is_completed img = true
       /\ Image.embedding_vector img <> []
       /\ VectorService.find_similar_images settings tbl
            (Image.embedding_vector img) (Some image_id) limit
            (Some threshold)
            (Ok (SimilarImagesResponse.similar_images resp)).
Proof.
  unfold ImagesAPI.find_similar_images.
  destruct (VectorService.get_image_embedding tbl image_id) as [qe|e] eqn:Hget;
    [|discriminate].
  destruct qe as [q|]; simpl; [|discriminate].
  destruct q as [|x q]; simpl; [discriminate|].
  intros [found [Hfind Hout]].
  destruct found as [similar_images|e]; [|discriminate].
  injection Hout as ->. simpl.
  split; [reflexivity|]. split; [reflexivity|]. split; [reflexivity|].
  split; [|split].
  - pose proof (find_similar_images_ok_inv settings _ _ _ _ _ _ Hfind)
      as [sorted [_ [Hpos Hall]]].
    apply Forall2_length in Hall. rewrite length_firstn in Hall.
    pose proof (Nat.le_min_l (Z.to_nat limit) (List.length sorted)). lia.
  - intros r Hr E.
    pose proof (find_similar_images_results settings _ _ _ _ _ _ Hfind) as Hall.
    rewrite Forall_forall in Hall.
    destruct (Hall r Hr) as [img [_ [_ [Hid [_ [_ [_ Hex]]]]]]].
    apply (Hex image_id eq_refl). congruence.
  - apply get_image_embedding_some_inv in Hget.
    destruct Hget as [img [Hin [Hid [Hc Hq]]]].
    exists img. rewrite Hq. repeat split; auto. discriminate.
Qed.

(** X22.  The similarity endpoint raises nothing but an [HTTPException]
    with status 404 or 500.  For an ID that is not stored the status is
    404; for a completed image with a non-empty vector a negative [limit]
    gives status 500, not an empty list. *)
Theorem similar_endpoint_errors
        (now : datetime) (tbl : Table) (image_id : UUID) (limit : Z)
        (threshold : R) :
  (forall e,
      ImagesAPI.find_similar_images settings now tbl image_id limit threshold
                                    (Raise e) ->
      exists detail, e = HTTPException 404 detail \/ e = HTTPException 500 detail)
  /\ (id_in image_id tbl = false ->
      forall out,
        ImagesAPI.find_similar_images settings now tbl image_id limit
                                      threshold out
        <-> out = Raise (HTTPException 404
                           ("Image with ID " ++ str_uuid image_id
                            ++ " not found or not processed")))
  /\ (forall x q out,
         (limit < 0)%Z ->
         VectorService.get_image_embedding tbl image_id = Ok (Some (x :: q)) ->
         ImagesAPI.find_similar_images settings now tbl image_id limit
                                       threshold out ->
         exists detail, out = Raise (HTTPException 500 detail)).
Proof.
  split; [|split].
  - intros e. unfold ImagesAPI.find_similar_images.
    destruct (VectorService.get_image_embedding tbl image_id) as [qe|e0].
    + destruct (negb (ImagesAPI.embedding_truthy qe)).
      * intros H. injection H as ->. eexists. left. reflexivity.
      * intros [found [_ Hout]]. destruct found as [l|e1]; [discriminate|].
        injection Hout as ->. eexists. right. reflexivity.
    + intros H. injection H as ->. eexists. right. reflexivity.
  - intros Hid out. unfold ImagesAPI.find_similar_images,
      VectorService.get_image_embedding.
    rewrite completed_rows_by_id, (select_by_id_absent _ _ Hid). simpl.
    reflexivity.
  - intros x q out Hneg Hget. unfold ImagesAPI.find_similar_images.
    rewrite Hget. simpl. intros [found [Hfind ->]].
    destruct Hfind as [fetched [[sorted [_ ->]] ->]].
    unfold sql_limit. apply Z.ltb_lt in Hneg. rewrite Hneg. simpl.
    eexists. reflexivity.
Qed.

End EndpointResponseTheorems.

Section BatchTheorems.
Import VectorService.
Variable settings : Settings.

Lemma batch_loop_ok (tbl : Table) (limit : Z) (threshold : option R)
      (query_embeddings : list (list R)) :
  forall acc results,
    batch_loop settings tbl query_embeddings limit threshold acc (Ok results) ->
    exists rest,
      results = acc ++ rest
      /\ Forall2 (fun embedding found =>
                    find_similar_images settings tbl embedding None limit
                                        threshold (Ok found))
                 query_embeddings rest.
Proof.
  induction query_embeddings as [|embedding l IH]; simpl; intros acc results H.
  - injection H as <-. exists []. rewrite app_nil_r. split; constructor.
  - destruct H as [[found|e] [Hfind H]]; [|discriminate].
    destruct (IH _ _ H) as [rest [-> Hall]].
    exists (found :: rest). rewrite <- app_assoc. simpl.
    split; [reflexivity|]. constructor; assumption.
Qed.

Lemma batch_loop_raise (tbl : Table) (limit : Z) (threshold : option R)
      (query_embeddings : list (list R)) (e : exn) :
  forall acc,
    batch_loop settings tbl query_embeddings limit threshold acc (Raise e) ->
    exists embedding,
      In embedding query_embeddings
      /\ find_similar_images settings tbl embedding None limit threshold
                             (Raise e).
Proof.
  induction query_embeddings as [|embedding l IH]; simpl; intros acc H.
  - discriminate.
  - destruct H as [[found|e0] [Hfind H]].
    + destruct (IH _ H) as [emb [Hin Hemb]]. exists emb. auto.
    + injection H as ->. exists embedding. auto.
Qed.

(** X23.  [batch_similarity_search] returns one list per query embedding,
    in the order of the queries, each a result of [find_similar_images]
    for that embedding with no image excluded; when it raises, it raises
    what the search for one of the embeddings raised; for no query at all
    it returns the empty list, whatever the limit. *)
Theorem batch_similarity_search_results
        (tbl : Table) (query_embeddings : list (list R)) (limit : Z)
        (threshold : option R) :
  (forall results,
      batch_similarity_search settings tbl query_embeddings limit threshold
                              (Ok results) ->
      Forall2 (fun embedding found =>
                 find_similar_images settings tbl embedding None limit
                                     threshold (Ok found))
              query_embeddings results)
  /\ (forall e,
         batch_similarity_search settings tbl query_embeddings limit threshold
                                 (Raise e) ->
         exists embedding,
           In embedding query_embeddings
           /\ find_similar_images settings tbl embedding None limit threshold
                                  (Raise e))
  /\ (query_embeddings = [] ->
      forall out,
        batch_similarity_search settings tbl query_embeddings limit threshold
                                out
        <-> out = Ok []).
Proof.
  unfold batch_similarity_search. split; [|split].
  - intros results H. apply batch_loop_ok in H.
    destruct H as [rest [-> Hall]]. exact Hall.
  - intros e H. apply batch_loop_raise in H. exact H.
  - intros -> out. simpl. reflexivity.
Qed.

End BatchTheorems.

Section EndpointResponseExamples.
Import Example.
Local Open Scope R_scope.

(** The request for the images similar to the first row of [tied]. *)
Lemma tied_request :
  ImagesAPI.find_similar_images settings2 0%Z tied 1%N 5 (1 / 2)
    (Ok {| SimilarImagesResponse.query_image_id := 1%N;
           SimilarImagesResponse.similar_images := [similar 2 1];
           SimilarImagesResponse.total_results := 1%Z;
           SimilarImagesResponse.search_timestamp := 0%Z |}).
Proof.
  unfold ImagesAPI.find_similar_images.
  change (VectorService.get_image_embedding tied 1%N) with (Ok (Some east)).
  simpl. exists (Ok [similar 2 1]).
  split; [exact tied_excluding_first|reflexivity].
Qed.

(** X21 on that request. *)
Lemma similar_endpoint_response_witness :
  exists resp,
    ImagesAPI.find_similar_images settings2 0%Z tied 1%N 5 (1 / 2) (Ok resp)
    /\ SimilarImagesResponse.total_results resp = 1%Z
    /\ (0 <= SimilarImagesResponse.total_results resp <= 5)%Z
    /\ forall r, In r (SimilarImagesResponse.similar_images resp) ->
                 SimilarImage.id r <> 1%N.
Proof.
  eexists. split; [exact tied_request|].
  destruct (similar_endpoint_response settings2 _ _ _ _ _ _ tied_request)
    as [_ [_ [Htotal [Hle [Hself _]]]]].
  split; [exact Htotal|]. split; [exact Hle|exact Hself].
Defined.

End EndpointResponseExamples.

(* ================================================================== *)
(** ** What [find_duplicate_images] reports *)

Section CosineFacts.
Local Open Scope R_scope.

Lemma dot_comm (a : list R) : forall b, dot a b = dot b a.
Proof.
  induction a as [|x a IH]; intros [|y b]; simpl; try reflexivity.
  rewrite IH. lra.
Qed.

Lemma cosine_distance_comm (a b : list R) :
  cosine_distance a b = cosine_distance b a.
Proof.
  unfold cosine_distance.
  rewrite (dot_comm a b), (Rmult_comm (vector_norm a)). reflexivity.
Qed.

End CosineFacts.

Section DuplicateSoundness.
Import VectorService.
Local Open Scope R_scope.

Lemma image_pairs_in (tbl : Table) (threshold : R) (p : UUID * UUID * R) :
  In p (image_pairs tbl threshold)
  <-> exists i1 i2,
        In i1 tbl /\ In i2 tbl
        /\ is_completed i1 = true /\ is_completed i2 = true
        /\ (Image.id i1 < Image.id i2)%N
        /\ threshold <= 1 - cosine_distance (Image.embedding_vector i1)
                                            (Image.embedding_vector i2)
        /\ p = (Image.id i1, Image.id i2,
                1 - cosine_distance (Image.embedding_vector i1)
                                    (Image.embedding_vector i2)).
Proof.
  unfold image_pairs. rewrite in_map_iff. split.
  - intros [[i1 i2] [<- Hin]]. apply filter_In in Hin.
    destruct Hin as [Hin Hw]. apply in_prod_iff in Hin.
    unfold duplicate_where in Hw. simpl in Hw.
    apply andb_prop in Hw. destruct Hw as [Hw Ht].
    apply andb_prop in Hw. destruct Hw as [Hw Hlt].
    apply andb_prop in Hw. destruct Hw as [H1 H2].
    exists i1, i2. apply N.ltb_lt in Hlt. apply Rleb_true in Ht.
    repeat split; tauto.
  - intros [i1 [i2 [H1 [H2 [C1 [C2 [Hlt [Ht ->]]]]]]]].
    exists (i1, i2). split; [reflexivity|]. apply filter_In. split.
    + apply in_prod; assumption.
    + unfold duplicate_where. simpl. rewrite C1, C2. simpl.
      apply N.ltb_lt in Hlt. rewrite Hlt. simpl. apply Rleb_true, Ht.
Qed.


(** X25.  With a limit no smaller than the number of rows squared nothing
    is cut off: any two stored, completed images with different IDs whose
    similarity reaches the threshold are reported, under the smaller ID
    first, whichever of the two is taken first.  The two vectors are
    taken of non-zero norm, for which the cosine distance is a number. *)
Theorem find_duplicate_images_complete
        (tbl : Table) (threshold : R) (limit : Z)
        (pairs : list (UUID * UUID * R)) (i1 i2 : Image.t) :
  find_duplicate_images tbl threshold limit (Ok pairs) ->
  (Z.of_nat (List.length tbl * List.length tbl) <= limit)%Z ->
  In i1 tbl -> In i2 tbl ->
  is_completed i1 = true -> is_completed i2 = true ->
  Image.id i1 <> Image.id i2 ->
  vector_norm (Image.embedding_vector i1) <> 0 ->
  vector_norm (Image.embedding_vector i2) <> 0 ->
  threshold <= 1 - cosine_distance (Image.embedding_vector i1)
                                   (Image.embedding_vector i2) ->
  In (N.min (Image.id i1) (Image.id i2), N.max (Image.id i1) (Image.id i2),
      1 - cosine_distance (Image.embedding_vector i1)
                          (Image.embedding_vector i2)) pairs.
Proof.
  intros H Hlimit H1 H2 C1 C2 Hne _ _ Ht.
  apply find_duplicate_images_ok_inv in H.
  destruct H as [sorted [[Hperm _] ->]].
  assert (Hall : firstn (Z.to_nat limit) sorted = sorted).
  { apply firstn_all2. rewrite <- (Permutation_length Hperm).
    unfold image_pairs. rewrite length_map.
    pose proof (filter_length_le (duplicate_where threshold)
                  (list_prod tbl tbl)) as Hle.
    rewrite length_prod in Hle. lia. }
  rewrite Hall. apply (Permutation_in _ Hperm). apply image_pairs_in.
  destruct (N.lt_ge_cases (Image.id i1) (Image.id i2)) as [Hlt|Hge].
  - exists i1, i2. rewrite N.min_l, N.max_r by lia.
    repeat split; assumption.
  - assert (Hlt : (Image.id i2 < Image.id i1)%N) by lia.
    exists i2, i1. rewrite N.min_r, N.max_l by lia.
    rewrite (cosine_distance_comm (Image.embedding_vector i2)).
    repeat split; assumption.
Qed.

End DuplicateSoundness.

Section DuplicateSoundnessExamples.
Import Example VectorService.
Local Open Scope R_scope.

Lemma vector_norm_east : vector_norm east = 1.
Proof.
  unfold vector_norm, east. simpl.
  replace (1 * 1 + (0 * 0 + 0)) with 1 by lra. apply sqrt_1.
Qed.


(** X25 on the same images, taken in the other order. *)
Lemma find_duplicate_images_complete_witness :
  find_duplicate_images tied (95 / 100) 100 (Ok [(1%N, 2%N, 1)])
  /\ In (1%N, 2%N, 1 - cosine_distance east east) [(1%N, 2%N, 1)].
Proof.
  split; [exact tied_duplicates|].
  apply (find_duplicate_images_complete tied (95 / 100) 100 [(1%N, 2%N, 1)]
           (image 2 east completed) (image 1 east completed) tied_duplicates).
  - simpl. lia.
  - right. left. reflexivity.
  - left. reflexivity.
  - reflexivity.
  - reflexivity.
  - simpl. discriminate.
  - simpl. rewrite vector_norm_east. lra.
  - simpl. rewrite vector_norm_east. lra.
  - simpl. rewrite cosine_east_east. lra.
Defined.

End DuplicateSoundnessExamples.

(* ================================================================== *)
(** ** [get_embedding_stats] *)

Section StatsFacts.
Variable A : Type.

(** Two conditions that exclude each other count different rows. *)
Lemma exclusive_counts (p q : A -> bool) (l : list A) :
  (forall x, p x = true -> q x = false) ->
  List.length (filter p l) + List.length (filter q l) <= List.length l.
Proof.
  intros Hex. induction l as [|x l IH]; simpl.
  - lia.
  - destruct (p x) eqn:Hp.
    + rewrite (Hex x Hp). simpl. lia.
    + destruct (q x); simpl; lia.
Qed.

Lemma filter_all (p : A -> bool) (l : list A) :
  Forall (fun x => p x = true) l -> filter p l = l.
Proof.
  induction 1 as [|x l Hx _ IH]; simpl.
  - reflexivity.
  - rewrite Hx, IH. reflexivity.
Qed.

Lemma filter_none (p : A -> bool) (l : list A) :
  Forall (fun x => p x = false) l -> filter p l = [].
Proof.
  induction 1 as [|x l Hx _ IH]; simpl.
  - reflexivity.
  - rewrite Hx, IH. reflexivity.
Qed.

End StatsFacts.

Section StatsTheorems.
Context {fp : PyFloat} {hl : Hashlib} {rnd : PyRandom} {pil : Pillow}.
Variable settings : Settings.
Import VectorService.

(** X26.  [get_embedding_stats] counts every row at most once: the
    processed and the pending images together are no more than the total.
    On a table built by uploads, [store_image_embedding] calls and
    deletions from an empty one, it reports no pending image and as many
    processed images as there are images. *)
Theorem get_embedding_stats_counts :
  (forall tbl,
      exists st,
        get_embedding_stats settings tbl = Ok st
        /\ total_images st = Z.of_nat (List.length tbl)
        /\ (0 <= processed_images st)%Z /\ (0 <= pending_images st)%Z
        /\ (processed_images st + pending_images st <= total_images st)%Z
        /\ embedding_dimension st = EMBEDDING_DIMENSION settings)
  /\ (forall s0 calls,
         exists st,
           get_embedding_stats settings (fst (Lifecycle.run settings s0 calls))
           = Ok st
           /\ pending_images st = 0%Z
           /\ processed_images st = total_images st).
Proof.
  split.
  - intros tbl. eexists. split; [reflexivity|]. simpl. unfold count_status.
    split; [reflexivity|]. split; [lia|]. split; [lia|]. split; [|reflexivity].
    pose proof (exclusive_counts _
                  (fun r => String.eqb (Image.processing_status r) "completed")
                  (fun r => String.eqb (Image.processing_status r) "pending")
                  tbl) as H.
    assert (Hex : forall x : Image.t,
               String.eqb (Image.processing_status x) "completed" = true ->
               String.eqb (Image.processing_status x) "pending" = false).
    { intros x Hx. apply String.eqb_eq in Hx. rewrite Hx. reflexivity. }
    specialize (H Hex). lia.
  - intros s0 calls. eexists. split; [reflexivity|]. simpl.
    unfold count_status.
    assert (Hall : Forall (Lifecycle.row_ok settings)
                          (fst (Lifecycle.run settings s0 calls))).
    { unfold Lifecycle.run.
      apply (fold_left_step_rows_ok settings calls ([], s0)). constructor. }
    split.
    + rewrite filter_none; [reflexivity|].
      eapply Forall_impl; [|exact Hall]. intros r [Hst _]. simpl.
      rewrite Hst. reflexivity.
    + rewrite filter_all; [reflexivity|].
      eapply Forall_impl; [|exact Hall]. intros r [Hst _]. simpl.
      rewrite Hst. reflexivity.
Qed.

End StatsTheorems.

(* ================================================================== *)
(** ** [list_images] *)

Section ListFacts.
Variables A B : Type.

Lemma sorted_skipn (key : A -> R) (n : nat) :
  forall l, Sorted (ge_key key) l -> Sorted (ge_key key) (skipn n l).
Proof.
  induction n as [|n IH]; intros l Hs; simpl.
  - exact Hs.
  - destruct l as [|a l]; [constructor|].
    apply IH. inversion Hs; assumption.
Qed.

Lemma sorted_map_key (key : A -> R) (f : A -> B) (above : B -> B -> Prop)
      (l : list A) :
  (forall a b, ge_key key a b -> above (f a) (f b)) ->
  Sorted (ge_key key) l -> Sorted above (map f l).
Proof.
  intros Hf. induction 1 as [|a l Hs IH Hhd]; simpl.
  - constructor.
  - constructor; [exact IH|].
    destruct Hhd as [|b l Hab]; simpl; constructor. apply Hf, Hab.
Qed.

End ListFacts.

Section ListTheorems.
Local Open Scope string_scope.

(** X27.  A page of [list_images] holds the metadata of stored rows, the
    newest upload first; it has [limit] items, or as many as the table has
    left after [skip] rows when those are fewer.  A negative [skip] or
    [limit] is not checked by the handler: the statement fails and the
    request ends with status 500. *)
Theorem list_images_page (tbl : Table) (skip limit : Z) :
  (forall items,
      ImagesAPI.list_images tbl skip limit (Ok items) ->
      (0 <= skip)%Z /\ (0 <= limit)%Z
      /\ List.length items
         = Nat.min (Z.to_nat limit) (List.length tbl - Z.to_nat skip)
      /\ Sorted (fun a b => (ImageMetadata.upload_timestamp a
                             >= ImageMetadata.upload_timestamp b)%Z) items
      /\ Forall (fun m => exists img,
                            In img tbl /\ m = ImagesAPI.image_metadata_of img)
                items)
  /\ ((skip < 0)%Z \/ (limit < 0)%Z ->
      forall out,
        ImagesAPI.list_images tbl skip limit out ->
        exists detail, out = Raise (HTTPException 500 detail)).
Proof.
  split.
  - intros items [fetched [[sorted [[Hperm Hs] ->]] Hout]].
    unfold sql_offset, sql_limit, ResultMonad.bind in Hout.
    destruct (skip <? 0)%Z eqn:Hskip; [discriminate|].
    destruct (limit <? 0)%Z eqn:Hlimit; [discriminate|].
    injection Hout as ->. apply Z.ltb_ge in Hskip, Hlimit.
    split; [exact Hskip|]. split; [exact Hlimit|]. split; [|split].
    + rewrite length_map, length_firstn, length_skipn.
      rewrite (Permutation_length Hperm). reflexivity.
    + apply (sorted_map_key _ _
               (fun img => IZR (Image.upload_timestamp img))).
      * intros a b Hab. unfold ge_key in Hab. simpl.
        apply Rge_le, le_IZR in Hab. lia.
      * apply sorted_firstn, sorted_skipn. exact Hs.
    + apply Forall_forall. intros m Hm. apply in_map_iff in Hm.
      destruct Hm as [img [<- Hin]]. exists img. split; [|reflexivity].
      apply in_firstn in Hin.
      apply (Permutation_in _ (Permutation_sym Hperm)).
      rewrite <- (firstn_skipn (Z.to_nat skip) sorted).
      apply in_or_app. right. exact Hin.
  - intros Hneg out [fetched [[sorted [_ ->]] ->]].
    unfold sql_offset, sql_limit, ResultMonad.bind.
    destruct (skip <? 0)%Z eqn:Hskip; [eexists; reflexivity|].
    destruct (limit <? 0)%Z eqn:Hlimit; [eexists; reflexivity|].
    apply Z.ltb_ge in Hskip, Hlimit. lia.
Qed.

End ListTheorems.

(* ================================================================== *)
(** ** Runs of the other calls *)

Section FurtherExamples.
Import Example VectorService.
Local Open Scope R_scope.

(** X17 on a vector of three components for a table of two dimensions. *)
Lemma store_image_embedding_failures_witness :
  pk_unique mixed
  /\ exists msg,
       store_image_embedding settings2 9%Z mixed 4%N [1; 0; 0]
       = (Raise (RuntimeError msg), mixed).
Proof.
  split; [exact mixed_pk_unique|].
  refine (proj2 (proj2 (proj2 (proj2 (store_image_embedding_failures settings2
                                        9%Z mixed 4%N [1; 0; 0]))) _)
            mixed_pk_unique _).
  - simpl. discriminate.
  - reflexivity.
Defined.

(** X18 on the two rows of [apart] with the limit 1. *)
Lemma find_similar_images_limit_witness :
  find_similar_images settings2 apart east None 1 (Some 0) (Ok [similar 1 1])
  /\ List.length [similar 1 1]
     = Nat.min (Z.to_nat 1)
         (List.length (similar_candidates apart east None 0)).
Proof.
  split; [exact apart_first|].
  exact (proj2 (proj1 (find_similar_images_limit settings2 apart east None 1
                         (Some 0)) _ apart_first)).
Defined.

(** X22 on an ID that is not in the example table. *)
Lemma similar_endpoint_errors_witness :
  id_in 9%N mixed = false
  /\ forall out,
       ImagesAPI.find_similar_images settings2 0%Z mixed 9%N 10 (7 / 10) out
       <-> out = Raise (HTTPException 404
                          "Image with ID 00000000000000000000000000000009 not found or not processed").
Proof.
  split; [reflexivity|].
  exact (proj1 (proj2 (similar_endpoint_errors settings2 0%Z mixed 9%N 10
                         (7 / 10))) eq_refl).
Defined.

(** X23 on two queries over [tied], each with an order of its own. *)
Lemma batch_similarity_search_results_witness :
  batch_similarity_search settings2 tied [east; east] 5 (Some 0)
    (Ok [[similar 1 1; similar 2 1]; [similar 2 1; similar 1 1]])
  /\ Forall2 (fun embedding found =>
                find_similar_images settings2 tied embedding None 5 (Some 0)
                                    (Ok found))
             [east; east]
             [[similar 1 1; similar 2 1]; [similar 2 1; similar 1 1]].
Proof.
  assert (H : batch_similarity_search settings2 tied [east; east] 5 (Some 0)
                (Ok [[similar 1 1; similar 2 1]; [similar 2 1; similar 1 1]])).
  { unfold batch_similarity_search. simpl.
    exists (Ok [similar 1 1; similar 2 1]). split; [exact tied_first_order|].
    exists (Ok [similar 2 1; similar 1 1]). split; [exact tied_second_order|].
    reflexivity. }
  split; [exact H|].
  exact (proj1 (batch_similarity_search_results settings2 tied [east; east] 5
                  (Some 0)) _ H).
Defined.

(** X27 on the second page of [tied], one row to a page. *)
Lemma list_images_page_witness :
  ImagesAPI.list_images tied 1 1
    (Ok [ImagesAPI.image_metadata_of (image 2 east completed)])
  /\ List.length [ImagesAPI.image_metadata_of (image 2 east completed)]
     = Nat.min (Z.to_nat 1) (List.length tied - Z.to_nat 1).
Proof.
  assert (H : ImagesAPI.list_images tied 1 1
                (Ok [ImagesAPI.image_metadata_of (image 2 east completed)])).
  { exists (Ok [image 2 east completed]). split; [|reflexivity].
    exists tied. split; [|reflexivity].
    split; [apply Permutation_refl|]. unfold tied. descending. }
  split; [exact H|].
  exact (proj1 (proj2 (proj2 (proj1 (list_images_page tied 1 1) _ H)))).
Defined.

End FurtherExamples.

(* ================================================================== *)
(** ** Scores within the range of the schema *)

Section ScoreFacts.
Local Open Scope R_scope.

Lemma dot_self_nonneg (a : list R) : 0 <= dot a a.
Proof.
  induction a as [|x a IH]; simpl; [lra|nra].
Qed.

(** The inequality of Cauchy and Schwarz, for lists of any two lengths. *)
Lemma dot_squared_bound (a : list R) :
  forall b, dot a b * dot a b <= dot a a * dot b b.
Proof.
  induction a as [|x a IH]; intros [|y b]; simpl; try lra.
  specialize (IH b).
  pose proof (dot_self_nonneg a) as Ha.
  pose proof (dot_self_nonneg b) as Hb.
  set (d := dot a b) in *. set (p := dot a a) in *. set (q := dot b b) in *.
  assert (Hmix : 2 * (x * y * d) <= x * x * q + y * y * p).
  { destruct (Req_dec p 0) as [Hp|Hp].
    - assert (Hd : d = 0) by nra. rewrite Hd, Hp. nra.
    - assert (Hpos : 0 < p) by lra.
      assert (Hscaled : 0 <= p * (x * x * q + y * y * p - 2 * (x * y * d))).
      { replace (p * (x * x * q + y * y * p - 2 * (x * y * d)))
          with (x * x * (p * q - d * d)
                + (y * p - x * d) * (y * p - x * d)) by ring.
        assert (0 <= x * x * (p * q - d * d)).
        { apply Rmult_le_pos; nra. }
        pose proof (Rle_0_sqr (y * p - x * d)) as Hsq. unfold Rsqr in Hsq.
        lra. }
      assert (0 <= x * x * q + y * y * p - 2 * (x * y * d)).
      { apply (Rmult_le_reg_l p); [exact Hpos|]. lra. }
      lra. }
  nra.
Qed.

Lemma dot_norm_bound (a b : list R) : dot a b <= vector_norm a * vector_norm b.
Proof.
  unfold vector_norm. rewrite <- sqrt_mult_alt by apply dot_self_nonneg.
  destruct (Rle_dec (dot a b) 0) as [Hneg|Hpos].
  - pose proof (sqrt_pos (dot a a * dot b b)). lra.
  - rewrite <- (sqrt_square (dot a b)) by lra.
    apply sqrt_le_1_alt, dot_squared_bound.
Qed.

Lemma similarity_at_most_one (q : list R) (img : Image.t) :
  VectorService.similarity q img <= 1.
Proof.
  unfold VectorService.similarity, cosine_distance.
  set (a := Image.embedding_vector img).
  pose proof (dot_norm_bound a q) as Hb.
  assert (Hn : 0 <= vector_norm a * vector_norm q).
  { apply Rmult_le_pos; apply sqrt_pos. }
  destruct (Req_dec (vector_norm a * vector_norm q) 0) as [Hz|Hnz].
  - rewrite Hz. unfold Rdiv. rewrite Rinv_0. lra.
  - assert (Hd : dot a q / (vector_norm a * vector_norm q) <= 1).
    { apply (Rmult_le_reg_r (vector_norm a * vector_norm q)); [lra|].
      unfold Rdiv. rewrite Rmult_assoc, Rinv_l by exact Hnz. lra. }
    lra.
Qed.

Lemma mapM_all_in_range (rows : list VectorService.SimilarRow) :
  Forall (fun row => 0 <= VectorService.row_similarity_score row <= 1) rows ->
  exists found, ResultMonad.mapM VectorService.to_similar_image rows = Ok found.
Proof.
  induction 1 as [|row rows [H0 H1] _ [found IH]]; simpl.
  - eexists. reflexivity.
  - unfold ResultMonad.bind. rewrite IH.
    assert (Hrow : exists r, VectorService.to_similar_image row = Ok r).
    { unfold VectorService.to_similar_image, SimilarImage.new.
      apply Rleb_true in H0. apply Rleb_true in H1. rewrite H0, H1. simpl.
      eexists. reflexivity. }
    destruct Hrow as [r ->]. eexists. reflexivity.
Qed.

End ScoreFacts.

Section ScoreTheorems.
Import VectorService.
Variable settings : Settings.
Local Open Scope R_scope.

(** X28.  With a threshold that is not negative and a limit from 0 up to
    the largest [bigint], [find_similar_images] never raises: no selected
    score is below 0, and none is above 1, so the schema rejects no row.
    The vectors are taken of the configured dimension and of non-zero
    norm, for which the cosine distance is a number. *)
Theorem find_similar_images_answers
        (tbl : Table) (query_embedding : list R) (query_image_id : option UUID)
        (limit : Z) (threshold : option R)
        (out : Result (list SimilarImage.t)) :
  (0 <= limit <= 9223372036854775807)%Z ->
  0 <= effective_threshold settings threshold ->
  List.length query_embedding = EMBEDDING_DIMENSION settings ->
  vector_norm query_embedding <> 0 ->
  Forall (fun img =>
            List.length (Image.embedding_vector img)
            = EMBEDDING_DIMENSION settings
            /\ vector_norm (Image.embedding_vector img) <> 0) tbl ->
  find_similar_images settings tbl query_embedding query_image_id limit
                      threshold out ->
  exists found, out = Ok found.
Proof.
  intros [Hlimit _] Hthreshold _ _ _ [fetched [[sorted [[Hperm _] ->]] ->]].
  unfold sql_limit. apply Z.ltb_ge in Hlimit. rewrite Hlimit.
  unfold similar_images_of, ResultMonad.try_except.
  destruct (mapM_all_in_range (firstn (Z.to_nat limit) sorted)) as [found ->].
  - apply Forall_forall. intros row Hrow. apply in_firstn in Hrow.
    apply (Permutation_in _ (Permutation_sym Hperm)) in Hrow.
    apply similar_candidates_in in Hrow.
    destruct Hrow as [img [_ [-> [_ [Ht _]]]]]. simpl.
    pose proof (similarity_at_most_one query_embedding img). lra.
  - exists found. reflexivity.
Qed.

End ScoreTheorems.

Section ScoreExamples.
Import Example VectorService.
Local Open Scope R_scope.

(** X28 on a search over the two rows of [tied]. *)
Lemma find_similar_images_answers_witness :
  find_similar_images settings2 tied east None 5 (Some 0)
                      (Ok [similar 1 1; similar 2 1])
  /\ exists found,
       Ok [similar 1 1; similar 2 1] = Ok found.
Proof.
  split; [exact tied_first_order|].
  apply (find_similar_images_answers settings2 tied east None 5 (Some 0)).
  - lia.
  - simpl. lra.
  - reflexivity.
  - rewrite vector_norm_east. lra.
  - unfold tied. repeat constructor; simpl; rewrite vector_norm_east; lra.
  - exact tied_first_order.
Defined.

End ScoreExamples.

(* ================================================================== *)
(** ** Uploads that answer *)

Section UploadAnswers.
Context {fp : PyFloat} {hl : Hashlib} {rnd : PyRandom} {pil : Pillow}.
Variable settings : Settings.
Local Open Scope string_scope.

Lemma generate_mock_embedding_any_state (content : bytes) (filename : string)
      (s1 s2 : rng_state) :
  generate_mock_embedding settings content filename s1
  = generate_mock_embedding settings content filename s2.
Proof.
  unfold generate_mock_embedding, Rand.bind.
  rewrite (raw_embedding_reseeds settings content filename s1 s2).
  reflexivity.
Qed.

Lemma upload_image_answers (env : ImagesAPI.UploadEnv)
      (file : ImagesAPI.UploadFile) (tbl : Table) (s : rng_state) :
  validate_image settings (ImagesAPI.file_content file)
    (Image.content_type (ImagesAPI.new_image env file [] []))
    (or_unknown (ImagesAPI.file_filename file)) = Ok tt ->
  id_in (ImagesAPI.uuid4 env) tbl = false ->
  String.length (or_unknown (ImagesAPI.file_filename file)) <= 255 ->
  String.length (Image.content_type (ImagesAPI.new_image env file [] []))
  <= 100 ->
  (Z.of_nat (String.length (ImagesAPI.file_content file)) <= 2147483647)%Z ->
  exists resp tbl' s',
    ImagesAPI.upload_image settings env file tbl s = (Ok resp, tbl', s').
Proof.
  intros Hv Hid Hname Htype Hsize.
  destruct (upload_image_cases settings env file tbl s)
    as [[e [Hv' _]]|[_ [embedding [metadata [s' [_ [_ [Hlen H]]]]]]]];
    [congruence|].
  rewrite H. unfold db_insert.
  change (Image.id (ImagesAPI.new_image env file embedding metadata))
    with (ImagesAPI.uuid4 env).
  rewrite Hid.
  destruct (column_types_ok settings
              (ImagesAPI.new_image env file embedding metadata)) eqn:Hcol.
  - simpl. do 3 eexists. reflexivity.
  - exfalso.
    destruct (new_image_columns settings env file embedding metadata Hlen Hcol)
      as [Hc|[Hc|Hc]].
    + lia.
    + change (Image.content_type
                (ImagesAPI.new_image env file embedding metadata))
        with (Image.content_type (ImagesAPI.new_image env file [] [])) in Hc.
      lia.
    + lia.
Qed.

Lemma get_image_embedding_appended (tbl : Table) (img : Image.t) :
  id_in (Image.id img) tbl = false -> is_completed img = true ->
  VectorService.get_image_embedding (tbl ++ [img])%list (Image.id img)
  = Ok (Some (Image.embedding_vector img)).
Proof.
  intros Hid Hc. unfold VectorService.get_image_embedding.
  rewrite completed_rows_by_id. unfold select_by_id. rewrite filter_app.
  fold (select_by_id tbl (Image.id img)).
  rewrite (select_by_id_absent _ _ Hid). simpl.
  rewrite N.eqb_refl. simpl. rewrite Hc. reflexivity.
Qed.

Lemma get_image_embedding_other (tbl : Table) (img : Image.t) (v : UUID) :
  Image.id img <> v ->
  VectorService.get_image_embedding (tbl ++ [img])%list v
  = VectorService.get_image_embedding tbl v.
Proof.
  intros Hne. unfold VectorService.get_image_embedding.
  rewrite filter_app. simpl. apply N.eqb_neq in Hne. rewrite Hne. simpl.
  rewrite app_nil_r. reflexivity.
Qed.

(** X29.  The handler checks no length: a file that passes
    [validate_image] but whose filename is longer than the 255 characters
    of its column, or whose content type is longer than 100, is refused by
    the database, and the request ends with status 500 and nothing
    stored. *)
Theorem upload_long_name_is_server_error
        (env : ImagesAPI.UploadEnv) (file : ImagesAPI.UploadFile)
        (tbl : Table) (s : rng_state) :
  validate_image settings (ImagesAPI.file_content file)
    (Image.content_type (ImagesAPI.new_image env file [] []))
    (or_unknown (ImagesAPI.file_filename file)) = Ok tt ->
  255 < String.length (or_unknown (ImagesAPI.file_filename file))
  \/ 100 < String.length
              (Image.content_type (ImagesAPI.new_image env file [] [])) ->
  exists detail s',
    ImagesAPI.upload_image settings env file tbl s
    = (Raise (HTTPException 500 detail), tbl, s').
Proof.
  intros Hv Hlong.
  destruct (upload_image_cases settings env file tbl s)
    as [[e [Hv' _]]|[_ [embedding [metadata [s' [_ [_ [_ H]]]]]]]];
    [congruence|].
  rewrite H. unfold db_insert.
  destruct (id_in _ tbl); [do 2 eexists; reflexivity|].
  destruct (column_types_ok settings
              (ImagesAPI.new_image env file embedding metadata)) eqn:Hcol;
    [|do 2 eexists; reflexivity].
  exfalso. unfold column_types_ok in Hcol. simpl in Hcol.
  repeat (apply andb_prop in Hcol; destruct Hcol as [Hcol ?]).
  repeat match goal with
         | H : Nat.leb _ _ = true |- _ => apply Nat.leb_le in H
         end.
  simpl in Hlong. lia.
Qed.

(** X30.  Two uploads of the same content under the same filename store
    the same embedding, whatever the generator was left in between: the
    two rows have different IDs and [get_image_embedding] returns one
    vector for both. *)
Theorem upload_same_file_twice
        (env1 env2 : ImagesAPI.UploadEnv) (file1 file2 : ImagesAPI.UploadFile)
        (tbl tbl1 tbl2 : Table) (s1 s1' s2 s2' : rng_state)
        (resp1 resp2 : ImageUploadResponse.t) :
  ImagesAPI.file_content file1 = ImagesAPI.file_content file2 ->
  or_unknown (ImagesAPI.file_filename file1)
  = or_unknown (ImagesAPI.file_filename file2) ->
  ImagesAPI.upload_image settings env1 file1 tbl s1 = (Ok resp1, tbl1, s1') ->
  ImagesAPI.upload_image settings env2 file2 tbl1 s2 = (Ok resp2, tbl2, s2') ->
  ImageUploadResponse.id resp1 <> ImageUploadResponse.id resp2
  /\ exists embedding,
       VectorService.get_image_embedding tbl2 (ImageUploadResponse.id resp1)
       = Ok (Some embedding)
       /\ VectorService.get_image_embedding tbl2 (ImageUploadResponse.id resp2)
          = Ok (Some embedding).
Proof.
  intros Hcontent Hname Hup1 Hup2.
  apply upload_image_ok_inv in Hup1.
  destruct Hup1 as [e1 [m1 [_ [Hg1 [-> [Hid1 Hfresh1]]]]]].
  apply upload_image_ok_inv in Hup2.
  destruct Hup2 as [e2 [m2 [_ [Hg2 [-> [Hid2 Hfresh2]]]]]].
  rewrite Hid1, Hid2.
  assert (He : e1 = e2).
  { rewrite Hcontent, Hname in Hg1.
    rewrite (generate_mock_embedding_any_state _ _ s1 s2) in Hg1. congruence. }
  subst e2.
  assert (Hne : ImagesAPI.uuid4 env1 <> ImagesAPI.uuid4 env2).
  { intros E. unfold id_in in Hfresh2. rewrite existsb_app in Hfresh2.
    apply orb_false_iff in Hfresh2. destruct Hfresh2 as [_ Hlast].
    simpl in Hlast. rewrite E, N.eqb_refl in Hlast. discriminate. }
  split; [exact Hne|]. exists e1. split.
  - rewrite get_image_embedding_other by (simpl; congruence).
    apply (get_image_embedding_appended tbl
             (ImagesAPI.new_image env1 file1 e1 m1) Hfresh1). reflexivity.
  - apply (get_image_embedding_appended _
             (ImagesAPI.new_image env2 file2 e1 m2) Hfresh2). reflexivity.
Qed.

End UploadAnswers.

Section UploadAnswersExamples.
Import Example.
Local Open Scope string_scope.

(** X29 on a PNG whose name has 260 characters. *)
Lemma upload_long_name_is_server_error_witness :
  String.length (zeros 256 ++ ".png") = 260
  /\ exists detail s',
       ImagesAPI.upload_image settings2 first_upload
         {| ImagesAPI.file_content := "abc";
            ImagesAPI.file_filename := Some (zeros 256 ++ ".png");
            ImagesAPI.file_content_type := Some "image/png" |} [] 0%Z
       = (Raise (HTTPException 500 detail), [], s').
Proof.
  split; [reflexivity|].
  apply (upload_long_name_is_server_error (rnd := pyrandom) settings2).
  - reflexivity.
  - left. vm_compute. lia.
Defined.

(** X30 on the same PNG uploaded a second time under a new ID. *)
Lemma upload_same_file_twice_witness :
  exists resp1 resp2 tbl1 tbl2 s1 s2 embedding,
    ImagesAPI.upload_image settings2 first_upload png_file [] 0%Z
    = (Ok resp1, tbl1, s1)
    /\ ImagesAPI.upload_image settings2
         {| ImagesAPI.uuid4 := 8%N;
            ImagesAPI.now_iso := "2024-01-02T00:00:00";
            ImagesAPI.utcnow := 2%Z;
            ImagesAPI.server_now := 2%Z |} png_file tbl1 5%Z
       = (Ok resp2, tbl2, s2)
    /\ ImageUploadResponse.id resp1 <> ImageUploadResponse.id resp2
    /\ VectorService.get_image_embedding tbl2 (ImageUploadResponse.id resp1)
       = Ok (Some embedding)
    /\ VectorService.get_image_embedding tbl2 (ImageUploadResponse.id resp2)
       = Ok (Some embedding).
Proof.
  destruct first_upload_answers as [resp1 [img [s1 [Hup1 Hid]]]].
  destruct (upload_image_answers (rnd := pyrandom) settings2
              {| ImagesAPI.uuid4 := 8%N;
                 ImagesAPI.now_iso := "2024-01-02T00:00:00";
                 ImagesAPI.utcnow := 2%Z;
                 ImagesAPI.server_now := 2%Z |} png_file [img] 5%Z)
    as [resp2 [tbl2 [s2 Hup2]]].
  - reflexivity.
  - simpl. rewrite Hid. reflexivity.
  - simpl. lia.
  - simpl. lia.
  - simpl. lia.
  - destruct (upload_same_file_twice (rnd := pyrandom) settings2 _ _ _ _ _ _ _
                _ _ _ _ _ _ eq_refl eq_refl Hup1 Hup2)
      as [Hne [embedding [H1 H2]]].
    exists resp1, resp2, [img], tbl2, s1, s2, embedding. auto.
Defined.

End UploadAnswersExamples.
